(** * CellTypist: feature alignment, standardisation, majority voting and
      the trainer, as a shallow embedding of [celltypist/classifier.py] and
      [celltypist/train.py].

    Conventions of the embedding.
    - A Python float is a real number ([R]): rounding, [inf] and [nan] are
      outside the model.  numpy divides by zero without raising (the
      module silences [RuntimeWarning]); the model divides with [Rdiv],
      which raises nothing either, and every statement about a quotient's
      value asks for a non-zero divisor.
    - A 1-D array, an [Index] or a [Series] of values is a list; a 2-D
      array is the list of its rows.
    - Python objects that are shared and mutated live in a heap, addressed
      by locations; an exception leaves the heap as it was when raised.
    - Functions of scanpy, scikit-learn and of [celltypist/models.py],
      which the repository calls and does not define in these files, are
      parameters of the sections that use them. *)

From Stdlib Require Import Reals Lra Lia List String Ascii Bool Arith.
From Stdlib Require Import Sorting.Sorted OrderedTypeEx.
From stdpp Require Import gmap strings list.
Import ListNotations.
Local Open Scope string_scope.

(* ================================================================== *)
(** * Part I: the model *)
(* ================================================================== *)

(** ** Exceptions and the state-and-exception monad *)

Module Py.

(** The exception classes the two modules raise or let through; a
    message is the source's text without the values it interpolates. *)
Inductive exn : Type :=
| ValueError (msg : string)
| NameError (name : string)
| IndexError (msg : string)
| KeyError (key : string)
| AttributeError (name : string)
| ZeroDivisionError (msg : string)
| FileNotFoundError (msg : string)
| Exception (msg : string).

Definition result (A : Type) : Type := (exn + A)%type.

(** A computation over a mutable state [S]: it returns the state it
    leaves behind together with a value or the exception raised. *)
Definition M (S A : Type) : Type := S -> S * result A.

Definition ret {S A} (a : A) : M S A := fun s => (s, inr a).
Definition raise {S A} (e : exn) : M S A := fun s => (s, inl e).
Definition bind {S A B} (m : M S A) (k : A -> M S B) : M S B :=
  fun s => match m s with
           | (s', inl e) => (s', inl e)
           | (s', inr a) => k a s'
           end.
Definition get {S} : M S S := fun s => (s, inr s).
Definition modify {S} (f : S -> S) : M S unit := fun s => (f s, inr tt).
(** A pure fallible step inside a stateful computation. *)
Definition lift {S A} (r : result A) : M S A := fun s => (s, r).

(** The pure fragment: [result] alone. *)
Definition rbind {A B} (r : result A) (k : A -> result B) : result B :=
  match r with inl e => inl e | inr a => k a end.

Fixpoint mapM {A B} (f : A -> result B) (l : list A) : result (list B) :=
  match l with
  | [] => inr []
  | x :: l' => rbind (f x) (fun y => rbind (mapM f l') (fun ys => inr (y :: ys)))
  end.

(** A [for] loop that threads the loop-carried variables [b]. *)
Fixpoint for_each {S A B} (l : list A) (body : A -> B -> M S B) (b : B) : M S B :=
  match l with
  | [] => ret b
  | x :: l' => bind (body x b) (for_each l' body)
  end.

End Py.
Import Py.

Declare Scope py_scope.
Delimit Scope py_scope with py.
Notation "x <- m ;; k" := (bind m (fun x => k))
  (at level 100, m at next level, right associativity) : py_scope.
Notation "m ;;; k" := (bind m (fun _ => k))
  (at level 100, right associativity) : py_scope.
Notation "x <~ r ;; k" := (rbind r (fun x => k))
  (at level 100, r at next level, right associativity) : py_scope.
Local Open Scope py_scope.

(** ** numpy *)

Module Np.

(** A 2-D array of floats. *)
Abbreviation ndarray2 := (list (list R)).

(** [np.isin(element, test_elements)] on arrays of names. *)
Definition isin (element test_elements : list string) : list bool :=
  map (fun g => existsb (String.eqb g) test_elements) element.

(** [np.where(mask)[0]]: the positions that hold [True], ascending. *)
Fixpoint where_from (i : nat) (mask : list bool) : list nat :=
  match mask with
  | [] => []
  | b :: mask' =>
      if b then i :: where_from (S i) mask' else where_from (S i) mask'
  end.
Definition where_ (mask : list bool) : list nat := where_from 0 mask.

(** [a[idx]] with an integer array [idx]: numpy raises [IndexError] on an
    index past the end. *)
Definition take {A} (a : list A) (idx : list nat) : result (list A) :=
  mapM (fun i => match a !! i with
                 | Some x => inr x
                 | None => inl (IndexError "index is out of bounds")
                 end) idx.

(** [a[:, idx]]. *)
Definition take_cols {A} (a : list (list A)) (idx : list nat)
  : result (list (list A)) :=
  mapM (fun row => take row idx) a.

(** [a[mask]] and [a[:, mask]] with a boolean mask of the array's length. *)
Fixpoint compress {A} (mask : list bool) (a : list A) : list A :=
  match mask, a with
  | b :: mask', x :: a' => if b then x :: compress mask' a' else compress mask' a'
  | _, _ => []
  end.

(** Broadcasting a binary operation between a row of a [(n, k)] array
    and a [(k',)] vector: equal lengths pair up, a length of one is
    stretched, anything else is numpy's [ValueError]. *)
Definition broadcast_row (op : R -> R -> R) (v row : list R) : result (list R) :=
  if Nat.eqb (length row) (length v) then inr (zip_with op row v)
  else if Nat.eqb (length row) 1 then inr (map (op (hd 0%R row)) v)
  else if Nat.eqb (length v) 1 then inr (map (fun x => op x (hd 0%R v)) row)
  else inl (ValueError "operands could not be broadcast together").

Definition subtract (a : ndarray2) (v : list R) : result ndarray2 :=
  mapM (broadcast_row Rminus v) a.
Definition divide (a : ndarray2) (v : list R) : result ndarray2 :=
  mapM (broadcast_row Rdiv v) a.

(** [a[a > bound] = value]. *)
Definition setitem_gt (bound value : R) (a : ndarray2) : ndarray2 :=
  map (map (fun x => if Rgt_dec x bound then value else x)) a.

(** [np.clip(a, a_min=None, a_max=hi)]. *)
Definition clip_max (hi : R) (a : ndarray2) : ndarray2 :=
  map (map (fun x => Rmin x hi)) a.

Definition sum (v : list R) : R := fold_right Rplus 0%R v.
Definition expm1 (x : R) : R := (exp x - 1)%R.

(** [a.sum(axis = 0)]: the column sums of a matrix with [k] columns. *)
Definition sum_axis0 (k : nat) (a : ndarray2) : list R :=
  map (fun j => sum (map (fun row => nth j row 0%R) a)) (seq 0 k).

(** [a.min()], of a matrix with at least one entry. *)
Definition amin (a : ndarray2) : option R :=
  match concat a with
  | [] => None
  | x :: xs => Some (fold_left Rmin xs x)
  end.

(** [np.unique]: ascending, duplicates dropped; [cmp] is the order of
    the element type. *)
Fixpoint insert_unique {A} (cmp : A -> A -> comparison) (x : A) (l : list A)
  : list A :=
  match l with
  | [] => [x]
  | y :: l' =>
      match cmp x y with
      | Lt => x :: l
      | Eq => l
      | Gt => y :: insert_unique cmp x l'
      end
  end.
Definition unique_by {A} (cmp : A -> A -> comparison) (l : list A) : list A :=
  fold_right (insert_unique cmp) [] l.
(** On names the order is that of the code points, [String.compare]. *)
Definition unique (l : list string) : list string := unique_by String.compare l.
Definition unique_nat (l : list nat) : list nat := unique_by Nat.compare l.

(** [np.arange(0, stop, step)] for a positive [step]. *)
Definition arange (stop step : nat) : list nat :=
  map (fun i => i * step) (seq 0 (Nat.div (stop + step - 1) step)).

End Np.

(** ** pandas *)

Module Pd.

(** A [DataFrame]: the row labels, the column names and the rows. *)
Record DataFrame (A : Type) : Type := mkDataFrame {
  df_index : list string;
  df_columns : list string;
  df_values : list (list A)
}.
Arguments mkDataFrame {A} _ _ _.
Arguments df_index {A} _.
Arguments df_columns {A} _.
Arguments df_values {A} _.

(** [pd.DataFrame(data, columns=..., index=...)] from a 2-D array: pandas
    raises [ValueError] when the shape of [data] is not
    [(len(index), len(columns))]. *)
Definition DataFrame_ {A} (data : list (list A)) (columns index : list string)
  : result (DataFrame A) :=
  if negb (Nat.eqb (length data) (length index)) then
    inl (ValueError "Shape of passed values does not match the index")
  else if negb (forallb (fun row => Nat.eqb (length row) (length columns)) data) then
    inl (ValueError "Shape of passed values does not match the columns")
  else inr (mkDataFrame index columns data).

(** The positions of [key] in [l], ascending. *)
Fixpoint positions_from (i : nat) (key : string) (l : list string) : list nat :=
  match l with
  | [] => []
  | x :: l' =>
      if String.eqb key x then i :: positions_from (S i) key l'
      else positions_from (S i) key l'
  end.
Definition positions (key : string) (l : list string) : list nat :=
  positions_from 0 key l.

(** [pd.DataFrame(names, columns=['features']).reset_index()
      .set_index('features').loc[keys, 'index'].values]:
    for every key in turn, the positions of the rows labelled with it;
    a key that labels no row is a [KeyError]. *)
Definition loc_index (names keys : list string) : result (list nat) :=
  ps <~ mapM (fun k => match positions k names with
                       | [] => inl (KeyError k)
                       | p => inr p
                       end) keys ;;
  inr (concat ps).

(** [df[name]]: the column called [name]. *)
Definition getitem {A} (df : DataFrame A) (name : string) : result (list A) :=
  match positions name (df_columns df) with
  | [] => inl (KeyError name)
  | j :: _ =>
      mapM (fun row => match row !! j with
                       | Some x => inr x
                       | None => inl (IndexError "row is shorter than the columns")
                       end) (df_values df)
  end.

(** The contingency table of [crosstab]: row keys, column keys, counts. *)
Record Crosstab : Type := mkCrosstab {
  ct_index : list string;
  ct_columns : list string;
  ct_counts : list (list nat)
}.

(** How many cells carry row key [r] and column key [c]. *)
Fixpoint count_pairs (r c : string) (rows cols : list string) : nat :=
  match rows, cols with
  | x :: rows', y :: cols' =>
      (if String.eqb r x && String.eqb c y then 1 else 0)
      + count_pairs r c rows' cols'
  | _, _ => 0
  end.

(** [pd.crosstab(index, columns)] of a [Series] and an array: pandas
    builds a frame over the series' index and raises [ValueError] when
    the array's length is not the index's.  The row and the column keys
    are the sorted distinct values. *)
Definition crosstab (index columns : list string) : result Crosstab :=
  if negb (Nat.eqb (length columns) (length index)) then
    inl (ValueError "Length of values does not match length of index")
  else
    let rs := Np.unique index in
    let cs := Np.unique columns in
    inr (mkCrosstab rs cs
           (map (fun r => map (fun c => count_pairs r c index columns) cs) rs)).

(** The position of the first maximum of a list of counts. *)
Fixpoint argmax_from (i best_i best : nat) (l : list nat) : nat :=
  match l with
  | [] => best_i
  | x :: l' =>
      if Nat.ltb best x then argmax_from (S i) i x l'
      else argmax_from (S i) best_i best l'
  end.
Definition argmax (l : list nat) : option nat :=
  match l with
  | [] => None
  | x :: l' => Some (argmax_from 1 0 x l')
  end.

(** [votes.idxmax()]: for every column the row key of the first maximum,
    as a [Series] indexed by the column keys. *)
Definition idxmax (t : Crosstab) : result (list (string * string)) :=
  mapM (fun jc : nat * string =>
          let (j, c) := jc in
          match argmax (map (fun row => nth j row 0) (ct_counts t)) with
          | None => inl (ValueError "attempt to get argmax of an empty sequence")
          | Some i => inr (c, nth i (ct_index t) "")
          end)
       (combine (seq 0 (length (ct_columns t))) (ct_columns t)).

(** [series[keys]] on a series with unique labels, then [.reset_index()]:
    one row per key, holding the key and the value it labels. *)
Definition series_getitem_reset (s : list (string * string)) (keys : list string)
  : result (list (list string)) :=
  mapM (fun k => match find (fun kv => String.eqb k (fst kv)) s with
                 | Some kv => inr [k; snd kv]
                 | None => inl (KeyError k)
                 end) keys.

(** [df.index = new_index]. *)
Definition set_index {A} (df : DataFrame A) (new_index : list string)
  : result (DataFrame A) :=
  if Nat.eqb (length (df_values df)) (length new_index) then
    inr (mkDataFrame new_index (df_columns df) (df_values df))
  else inl (ValueError "Length mismatch: Expected axis has a different number of elements").

(** [df.columns = new_columns]. *)
Definition set_columns {A} (df : DataFrame A) (new_columns : list string)
  : result (DataFrame A) :=
  if Nat.eqb (length (df_columns df)) (length new_columns) then
    inr (mkDataFrame (df_index df) new_columns (df_values df))
  else inl (ValueError "Length mismatch: Expected axis has a different number of elements").

(** [left.join(right)]: a left join on the row labels.  Overlapping
    column names are a [ValueError]; a left row is paired with every
    right row that carries its label, in order, and with a row of [na]
    when there is none. *)
Definition join_row {A} (na : A) (right : DataFrame A) (kl : string * list A)
  : list (string * list A) :=
  match positions (fst kl) (df_index right) with
  | [] => [(fst kl, (snd kl ++ repeat na (length (df_columns right)))%list)]
  | ps => map (fun p => (fst kl, (snd kl ++ nth p (df_values right) [])%list)) ps
  end.

Definition join {A} (na : A) (left right : DataFrame A) : result (DataFrame A) :=
  if existsb (fun c => existsb (String.eqb c) (df_columns left)) (df_columns right)
  then inl (ValueError "columns overlap but no suffix specified")
  else
    let rows := flat_map (join_row na right)
                         (combine (df_index left) (df_values left)) in
    inr (mkDataFrame (map fst rows)
                     (df_columns left ++ df_columns right)%list
                     (map snd rows)).

End Pd.

(** ** The objects of [celltypist/classifier.py] *)

(** A location of the heap. *)
Definition loc : Type := nat.

(** scanpy's [AnnData], as far as the two modules read it. *)
Module AnnData.

Record t : Type := mk {
  X : Np.ndarray2;
  obs_names : list string;
  var_names : list string;
  raw : option (Np.ndarray2 * list string)
}.

Definition n_obs (a : t) : nat := length (obs_names a).
Definition n_vars (a : t) : nat := length (var_names a).

(** [adata.transpose()]. *)
Definition transpose (a : t) : t :=
  mk (map (fun j => map (fun row => nth j row 0%R) (X a)) (seq 0 (n_vars a)))
     (var_names a) (obs_names a) None.

End AnnData.

(** The model bundle of [celltypist/models.py]: scikit-learn's classifier
    and scaler objects with the attributes the two modules read and set. *)
Module Model.

Record SGDClassifier : Type := mkSGDClassifier {
  coef_ : Np.ndarray2;
  intercept_ : list R;
  classes_ : list string;
  n_features_in_ : nat;
  features : list string
}.

Record StandardScaler : Type := mkStandardScaler {
  mean_ : list R;
  var_ : list R;
  scale_ : list R;
  scaler_n_features_in_ : nat
}.

Record Description : Type := mkDescription {
  date : string;
  details : string;
  url : string
}.

Record t : Type := mk {
  classifier : SGDClassifier;
  scaler : StandardScaler;
  description : Description
}.

Definition set_n_features_in_ (n : nat) (c : SGDClassifier) : SGDClassifier :=
  mkSGDClassifier (coef_ c) (intercept_ c) (classes_ c) n (features c).
Definition set_features (f : list string) (c : SGDClassifier) : SGDClassifier :=
  mkSGDClassifier (coef_ c) (intercept_ c) (classes_ c) (n_features_in_ c) f.
Definition set_coef_ (w : Np.ndarray2) (c : SGDClassifier) : SGDClassifier :=
  mkSGDClassifier w (intercept_ c) (classes_ c) (n_features_in_ c) (features c).
Definition with_classifier (f : SGDClassifier -> SGDClassifier) (m : t) : t :=
  mk (f (classifier m)) (scaler m) (description m).

End Model.

Module AnnotationResult.

Record t : Type := mk {
  predicted_labels : Pd.DataFrame string;
  probability_table : Pd.DataFrame R;
  cell_count : nat;
  adata : AnnData.t
}.

(** [AnnotationResult.__init__]. *)
Definition __init__ (labels : Pd.DataFrame string) (prob : Pd.DataFrame R)
  (adata : AnnData.t) : t :=
  mk labels prob (length (Pd.df_values labels)) adata.

Definition set_predicted_labels (df : Pd.DataFrame string) (r : t) : t :=
  mk df (probability_table r) (cell_count r) (adata r).

End AnnotationResult.

#[global] Instance Model_inhabited : Inhabited Model.t :=
  populate (Model.mk (Model.mkSGDClassifier [] [] [] 0 [])
                     (Model.mkStandardScaler [] [] [] 0)
                     (Model.mkDescription "" "" "")).
#[global] Instance AnnData_inhabited : Inhabited AnnData.t :=
  populate (AnnData.mk [] [] [] None).
#[global] Instance AnnotationResult_inhabited : Inhabited AnnotationResult.t :=
  populate (AnnotationResult.mk (Pd.mkDataFrame [] [] []) (Pd.mkDataFrame [] [] [])
                                0 (AnnData.mk [] [] [] None)).

Module Classifier.

(** The attributes of a [Classifier] object; [model] is a reference to a
    [Model] object that the caller and other classifiers may hold too. *)
Record t : Type := mk {
  filename : string;
  adata : AnnData.t;
  indata : Np.ndarray2;
  indata_genes : list string;
  model : loc
}.

#[global] Instance inhabited : Inhabited t :=
  populate (mk "" (AnnData.mk [] [] [] None) [] [] 0).

Definition set_indata (a : Np.ndarray2) (c : t) : t :=
  mk (filename c) (adata c) a (indata_genes c) (model c).
Definition set_indata_genes (g : list string) (c : t) : t :=
  mk (filename c) (adata c) (indata c) g (model c).

(** The heap: the [Model], [Classifier] and [AnnotationResult] objects. *)
Record Heap : Type := mkHeap {
  models : gmap loc Model.t;
  classifiers : gmap loc t;
  results : gmap loc AnnotationResult.t
}.

Definition update_model (l : loc) (f : Model.t -> Model.t) (h : Heap) : Heap :=
  mkHeap (<[l := f (models h !!! l)]> (models h)) (classifiers h) (results h).
Definition update_classifier (l : loc) (f : t -> t) (h : Heap) : Heap :=
  mkHeap (models h) (<[l := f (classifiers h !!! l)]> (classifiers h)) (results h).
Definition update_result (l : loc) (f : AnnotationResult.t -> AnnotationResult.t)
  (h : Heap) : Heap :=
  mkHeap (models h) (classifiers h) (<[l := f (results h !!! l)]> (results h)).

(** Allocation of a fresh object. *)
Definition new_result (r : AnnotationResult.t) : M Heap loc :=
  fun h => let l := fresh (dom (results h)) in
           (mkHeap (models h) (classifiers h) (<[l := r]> (results h)), inr l).
Definition new_classifier (c : t) : M Heap loc :=
  fun h => let l := fresh (dom (classifiers h)) in
           (mkHeap (models h) (<[l := c]> (classifiers h)) (results h), inr l).

(** [s.endswith(suffixes)]. *)
Definition endswith (s : string) (suffixes : list string) : bool :=
  existsb (fun suf =>
             let n := String.length s in
             let k := String.length suf in
             Nat.leb k n && String.eqb (substring (n - k) k s) suf) suffixes.

(** The integrity check of a log1p-normalised matrix, as both modules
    write it: [np.abs(np.expm1(indata[0]).sum() - 10000) > 1]. *)
Definition not_normalised (indata : Np.ndarray2) : result bool :=
  match indata !! 0 with
  | None => inl (IndexError "index 0 is out of bounds for axis 0 with size 0")
  | Some row0 =>
      inr (if Rgt_dec (Rabs (Np.sum (map Np.expm1 row0) - 10000)) 1
           then true else false)
  end.

Section Loader.

(** scanpy and pandas readers and preprocessing steps. *)
Variable sc_read : string -> result AnnData.t.
Variable read_column : string -> result (list string).
Variable var_names_make_unique : list string -> list string.
Variable normalize_total : R -> Np.ndarray2 -> Np.ndarray2.
Variable log1p : Np.ndarray2 -> Np.ndarray2.

(** [Classifier.__init__]: the new object is allocated when the
    constructor has run to its end. *)
Definition __init__ (filename : string) (model : loc) (transpose : bool)
  (gene_file cell_file : option string) : M Heap loc :=
  if endswith filename [".csv"; ".txt"; ".tsv"; ".tab"; ".mtx"; ".mtx.gz"] then
    adata <- lift (sc_read filename) ;;
    let adata := if transpose then AnnData.transpose adata else adata in
    adata <-
      (if endswith filename [".mtx"; ".mtx.gz"] then
         match gene_file, cell_file with
         | Some gf, Some cf =>
             genes_mtx <- lift (read_column gf) ;;
             cells_mtx <- lift (read_column cf) ;;
             if negb (Nat.eqb (length genes_mtx) (AnnData.n_vars adata)) then
               raise (ValueError "The number of genes in gene_file does not match the number of genes in the input")
             else if negb (Nat.eqb (length cells_mtx) (AnnData.n_obs adata)) then
               raise (ValueError "The number of cells in cell_file does not match the number of cells in the input")
             else ret (AnnData.mk (AnnData.X adata) cells_mtx genes_mtx (AnnData.raw adata))
         | _, _ =>
             raise (FileNotFoundError "Missing `gene_file` and/or `cell_file`")
         end
       else ret adata) ;;
    let adata := AnnData.mk (log1p (normalize_total 10000 (AnnData.X adata)))
                            (AnnData.obs_names adata)
                            (var_names_make_unique (AnnData.var_names adata))
                            (AnnData.raw adata) in
    new_classifier (mk filename adata (AnnData.X adata) (AnnData.var_names adata) model)
  else if endswith filename [".h5ad"] then
    adata <- lift (sc_read filename) ;;
    lo <- lift (match Np.amin (AnnData.X adata) with
                | Some lo => inr lo
                | None => inl (ValueError "zero-size array to reduction operation minimum which has no identity")
                end) ;;
    ig <- (if Rlt_dec lo 0 then
             match AnnData.raw adata with
             | Some rw => ret rw
             | None => raise (Exception "Fail to use the .raw attribute in the input object")
             end
           else ret (AnnData.X adata, AnnData.var_names adata)) ;;
    bad <- lift (not_normalised (fst ig)) ;;
    if (bad : bool) then
      raise (ValueError "Invalid expression matrix, expect log1p normalized expression to 10000 counts per cell")
    else new_classifier (mk filename adata (fst ig) (snd ig) model)
  else
    raise (ValueError "Invalid input file type. Supported types: .csv, .txt, .tsv, .tab, .mtx, .mtx.gz and .h5ad").

End Loader.

(** The first two stages of [Classifier.celltype], "Matching reference
    genes" and "Scaling input data", up to the line before the
    prediction: the value is the scaled matrix, [self.indata]. *)
Definition celltype_prepare (self : loc) : M Heap Np.ndarray2 :=
  h <- get ;;
  let c := classifiers h !!! self in
  let mref := model c in
  let clf := Model.classifier (models h !!! mref) in
  let scl := Model.scaler (models h !!! mref) in
  (* Matching reference genes *)
  let k_x := Np.isin (indata_genes c) (Model.features clf) in
  let k_x_idx := Np.where_ k_x in
  indata1 <- lift (Np.take_cols (indata c) k_x_idx) ;;
  modify (update_classifier self (set_indata indata1)) ;;;
  genes1 <- lift (Np.take (indata_genes c) k_x_idx) ;;
  modify (update_classifier self (set_indata_genes genes1)) ;;;
  lr_idx <- lift (Pd.loc_index (Model.features clf) genes1) ;;
  (* Scaling input data *)
  means_ <- lift (Np.take (Model.mean_ scl) lr_idx) ;;
  sds_ <- lift (Np.take (Model.scale_ scl) lr_idx) ;;
  indata2 <- lift (Np.subtract indata1 means_) ;;
  modify (update_classifier self (set_indata indata2)) ;;;
  indata3 <- lift (Np.divide indata2 sds_) ;;
  let indata4 := Np.setitem_gt 10 10 indata3 in
  modify (update_classifier self (set_indata indata4)) ;;;
  (* the model object is cut down to the matched genes *)
  modify (update_model mref
            (Model.with_classifier (Model.set_n_features_in_ (length lr_idx)))) ;;;
  features1 <- lift (Np.take (Model.features clf) lr_idx) ;;
  modify (update_model mref (Model.with_classifier (Model.set_features features1))) ;;;
  coef1 <- lift (Np.take_cols (Model.coef_ clf) lr_idx) ;;
  modify (update_model mref (Model.with_classifier (Model.set_coef_ coef1))) ;;;
  ret indata4.

Section Celltype.

(** [Model.predict_labels_and_prob] of [celltypist/models.py]: from the
    model and the scaled matrix, the label of every cell and the
    probability matrix.  It reads the model and changes nothing. *)
Variable predict_labels_and_prob :
  Model.t -> Np.ndarray2 -> result (list string * Np.ndarray2).

(** [Classifier.celltype]; the result is a new [AnnotationResult]. *)
Definition celltype (self : loc) : M Heap loc :=
  indata4 <- celltype_prepare self ;;
  (* Predicting labels *)
  h1 <- get ;;
  let c := classifiers h1 !!! self in
  let mdl := models h1 !!! model c in
  lp <- lift (predict_labels_and_prob mdl indata4) ;;
  let cells := AnnData.obs_names (adata c) in
  labels <- lift (Pd.DataFrame_ (map (fun l => [l]) (fst lp)) ["predicted_labels"] cells) ;;
  prob <- lift (Pd.DataFrame_ (snd lp) (Model.classes_ (Model.classifier mdl)) cells) ;;
  new_result (AnnotationResult.__init__ labels prob (adata c)).

End Celltype.

(** The string pandas shows for a missing value. *)
Definition NaN : string := "nan".

(** [Classifier.majority_vote], with [over_clustering] a list or an array
    of cluster ids; [predictions] is the caller's object. *)
Definition majority_vote (predictions : loc) (over_clustering : list string)
  : M Heap loc :=
  h <- get ;;
  let p := results h !!! predictions in
  labels <- lift (Pd.getitem (AnnotationResult.predicted_labels p) "predicted_labels") ;;
  votes <- lift (Pd.crosstab labels over_clustering) ;;
  best <- lift (Pd.idxmax votes) ;;
  rows <- lift (Pd.series_getitem_reset best over_clustering) ;;
  let majority := Pd.mkDataFrame (map (fun _ => "") rows) ["col_0"; "0"] rows in
  majority <- lift (Pd.set_index majority
                      (Pd.df_index (AnnotationResult.predicted_labels p))) ;;
  majority <- lift (Pd.set_columns majority ["over_clustering"; "majority_voting"]) ;;
  joined <- lift (Pd.join NaN (AnnotationResult.predicted_labels p) majority) ;;
  modify (update_result predictions (AnnotationResult.set_predicted_labels joined)) ;;;
  ret predictions.

End Classifier.

(** ** [celltypist/train.py] *)

Module Train.

(** The keyword arguments handed on to [SGDClassifier]. *)
Record SGDParams : Type := mkSGDParams {
  alpha : R;
  max_iter : nat;
  n_jobs : option nat;
  kwargs : list (string * string)
}.

(** A scikit-learn estimator object: [None] until it is fitted. *)
Definition estimator : Type := option Model.SGDClassifier.

(** The fitting calls the estimators receive, oldest first: the state of
    a training run. *)
Inductive call : Type :=
| Fit (X : Np.ndarray2) (y : list string)
| PartialFit (X : Np.ndarray2) (y : list string) (classes : list string).

Definition record (c : call) : M (list call) unit :=
  modify (fun log => (log ++ [c])%list).

(** The names the module binds at top level: its imports and its
    functions.  A name a function does not assign is looked up here and
    then among Python's builtins, none of which is called [shuffle]. *)
Definition module_globals : list string :=
  ["np"; "pd"; "sc"; "AnnData"; "StandardScaler"; "SGDClassifier";
   "Optional"; "Union"; "Model"; "logger"; "spmatrix"; "datetime";
   "_to_vector"; "_to_array"; "_prepare_data"; "_SGDClassifier"; "train"].
Definition builtins_used : list string :=
  ["isinstance"; "str"; "len"; "min"; "range"; "Exception"; "ValueError"].
Definition is_bound (name : string) : bool :=
  existsb (String.eqb name) (module_globals ++ builtins_used)%list.

(** [a[start:start+size]]. *)
Definition slice {A} (a : list A) (start size : nat) : list A :=
  firstn size (skipn start a).

(** [a[:stop]] for an integer [stop]: a negative one counts from the
    end. *)
Definition slice_stop {A} (a : list A) (stop : Z) : list A :=
  if (stop <? 0)%Z then firstn (length a - Z.to_nat (- stop)) a
  else firstn (Z.to_nat stop) a.

(** The per-class choice of feature selection:
    [np.argpartition(a, -top_genes)[-top_genes:]] on one row [a].
    numpy turns [kth = -top_genes] into [len(a) - top_genes], refuses it
    out of [0 .. len(a) - 1], and for [top_genes = 0] both [kth] and the
    slice start are [0]. *)
Definition top_index (argpartition : list R -> nat -> list nat)
  (top_genes : nat) (a : list R) : result (list nat) :=
  let n := length a in
  if Nat.eqb top_genes 0 then
    if Nat.eqb n 0 then inl (ValueError "kth(=0) out of bounds (0)")
    else inr (argpartition a 0)
  else if Nat.ltb n top_genes then inl (ValueError "kth out of bounds")
  else inr (skipn (n - top_genes) (argpartition a (n - top_genes))).

(** [np.unique(np.argpartition(np.abs(coef_), -top_genes, axis = 1)[:, -top_genes:])]. *)
Definition select_features (argpartition : list R -> nat -> list nat)
  (top_genes : nat) (coef : Np.ndarray2) : result (list nat) :=
  idx <~ mapM (fun row => top_index argpartition top_genes (map Rabs row)) coef ;;
  inr (Np.unique_nat (concat idx)).

(** What [np.argpartition(a, kth)] promises for [kth < len(a)]: a
    permutation of the positions in which the entry at [kth] is where a
    sort would put it, nothing before it larger and nothing after it
    smaller.  The order inside the two parts, hence the choice among
    equal entries, is left open. *)
Definition argpartition_contract (argpartition : list R -> nat -> list nat) : Prop :=
  forall (a : list R) (kth : nat),
    kth < length a ->
    Permutation (argpartition a kth) (seq 0 (length a)) /\
    forall i j, i <= kth -> kth <= j -> j < length a ->
      (nth (nth i (argpartition a kth) 0%nat) a 0 <=
       nth (nth j (argpartition a kth) 0%nat) a 0)%R.

(** One implementation of the contract: a stable insertion sort of the
    positions by their entries. *)
Fixpoint insert_by (a : list R) (i : nat) (p : list nat) : list nat :=
  match p with
  | [] => [i]
  | j :: p' =>
      if Rle_dec (nth i a 0%R) (nth j a 0%R) then i :: p
      else j :: insert_by a i p'
  end.
Definition argsort (a : list R) : list nat :=
  fold_right (insert_by a) [] (seq 0 (length a)).
Definition argpartition_sort (a : list R) (kth : nat) : list nat := argsort a.

Section Sklearn.

(** scikit-learn: what [fit] leaves in a fresh estimator, what
    [partial_fit] makes of an estimator, [StandardScaler.fit_transform],
    the permutation [sklearn.utils.shuffle] would draw at a given epoch,
    each with the exception it raises on data or parameters it does not
    accept; and numpy's [argpartition]. *)
Variable sgd_fit :
  SGDParams -> Np.ndarray2 -> list string -> result Model.SGDClassifier.
Variable sgd_partial_fit :
  SGDParams -> estimator -> Np.ndarray2 -> list string -> list string ->
  result Model.SGDClassifier.
Variable scaler_fit_transform :
  Np.ndarray2 -> result (Model.StandardScaler * Np.ndarray2).
Variable sklearn_shuffle :
  nat -> Np.ndarray2 -> list string -> result (Np.ndarray2 * list string).
Variable argpartition : list R -> nat -> list nat.

(** The loop-carried variables of the mini-batch loop. *)
Definition loop_state : Type := (estimator * Np.ndarray2 * list string)%type.

(** One epoch of the mini-batch loop.  The name [shuffle] is resolved
    when the line runs. *)
Definition epoch_body (params : SGDParams) (starts : list nat) (batch_size : nat)
  (epoch : nat) (st : loop_state) : M (list call) loop_state :=
  let '(classifier, indata, labels) := st in
  if is_bound "shuffle" then
    shuffled <- lift (sklearn_shuffle epoch indata labels) ;;
    let indata := fst shuffled in
    let labels := snd shuffled in
    classifier <-
      for_each starts
        (fun start (clf : estimator) =>
           let Xb := slice indata start batch_size in
           let yb := slice labels start batch_size in
           record (PartialFit Xb yb (Np.unique labels)) ;;;
           fitted <- lift (sgd_partial_fit params clf Xb yb (Np.unique labels)) ;;
           ret (Some fitted))
        classifier ;;
    ret (classifier, indata, labels)
  else raise (NameError "shuffle").

(** [_SGDClassifier].  [batch_number], [batch_size] and [epochs] are
    Python integers: [range(1, epochs+1)] is empty for [epochs <= 0],
    [np.arange] is empty for a negative step and a [ZeroDivisionError]
    for a step of zero.  A call of [fit] is logged when it is made,
    whether or not it returns. *)
Definition _SGDClassifier (indata : Np.ndarray2) (labels : list string)
  (params : SGDParams) (mini_batch : bool)
  (batch_number batch_size epochs : Z) : M (list call) estimator :=
  if negb mini_batch then
    record (Fit indata labels) ;;;
    fitted <- lift (sgd_fit params indata labels) ;;
    ret (Some fitted)
  else
    let no_cells := length labels in
    if (Z.of_nat no_cells <=? batch_size)%Z then
      raise (ValueError "Number of cells is fewer than the batch size. Decrease `batch_size`, or use SGD directly (mini_batch = False)")
    else if (batch_size =? 0)%Z then
      raise (ZeroDivisionError "division by zero")
    else
      let starts := if (batch_size <? 0)%Z then []
                    else Np.arange no_cells (Z.to_nat batch_size) in
      let starts :=
        slice_stop starts (Z.min batch_number (Z.of_nat (length starts))) in
      st <- for_each (seq 1 (Z.to_nat epochs))
                     (epoch_body params starts (Z.to_nat batch_size))
                     (None, indata, labels) ;;
      ret (fst (fst st)).

(** The filter of [train]: the genes whose column sums to zero are
    dropped from the matrix and from the gene list. *)
Definition drop_non_expressed (indata : Np.ndarray2) (genes : list string)
  : Np.ndarray2 * list string :=
  let flag := map (fun s => if Req_dec_T s 0 then true else false)
                  (Np.sum_axis0 (length genes) indata) in
  if existsb (fun b : bool => b) flag then
    (map (Np.compress (map negb flag)) indata, Np.compress (map negb flag) genes)
  else (indata, genes).

Definition restrict_scaler (s : Model.StandardScaler) (gene_index : list nat)
  : result Model.StandardScaler :=
  mean1 <~ Np.take (Model.mean_ s) gene_index ;;
  var1 <~ Np.take (Model.var_ s) gene_index ;;
  scale1 <~ Np.take (Model.scale_ s) gene_index ;;
  inr (Model.mkStandardScaler mean1 var1 scale1 (length gene_index)).

(** [train], from the point where [_prepare_data] and [_to_array] have
    delivered the matrix, the labels and the genes; [now] is
    [str(datetime.now())] and [top_genes] is not negative.  An estimator
    that was never fitted has no [coef_] (reading it is an
    [AttributeError]); packaged into a model it shows empty fitted
    attributes. *)
Definition train (indata : Np.ndarray2) (labels genes : list string)
  (params : SGDParams) (mini_batch : bool) (batch_number batch_size epochs : Z)
  (feature_selection : bool) (top_genes : nat)
  (date details url now : string) : M (list call) Model.t :=
  (* check *)
  bad <- lift (Classifier.not_normalised indata) ;;
  if (bad : bool) then
    raise (ValueError "Invalid expression matrix, expect log1p normalized expression to 10000 counts per cell")
  else if negb (Nat.eqb (length labels) (length indata)) then
    raise (ValueError "Length of training labels does not match the number of input cells")
  else if negb (Nat.eqb (length genes) (length (hd [] indata))) then
    raise (ValueError "The number of genes provided does not match the number of genes in the training data")
  else
    (* filter *)
    let filtered := drop_non_expressed indata genes in
    let indata := fst filtered in
    let genes := snd filtered in
    (* scaler *)
    scaled <- lift (scaler_fit_transform indata) ;;
    let scaler := fst scaled in
    let indata := Np.clip_max 10 (snd scaled) in
    (* classifier *)
    classifier <- _SGDClassifier indata labels params mini_batch
                                 batch_number batch_size epochs ;;
    (* feature selection -> new classifier and scaler *)
    sel <-
      (if feature_selection then
         if Nat.leb (length genes) top_genes then
           raise (ValueError "The number of genes is fewer than the `top_genes`. Unable to perform feature selection")
         else
           coef <- lift (match classifier with
                         | Some c => inr (Model.coef_ c)
                         | None => inl (AttributeError "coef_")
                         end) ;;
           gene_index <- lift (select_features argpartition top_genes coef) ;;
           genes1 <- lift (Np.take genes gene_index) ;;
           indata1 <- lift (Np.take_cols indata gene_index) ;;
           classifier1 <- _SGDClassifier indata1 labels params mini_batch
                                         batch_number batch_size epochs ;;
           scaler1 <- lift (restrict_scaler scaler gene_index) ;;
           ret (classifier1, scaler1, genes1)
       else ret (classifier, scaler, genes)) ;;
    (* model finalization *)
    let '(classifier, scaler, genes) := sel in
    let fitted := match classifier with
                  | Some c => c
                  | None => Model.mkSGDClassifier [] [] [] 0 []
                  end in
    let date := if String.eqb date "" then now else date in
    ret (Model.mk (Model.set_features genes fitted) scaler
                  (Model.mkDescription date details url)).

End Sklearn.

End Train.

(** ** The remaining methods of [celltypist/classifier.py] *)

(** The annotation slots of an [AnnData] object, which [over_cluster]
    reads and writes: the columns of [obs], the matrices of [obsm] and
    [obsp], the parameter records of [uns]. *)
Module Slots.

Record t : Type := mk {
  obs : gmap string (list string);
  obsm : gmap string (list (list R));
  obsp : gmap string (list (list R));
  uns : gmap string (list (string * string))
}.

Definition set_obs (o : gmap string (list string)) (s : t) : t :=
  mk o (obsm s) (obsp s) (uns s).

End Slots.

Module Clustering.

(** The product of scanpy's neighbourhood pipeline: PCA coordinates,
    connectivities, distances and the parameters of the graph. *)
Definition neighbor_graph : Type :=
  (list (list R) * list (list R) * list (list R) * list (string * string))%type.

Section Scanpy.

(** [sc.pp.filter_genes], [highly_variable_genes], [scale], [sc.tl.pca]
    and [sc.pp.neighbors] in a row, on a matrix; and [sc.tl.leiden] with
    its resolution and the name of the column it adds. *)
Variable neighbors_pipeline : list (list R) -> result neighbor_graph.
Variable sc_tl_leiden : R -> string -> Slots.t -> result Slots.t.

(** [Classifier._construct_neighbor_graph], on a copy of the object. *)
Definition _construct_neighbor_graph (adata : AnnData.t) : result neighbor_graph :=
  lo <~ match Np.amin (AnnData.X adata) with
        | Some lo => inr lo
        | None => inl (ValueError "zero-size array to reduction operation minimum which has no identity")
        end ;;
  X <~ (if Rlt_dec lo 0 then
          match AnnData.raw adata with
          | Some rw => inr (fst rw)
          | None => inl (AttributeError "to_adata")
          end
        else inr (AnnData.X adata)) ;;
  neighbors_pipeline X.

(** [Classifier.over_cluster]; the state is the slots of [self.adata]. *)
Definition over_cluster (adata : AnnData.t) (resolution : option R)
  : M Slots.t (list string) :=
  s <- get ;;
  (match Slots.obsp s !! "connectivities" with
   | None =>
       g <- lift (_construct_neighbor_graph adata) ;;
       let '(pca, connectivities, distances, neighbors) := g in
       modify (fun s => Slots.mk (Slots.obs s)
                          (<["X_pca" := pca]> (Slots.obsm s))
                          (<["distances" := distances]>
                             (<["connectivities" := connectivities]> (Slots.obsp s)))
                          (<["neighbors" := neighbors]> (Slots.uns s)))
   | Some _ => ret tt
   end) ;;;
  let resolution :=
    match resolution with
    | Some r => r
    | None =>
        if (Z.of_nat (AnnData.n_obs adata) <? 5000)%Z then 5%R
        else if (Z.of_nat (AnnData.n_obs adata) <? 20000)%Z then 10%R
        else if (Z.of_nat (AnnData.n_obs adata) <? 40000)%Z then 15%R
        else 20%R
    end in
  s1 <- get ;;
  s2 <- lift (sc_tl_leiden resolution "over_clustering" s1) ;;
  modify (fun _ => s2) ;;;
  oc_column <- lift (match Slots.obs s2 !! "over_clustering" with
                     | Some c => inr c
                     | None => inl (AttributeError "over_clustering")
                     end) ;;
  modify (Slots.set_obs (delete "over_clustering" (Slots.obs s2))) ;;;
  ret oc_column.

End Scanpy.

End Clustering.

(** [AnnotationResult.summary_frequency]. *)
Module Summary.

(** [np.unique(a, return_counts=True)]. *)
Definition unique_counts (a : list string) : list string * list nat :=
  (Np.unique a, map (count_occ string_dec a) (Np.unique a)).

(** What [sort_values(['counts'], ascending=False)] promises of the
    order it puts the rows in: a permutation of the positions along
    which the counts do not grow.  The order of equal counts is left to
    the sorting routine. *)
Definition sort_desc_contract (argsort_desc : list nat -> list nat) : Prop :=
  forall counts : list nat,
    Permutation (argsort_desc counts) (seq 0 (length counts)) /\
    StronglySorted (fun i j => nth j counts 0 <= nth i counts 0) (argsort_desc counts).

(** One implementation: an insertion sort of the positions. *)
Fixpoint insert_desc (counts : list nat) (i : nat) (p : list nat) : list nat :=
  match p with
  | [] => [i]
  | j :: p' =>
      if Nat.leb (nth j counts 0) (nth i counts 0) then i :: p
      else j :: insert_desc counts i p'
  end.
Definition argsort_desc_insertion (counts : list nat) : list nat :=
  fold_right (insert_desc counts) [] (seq 0 (length counts)).

(** The frame returned: for every row its label in the index (the
    position before sorting), the cell type and its count. *)
Definition summary_frequency (argsort_desc : list nat -> list nat)
  (self : AnnotationResult.t) (by_ : string) : result (list (nat * string * nat)) :=
  col <~ Pd.getitem (AnnotationResult.predicted_labels self) by_ ;;
  let unique := fst (unique_counts col) in
  let counts := snd (unique_counts col) in
  inr (map (fun i => (i, nth i unique "", nth i counts 0)) (argsort_desc counts)).

End Summary.

(** ** The entry of [celltypist/train.py] *)

Module TrainInput.

(** A gene or label argument that is not [None]: the path of a file
    with one entry per line, or the entries themselves. *)
Inductive vector_input : Type :=
| VPath (path : string)
| VVector (v : list string).

(** The array-like objects: a [DataFrame], a scipy sparse matrix, a
    [np.matrix], a [np.ndarray], and the plain nested list, which can be
    copied and is none of the four. *)
Inductive array_like : Type :=
| ADataFrame (df : Pd.DataFrame R)
| ASparse (m : list (list R))
| AMatrix (m : list (list R))
| ANdarray (m : list (list R))
| AList (m : list (list R)).

(** The training data [X]: [None], an [AnnData] object with the columns
    of its [obs], a path, or an array-like object. *)
Inductive x_input : Type :=
| XNone
| XAnnData (adata : AnnData.t) (obs : gmap string (list string))
| XPath (path : string)
| XArrayLike (a : array_like).

(** [df.transpose()]. *)
Definition df_transpose (df : Pd.DataFrame R) : Pd.DataFrame R :=
  Pd.mkDataFrame (Pd.df_columns df) (Pd.df_index df)
    (map (fun j => map (fun row => nth j row 0%R) (Pd.df_values df))
         (seq 0 (length (Pd.df_columns df)))).

Definition matrix_transpose (m : list (list R)) : list (list R) :=
  map (fun j => map (fun row => nth j row 0%R) m) (seq 0 (length (hd [] m))).

(** [indata.transpose()] on the copy of an array-like object. *)
Definition transpose_array_like (a : array_like) : result array_like :=
  match a with
  | ADataFrame df => inr (ADataFrame (df_transpose df))
  | ASparse m => inr (ASparse (matrix_transpose m))
  | AMatrix m => inr (AMatrix (matrix_transpose m))
  | ANdarray m => inr (ANdarray (matrix_transpose m))
  | AList _ => inl (AttributeError "transpose")
  end.

(** [_to_array]. *)
Definition _to_array (a : array_like) : result (list (list R)) :=
  match a with
  | ADataFrame df => inr (Pd.df_values df)
  | ASparse m => inr m
  | AMatrix m => inr m
  | ANdarray m => inr m
  | AList _ => inl (ValueError "Please provide a valid array-like object as input")
  end.

Section Readers.

(** scanpy's reader, which gives the object and the columns of its
    [obs]; [pd.read_csv(file, header=None)[0].values]; and the
    preprocessing steps of the text inputs. *)
Variable sc_read : string -> result (AnnData.t * gmap string (list string)).
Variable read_column : string -> result (list string).
Variable var_names_make_unique : list string -> list string.
Variable normalize_total : R -> list (list R) -> list (list R).
Variable log1p : list (list R) -> list (list R).

(** [_to_vector], on an argument that is not [None]: whatever reading
    the file raises is raised again as an [Exception]. *)
Definition _to_vector (v : vector_input) : result (list string) :=
  match v with
  | VPath path =>
      match read_column path with
      | inr values => inr values
      | inl _ => inl (Exception "{e}")
      end
  | VVector values => inr values
  end.

(** The branch of [_prepare_data] for an [AnnData] object, read from a
    file or handed in. *)
Definition prepare_adata (adata : AnnData.t) (obs : gmap string (list string))
  (labels : vector_input) : result (array_like * list string * list string) :=
  lo <~ match Np.amin (AnnData.X adata) with
        | Some lo => inr lo
        | None => inl (ValueError "zero-size array to reduction operation minimum which has no identity")
        end ;;
  ig <~ (if Rlt_dec lo 0 then
           match AnnData.raw adata with
           | Some rw => inr rw
           | None => inl (Exception "Fail to use the .raw attribute in the input object")
           end
         else inr (AnnData.X adata, AnnData.var_names adata)) ;;
  labels <~ match labels with
            | VPath name =>
                match obs !! name with
                | Some column => inr column
                | None => _to_vector labels
                end
            | VVector _ => _to_vector labels
            end ;;
  inr (ANdarray (fst ig), labels, snd ig).

(** [_prepare_data]. *)
Definition _prepare_data (X : x_input) (labels genes : option vector_input)
  (transpose : bool) : result (array_like * list string * list string) :=
  match X, labels with
  | XNone, _ | _, None =>
      inl (Exception "Missing training data and/or training labels. Please provide both arguments")
  | XAnnData adata obs, Some labels => prepare_adata adata obs labels
  | XPath path, Some labels =>
      if Classifier.endswith path [".h5ad"] then
        ao <~ sc_read path ;;
        prepare_adata (fst ao) (snd ao) labels
      else if Classifier.endswith path
                [".csv"; ".txt"; ".tsv"; ".tab"; ".mtx"; ".mtx.gz"] then
        ao <~ sc_read path ;;
        let adata := if transpose then AnnData.transpose (fst ao) else fst ao in
        adata <~
          (if Classifier.endswith path [".mtx"; ".mtx.gz"] then
             match genes with
             | None => inl (Exception "Missing `genes`. Please provide this argument together with the input mtx file")
             | Some genes =>
                 genes <~ _to_vector genes ;;
                 if negb (Nat.eqb (length genes) (AnnData.n_vars adata)) then
                   inl (ValueError "The number of genes provided does not match the number of genes in the input")
                 else inr (AnnData.mk (AnnData.X adata) (AnnData.obs_names adata)
                                      genes (AnnData.raw adata))
             end
           else inr adata) ;;
        labels <~ _to_vector labels ;;
        inr (ANdarray (log1p (normalize_total 10000 (AnnData.X adata))), labels,
             var_names_make_unique (AnnData.var_names adata))
      else
        inl (ValueError "Invalid input. Supported types: .csv, .txt, .tsv, .tab, .mtx, .mtx.gz and .h5ad")
  | XArrayLike a, Some labels =>
      indata <~ (if transpose then transpose_array_like a else inr a) ;;
      genes <~ match indata with
               | ADataFrame df => inr (Pd.df_columns df)
               | _ =>
                   match genes with
                   | None => inl (Exception "Missing `genes`. Please provide this argument together with the input training data")
                   | Some genes => _to_vector genes
                   end
               end ;;
      labels <~ _to_vector labels ;;
      inr (indata, labels, genes)
  end.

Variable sgd_fit :
  Train.SGDParams -> list (list R) -> list string -> result Model.SGDClassifier.
Variable sgd_partial_fit :
  Train.SGDParams -> Train.estimator -> list (list R) -> list string -> list string ->
  result Model.SGDClassifier.
Variable scaler_fit_transform :
  list (list R) -> result (Model.StandardScaler * list (list R)).
Variable sklearn_shuffle :
  nat -> list (list R) -> list string -> result (list (list R) * list string).
Variable argpartition : list R -> nat -> list nat.

(** [train], from its arguments: the preparation of the data, then the
    checks, the fit and the packaging of [Train.train]. *)
Definition train (X : x_input) (labels genes : option vector_input)
  (transpose_input : bool) (params : Train.SGDParams) (mini_batch : bool)
  (batch_number batch_size epochs : Z) (feature_selection : bool)
  (top_genes : nat) (date details url now : string) : M (list Train.call) Model.t :=
  prepared <- lift (_prepare_data X labels genes transpose_input) ;;
  indata <- lift (_to_array (fst (fst prepared))) ;;
  Train.train sgd_fit sgd_partial_fit scaler_fit_transform sklearn_shuffle argpartition
    indata (snd (fst prepared)) (snd prepared) params mini_batch
    batch_number batch_size epochs feature_selection top_genes date details url now.

End Readers.

End TrainInput.

(* ================================================================== *)
(** * Part II: the vocabulary of the statements *)
(* ================================================================== *)

(** ** Feature alignment and standardisation *)

(** The genes of the input that the model knows, in the input's order. *)
Definition matched_genes (genes feats : list string) : list string :=
  List.filter (fun g => existsb (String.eqb g) feats) genes.

(** The state in which the first two stages leave the [Classifier]
    object and the [Model] object it refers to. *)
Definition prepared_classifier (Z : Np.ndarray2) (genes1 : list string)
  (c : Classifier.t) : Classifier.t :=
  Classifier.mk (Classifier.filename c) (Classifier.adata c) Z genes1
                (Classifier.model c).

Definition restricted_model (coef1 : Np.ndarray2) (features1 : list string)
  (k : nat) (m : Model.t) : Model.t :=
  Model.mk (Model.mkSGDClassifier coef1
              (Model.intercept_ (Model.classifier m))
              (Model.classes_ (Model.classifier m)) k features1)
           (Model.scaler m) (Model.description m).

Definition prepared_heap (self : loc) (Z : Np.ndarray2) (genes1 : list string)
  (coef1 : Np.ndarray2) (features1 : list string) (k : nat)
  (h : Classifier.Heap) : Classifier.Heap :=
  let c := Classifier.classifiers h !!! self in
  Classifier.update_model (Classifier.model c) (restricted_model coef1 features1 k)
    (Classifier.update_classifier self (prepared_classifier Z genes1) h).

(** The pure steps of the first two stages. *)
Record prepare_steps (c : Classifier.t) (m : Model.t)
  (X1 : Np.ndarray2) (genes1 : list string) (lr_idx : list nat)
  (means_ sds_ : list R) (X2 X3 : Np.ndarray2)
  (features1 : list string) (coef1 : Np.ndarray2) : Prop := {
  ps_indata : Np.take_cols (Classifier.indata c)
                (Np.where_ (Np.isin (Classifier.indata_genes c)
                                    (Model.features (Model.classifier m)))) = inr X1;
  ps_genes : Np.take (Classifier.indata_genes c)
                (Np.where_ (Np.isin (Classifier.indata_genes c)
                                    (Model.features (Model.classifier m)))) = inr genes1;
  ps_lr_idx : Pd.loc_index (Model.features (Model.classifier m)) genes1 = inr lr_idx;
  ps_means : Np.take (Model.mean_ (Model.scaler m)) lr_idx = inr means_;
  ps_sds : Np.take (Model.scale_ (Model.scaler m)) lr_idx = inr sds_;
  ps_subtract : Np.subtract X1 means_ = inr X2;
  ps_divide : Np.divide X2 sds_ = inr X3;
  ps_features : Np.take (Model.features (Model.classifier m)) lr_idx = inr features1;
  ps_coef : Np.take_cols (Model.coef_ (Model.classifier m)) lr_idx = inr coef1
}.

(** The shapes a loaded model and an input have: distinct feature names,
    one mean, one scale and one weight per class for every feature, and
    one column of the matrix for every gene of the input. *)
Record well_shaped (c : Classifier.t) (m : Model.t) : Prop := {
  ws_features : List.NoDup (Model.features (Model.classifier m));
  ws_mean : length (Model.mean_ (Model.scaler m))
            = length (Model.features (Model.classifier m));
  ws_scale : length (Model.scale_ (Model.scaler m))
             = length (Model.features (Model.classifier m));
  ws_coef : Forall (fun row => length row = length (Model.features (Model.classifier m)))
                   (Model.coef_ (Model.classifier m));
  ws_indata : Forall (fun row => length row = length (Classifier.indata_genes c))
                     (Classifier.indata c)
}.

(** ** Orders *)

(** The strict order of a three-way comparison, and the order of the
    positions of an array by their entries. *)
Definition lt_by {A : Type} (cmp : A -> A -> comparison) (x y : A) : Prop :=
  cmp x y = Lt.
Definition le_at (a : list R) (x y : nat) : Prop := (nth x a 0 <= nth y a 0)%R.



(** ** Majority voting *)

(** The label [idxmax] picks for cluster [c]: the first of the sorted
    distinct labels whose count in [c] is the largest. *)
Definition winner (labels clusters : list string) (c : string) : string :=
  match Pd.argmax (map (fun r => Pd.count_pairs r c labels clusters)
                       (Np.unique labels)) with
  | Some i => nth i (Np.unique labels) ""
  | None => ""
  end.

(** What the voter needs of the predictions: a column of predicted
    labels as long as the partition, a frame whose rows fit its index
    and its columns, distinct cell names, and no column of an earlier
    vote. *)
Record voting_ready (P : Pd.DataFrame string) (labels over_clustering : list string)
  : Prop := {
  vr_labels : Pd.getitem P "predicted_labels" = inr labels;
  vr_length : length over_clustering = length labels;
  vr_index : length (Pd.df_index P) = length (Pd.df_values P);
  vr_rows : Forall (fun row => length row = length (Pd.df_columns P)) (Pd.df_values P);
  vr_cells : List.NoDup (Pd.df_index P);
  vr_fresh_oc : ~ In "over_clustering" (Pd.df_columns P);
  vr_fresh_mv : ~ In "majority_voting" (Pd.df_columns P)
}.

(** The frame after the vote: two more entries in every row, the cell's
    cluster and the cluster's winner. *)
Definition voted_frame (P : Pd.DataFrame string) (labels over_clustering : list string)
  : Pd.DataFrame string :=
  Pd.mkDataFrame (Pd.df_index P)
    (Pd.df_columns P ++ ["over_clustering"; "majority_voting"])%list
    (zip_with (fun v w => (v ++ w)%list) (Pd.df_values P)
       (map (fun c => [c; winner labels over_clustering c]) over_clustering)).

(** ** The integrity check *)

(** The bound of a log1p-normalised row: its counts add up to 10000,
    give or take one. *)
Definition row_within_bound (row : list R) : Prop :=
  (Rabs (Np.sum (map Np.expm1 row) - 10000) <= 1)%R.

(** ** Feature selection *)



Section SelectionRun.

Variable sgd_fit :
  Train.SGDParams -> list (list R) -> list string -> result Model.SGDClassifier.
Variable sgd_partial_fit :
  Train.SGDParams -> Train.estimator -> list (list R) -> list string -> list string ->
  result Model.SGDClassifier.
Variable scaler_fit_transform :
  list (list R) -> result (Model.StandardScaler * list (list R)).
Variable sklearn_shuffle :
  nat -> list (list R) -> list string -> result (list (list R) * list string).
Variable argpartition : list R -> nat -> list nat.

(** The two rounds of a training run with feature selection: [scaled]
    is what the scaler returns for the filtered matrix, the scaler
    object and the scaled matrix. *)
Record selection_run (indata : list (list R)) (labels genes : list string)
  (params : Train.SGDParams) (mini_batch : bool)
  (batch_number batch_size epochs : Z) (top_genes : nat)
  (log log1 log2 : list Train.call)
  (scaled : Model.StandardScaler * list (list R))
  (clf1 : Model.SGDClassifier) (gene_index : list nat) (genes2 : list string)
  (X2 : list (list R)) (est2 : Train.estimator) (scaler2 : Model.StandardScaler)
  : Prop := {
  sr_scaler_fit :
    scaler_fit_transform (fst (Train.drop_non_expressed indata genes)) = inr scaled;
  sr_first_round :
    Train._SGDClassifier sgd_fit sgd_partial_fit sklearn_shuffle
      (Np.clip_max 10 (snd scaled))
      labels params mini_batch batch_number batch_size epochs log
    = (log1, inr (Some clf1));
  sr_enough_genes : top_genes < length (snd (Train.drop_non_expressed indata genes));
  sr_select :
    Train.select_features argpartition top_genes (Model.coef_ clf1) = inr gene_index;
  sr_genes : Np.take (snd (Train.drop_non_expressed indata genes)) gene_index = inr genes2;
  sr_columns : Np.take_cols (Np.clip_max 10 (snd scaled)) gene_index = inr X2;
  sr_second_round :
    Train._SGDClassifier sgd_fit sgd_partial_fit sklearn_shuffle
      X2 labels params mini_batch batch_number batch_size epochs log1
    = (log2, inr est2);
  sr_scaler : Train.restrict_scaler (fst scaled) gene_index = inr scaler2
}.
End SelectionRun.



(** ** Example objects *)

(** A model with one class over the given features, and an input of one
    cell. *)
Definition example_model (features : list string) (coef : Np.ndarray2)
  (mean scale : list R) : Model.t :=
  Model.mk (Model.mkSGDClassifier coef [0%R] ["T cells"] (length features) features)
           (Model.mkStandardScaler mean (map (fun s => (s * s)%R) scale) scale
                                   (length features))
           (Model.mkDescription "2021-01-01" "" "").

Definition example_adata (X : Np.ndarray2) (genes : list string) : AnnData.t :=
  AnnData.mk X ["cell1"] genes None.

(** Where the examples keep the model object and the classifier object. *)
Definition the_model : loc := 1.

Definition the_classifier : loc := 2.

Definition example_heap (m : Model.t) (X : Np.ndarray2) (genes : list string)
  : Classifier.Heap :=
  Classifier.mkHeap {[ the_model := m ]}
    {[ the_classifier :=
         Classifier.mk "input.h5ad" (example_adata X genes) X genes the_model ]} ∅.


(** The input has one of the model's two genes. *)
Definition heap_partial_overlap : Classifier.Heap :=
  example_heap (example_model ["CD3E"; "CD19"] [[1%R; 2%R]] [0%R; 0%R] [1%R; 1%R])
               [[3%R]] ["CD19"].

(** A model whose one scale value is negative. *)
Definition heap_negative_scale : Classifier.Heap :=
  example_heap (example_model ["CD3E"] [[1%R]] [1%R] [(-1)%R]) [[3%R]] ["CD3E"].

(** A predictor for running the examples: every cell gets the first
    class, with probability one. *)
Definition first_class_predictor (m : Model.t) (X : Np.ndarray2)
  : result (list string * Np.ndarray2) :=
  inr (map (fun _ => hd "" (Model.classes_ (Model.classifier m))) X,
       map (fun _ => map (fun _ => 1%R) (Model.classes_ (Model.classifier m))) X).

(** Four cells with their predicted labels, at location 3 of the heap. *)
Definition the_predictions : loc := 3.

Definition example_predictions (labels : list string) : AnnotationResult.t :=
  AnnotationResult.__init__
    (Pd.mkDataFrame ["cell1"; "cell2"; "cell3"; "cell4"] ["predicted_labels"]
                    (map (fun l => [l]) labels))
    (Pd.mkDataFrame ["cell1"; "cell2"; "cell3"; "cell4"] ["A"; "B"]
                    (map (fun _ => [1%R; 0%R]) labels))
    (AnnData.mk [] ["cell1"; "cell2"; "cell3"; "cell4"] [] None).

Definition voting_heap (labels : list string) : Classifier.Heap :=
  Classifier.mkHeap ∅ ∅ {[ the_predictions := example_predictions labels ]}.

(** Two cells over one gene: the first holds all of its 10000 counts in
    that gene, [log1p(10000)]; the second holds none. *)
Definition two_cells : AnnData.t :=
  AnnData.mk [[ln 10001]; [0%R]] ["cell1"; "cell2"] ["GAPDH"] None.

(** The weights of the first round, one row for each of three classes:
    the first class leans on the first gene, the second class less so,
    the third class on the third gene. *)
Definition example_coef : list (list R) :=
  [[(-5)%R; 0%R; 0%R]; [2%R; 0%R; 1%R]; [0%R; 0%R; 1%R]].

(** Three cells over three genes, 10000 counts each, one cell of each
    class. *)
Definition example_training_data : list (list R) :=
  [[ln 5001; ln 2501; ln 2501]; [ln 3001; ln 3501; ln 3501];
   [ln 2501; ln 2501; ln 5001]].

Definition example_genes : list string := ["MS4A1"; "GAPDH"; "CD3E"].

Definition example_labels : list string := ["B cells"; "NK cells"; "T cells"].

(** Stand-ins for scikit-learn in the example.  The fit refuses labels
    of fewer than two classes, as [SGDClassifier.fit] does; for the
    three classes of the example it answers with the weights
    [example_coef] cut to the width of its input, one row per class, for
    two classes with the single row scikit-learn keeps, and beyond three
    classes with rows of zeros.  The scaler leaves the data as they are;
    it refuses a matrix without rows. *)
Definition example_rows (classes width : nat) : list (list R) :=
  map (firstn width)
      (firstn (if Nat.eqb classes 2 then 1 else classes)
              (example_coef ++ repeat [0%R; 0%R; 0%R] (classes - 3))%list).

Definition example_fit (_ : Train.SGDParams) (X : list (list R)) (y : list string)
  : result Model.SGDClassifier :=
  if Nat.ltb (length (Np.unique y)) 2 then
    inl (ValueError "The number of classes has to be greater than one")
  else
    inr (Model.mkSGDClassifier
           (example_rows (length (Np.unique y)) (length (hd [] X)))
           (map (fun _ => 0%R) (example_rows (length (Np.unique y)) 0))
           (Np.unique y) (length (hd [] X)) []).

Definition example_partial_fit (p : Train.SGDParams) (_ : Train.estimator)
  (X : list (list R)) (_ classes : list string) : result Model.SGDClassifier :=
  example_fit p X classes.

Definition example_scaler (X : list (list R))
  : result (Model.StandardScaler * list (list R)) :=
  match X with
  | [] => inl (ValueError "Found array with 0 sample(s) while a minimum of 1 is required by StandardScaler")
  | _ =>
      inr (Model.mkStandardScaler (map (fun _ => 0%R) (hd [] X))
                                  (map (fun _ => 1%R) (hd [] X))
                                  (map (fun _ => 1%R) (hd [] X)) (length (hd [] X)), X)
  end.

Definition example_shuffle (_ : nat) (X : list (list R)) (y : list string)
  : result (list (list R) * list string) := inr (X, y).

Definition example_params : Train.SGDParams := Train.mkSGDParams 0.0001 1000 None [].

(** ** File names *)

(** The last character of a string. *)
Fixpoint last_char (s : string) : option ascii :=
  match s with
  | EmptyString => None
  | String c s' =>
      match last_char s' with
      | None => Some c
      | Some d => Some d
      end
  end.

(** The suffixes [Classifier.__init__] knows. *)
Definition supported_suffixes : list string :=
  [".csv"; ".txt"; ".tsv"; ".tab"; ".mtx"; ".mtx.gz"; ".h5ad"].

(** Stand-ins for the readers in the examples: every matrix file holds
    [two_cells], a gene file one gene and a cell file two cells; the
    preprocessing steps leave the matrix as it is. *)
Definition example_read (_ : string) : result AnnData.t := inr two_cells.

Definition example_read_column (file : string) : result (list string) :=
  if String.eqb file "genes.tsv" then inr ["GAPDH"]
  else if String.eqb file "cells.tsv" then inr ["AAAC"; "AAAG"]
  else inl (FileNotFoundError file).

Definition example_make_unique (names : list string) : list string := names.

Definition example_normalize_total (_ : R) (X : list (list R)) : list (list R) := X.

Definition example_log1p (X : list (list R)) : list (list R) := X.

Definition empty_heap : Classifier.Heap := Classifier.mkHeap ∅ ∅ ∅.

(** ** Over-clustering *)

(** The slots once the neighbourhood graph [g] is stored in them. *)
Definition with_graph (g : Clustering.neighbor_graph) (s : Slots.t) : Slots.t :=
  let '(pca, connectivities, distances, neighbors) := g in
  Slots.mk (Slots.obs s)
           (<["X_pca" := pca]> (Slots.obsm s))
           (<["distances" := distances]>
              (<["connectivities" := connectivities]> (Slots.obsp s)))
           (<["neighbors" := neighbors]> (Slots.uns s)).

(** What [sc.tl.leiden] does to the object when it returns: it writes
    the column [key_added] of [obs], and its parameters into [uns]; the
    other columns, [obsm] and [obsp] stay as they are. *)
Definition leiden_contract
  (sc_tl_leiden : R -> string -> Slots.t -> result Slots.t) : Prop :=
  forall (resolution : R) (key_added : string) (s s' : Slots.t),
    sc_tl_leiden resolution key_added s = inr s' ->
    (exists column, Slots.obs s' = <[key_added := column]> (Slots.obs s)) /\
    Slots.obsm s' = Slots.obsm s /\
    Slots.obsp s' = Slots.obsp s.

(** Stand-ins for scanpy in the examples: a pipeline that answers with
    a graph over one cell, and a clustering that puts every cell into
    cluster 0 and needs a graph to do so. *)
Definition example_pipeline (X : list (list R)) : result Clustering.neighbor_graph :=
  inr (X, [[1%R]], [[0%R]], [("n_neighbors", "10")]).

Definition example_leiden (_ : R) (key_added : string) (s : Slots.t)
  : result Slots.t :=
  match Slots.obsp s !! "connectivities" with
  | None => inl (KeyError "neighbors")
  | Some _ =>
      inr (Slots.mk (<[key_added := ["0"]]> (Slots.obs s)) (Slots.obsm s)
                    (Slots.obsp s) (<["leiden" := [("random_state", "0")]]> (Slots.uns s)))
  end.

(** One cell, once without and once with a graph; the observations
    carry a column of an earlier over-clustering. *)
Definition one_cell : AnnData.t := AnnData.mk [[1%R]] ["cell1"] ["GAPDH"] None.

(** The same cell after scaling: [X] holds a negative entry, [raw] the
    normalised count. *)
Definition one_cell_scaled : AnnData.t :=
  AnnData.mk [[(-1)%R]] ["cell1"] ["GAPDH"] (Some ([[ln 10001]], ["GAPDH"])).

Definition example_read_scaled (_ : string) : result AnnData.t := inr one_cell_scaled.

Definition slots_without_graph : Slots.t :=
  Slots.mk {[ "over_clustering" := ["7"] ]} ∅ ∅ ∅.

Definition slots_with_graph : Slots.t :=
  Slots.mk {[ "batch" := ["a"] ]} ∅ {[ "connectivities" := [[1%R]] ]} ∅.

(** ** Training data *)

(** The example training data as an [AnnData] object whose [obs] holds
    the labels in the column [cell_type], and a reader that delivers
    it. *)
Definition training_adata : AnnData.t :=
  AnnData.mk example_training_data ["AAAC"; "AAAG"; "AAAT"] example_genes None.

(** The same cells after scaling and a cut to two genes: [X] has
    negative entries, and [raw] keeps the normalised data of all
    genes. *)
Definition scaled_training_adata : AnnData.t :=
  AnnData.mk [[(-1)%R; 1%R]; [1%R; (-1)%R]; [0%R; 0%R]]
             ["AAAC"; "AAAG"; "AAAT"] ["MS4A1"; "CD3E"]
             (Some (example_training_data, example_genes)).

Definition training_obs : gmap string (list string) :=
  {[ "cell_type" := example_labels ]}.

Definition example_read_obs (_ : string)
  : result (AnnData.t * gmap string (list string)) :=
  inr (training_adata, training_obs).

(* ================================================================== *)
(** * Part III: the properties *)
(* ================================================================== *)

(** ** The monad *)

Lemma bind_ret {S A B} (a : A) (k : A -> M S B) (s : S) :
  bind (ret a) k s = k a s.
Proof. reflexivity. Qed.

Lemma bind_lift_inr {S A B} (r : result A) (a : A) (k : A -> M S B) (s : S) :
  r = inr a -> bind (lift r) k s = k a s.
Proof. intros ->. reflexivity. Qed.

Lemma bind_lift_inl {S A B} (r : result A) (e : exn) (k : A -> M S B) (s : S) :
  r = inl e -> bind (lift r) k s = (s, inl e).
Proof. intros ->. reflexivity. Qed.

Lemma bind_modify {S B} (f : S -> S) (k : unit -> M S B) (s : S) :
  bind (modify f) k s = k tt (f s).
Proof. reflexivity. Qed.

Lemma bind_get {S B} (k : S -> M S B) (s : S) : bind get k s = k s s.
Proof. reflexivity. Qed.

Lemma bind_success {S A B} (m : M S A) (k : A -> M S B) (s s' : S) (b : B) :
  bind m k s = (s', inr b) ->
  exists s1 a, m s = (s1, inr a) /\ k a s1 = (s', inr b).
Proof.
  unfold bind. destruct (m s) as [s1 [e | a]]; [discriminate |].
  intros H. exists s1, a. auto.
Qed.

Lemma lift_success {S A} (r : result A) (s s' : S) (a : A) :
  lift r s = (s', inr a) -> s' = s /\ r = inr a.
Proof. unfold lift. intros H. inversion H. auto. Qed.

(** Stepping through a computation whose result is known to be a value. *)
Ltac step_success H :=
  match type of H with
  | bind (lift _) _ _ = (_, inr _) =>
      let s1 := fresh "s" in
      let a := fresh "a" in
      let H1 := fresh "Hstep" in
      apply bind_success in H; destruct H as (s1 & a & H1 & H);
      apply lift_success in H1; destruct H1 as [-> H1]
  | bind (modify _) _ _ = _ => rewrite bind_modify in H
  | bind get _ _ = _ => rewrite bind_get in H
  end.

(** ** numpy and pandas: indexing *)

Lemma mapM_length {A B} (f : A -> result B) (l : list A) (l' : list B) :
  mapM f l = inr l' -> length l' = length l.
Proof.
  revert l'. induction l as [| x l IH]; simpl; intros l' H.
  - inversion H. reflexivity.
  - destruct (f x) as [e | y]; simpl in H; [discriminate |].
    destruct (mapM f l) as [e | ys]; simpl in H; [discriminate |].
    inversion H. simpl. f_equal. apply IH. reflexivity.
Qed.

Lemma mapM_total {A B} (f : A -> result B) (l : list A) :
  (forall x, In x l -> exists y, f x = inr y) ->
  exists l', mapM f l = inr l'.
Proof.
  induction l as [| x l IH]; simpl; intros H.
  - eauto.
  - destruct (H x (or_introl eq_refl)) as [y ->]. simpl.
    destruct IH as [ys ->]; [intros; apply H; auto |]. simpl. eauto.
Qed.

Lemma mapM_pure {A B} (f : A -> result B) (g : A -> B) (l : list A) :
  (forall x, In x l -> f x = inr (g x)) -> mapM f l = inr (map g l).
Proof.
  induction l as [| x l IH]; simpl; intros H; [reflexivity |].
  rewrite (H x (or_introl eq_refl)). simpl.
  rewrite IH; [reflexivity | intros; apply H; auto].
Qed.

Lemma mapM_lookup {A B} (f : A -> result B) (l : list A) (l' : list B) i x :
  mapM f l = inr l' -> l !! i = Some x ->
  exists y, l' !! i = Some y /\ f x = inr y.
Proof.
  revert l' i. induction l as [| a l IH]; simpl; intros l' i H Hi; [discriminate |].
  destruct (f a) as [e | y] eqn:Hf; simpl in H; [discriminate |].
  destruct (mapM f l) as [e | ys] eqn:Hm; simpl in H; [discriminate |].
  inversion H; subst. destruct i as [| i]; simpl in *.
  - inversion Hi; subst. eauto.
  - eapply IH; eauto.
Qed.

Lemma take_nil {A} (a : list A) : Np.take a [] = inr [].
Proof. reflexivity. Qed.

Lemma take_length {A} (a : list A) idx l :
  Np.take a idx = inr l -> length l = length idx.
Proof. apply mapM_length. Qed.

Lemma take_in_range {A} (a : list A) (idx : list nat) :
  Forall (fun i => i < length a) idx -> exists l, Np.take a idx = inr l.
Proof.
  intros H. apply mapM_total. intros i Hi.
  rewrite Forall_forall in H. apply list_elem_of_In in Hi. specialize (H i Hi).
  destruct (lookup_lt_is_Some_2 a i H) as [x ->]. eauto.
Qed.

Lemma take_lookup {A} (a : list A) idx l c i :
  Np.take a idx = inr l -> idx !! c = Some i -> l !! c = a !! i.
Proof.
  intros H Hc. destruct (mapM_lookup _ _ _ _ _ H Hc) as (y & Hy & Hf).
  destruct (a !! i); inversion Hf; subst. exact Hy.
Qed.


(** ** The heap *)

Lemma update_classifier_twice l f g h :
  Classifier.update_classifier l f (Classifier.update_classifier l g h)
  = Classifier.update_classifier l (fun c => f (g c)) h.
Proof.
  unfold Classifier.update_classifier; simpl.
  rewrite lookup_total_insert_eq, insert_insert_eq. reflexivity.
Qed.

Lemma update_model_twice l f g h :
  Classifier.update_model l f (Classifier.update_model l g h)
  = Classifier.update_model l (fun m => f (g m)) h.
Proof.
  unfold Classifier.update_model; simpl.
  rewrite lookup_total_insert_eq, insert_insert_eq. reflexivity.
Qed.

(** ** [Classifier.celltype]: the heap it leaves *)

Lemma celltype_prepare_run self h X1 genes1 lr_idx means_ sds_ X2 X3 features1 coef1 :
  prepare_steps (Classifier.classifiers h !!! self)
                (Classifier.models h !!! Classifier.model (Classifier.classifiers h !!! self))
                X1 genes1 lr_idx means_ sds_ X2 X3 features1 coef1 ->
  Classifier.celltype_prepare self h
  = (prepared_heap self (Np.setitem_gt 10 10 X3) genes1 coef1 features1 (length lr_idx) h,
     inr (Np.setitem_gt 10 10 X3)).
Proof.
  intros [H1 H2 H3 H4 H5 H6 H7 H8 H9].
  unfold Classifier.celltype_prepare. rewrite bind_get.
  rewrite (bind_lift_inr _ _ _ _ H1), bind_modify.
  rewrite (bind_lift_inr _ _ _ _ H2), bind_modify.
  rewrite (bind_lift_inr _ _ _ _ H3).
  rewrite (bind_lift_inr _ _ _ _ H4), (bind_lift_inr _ _ _ _ H5).
  rewrite (bind_lift_inr _ _ _ _ H6), bind_modify.
  rewrite (bind_lift_inr _ _ _ _ H7), bind_modify, bind_modify.
  rewrite (bind_lift_inr _ _ _ _ H8), bind_modify.
  rewrite (bind_lift_inr _ _ _ _ H9), bind_modify.
  unfold ret, prepared_heap.
  rewrite !update_classifier_twice, !update_model_twice.
  reflexivity.
Qed.

Lemma celltype_prepare_inv self h h' Z :
  Classifier.celltype_prepare self h = (h', inr Z) ->
  exists X1 genes1 lr_idx means_ sds_ X2 X3 features1 coef1,
    prepare_steps (Classifier.classifiers h !!! self)
                  (Classifier.models h !!! Classifier.model (Classifier.classifiers h !!! self))
                  X1 genes1 lr_idx means_ sds_ X2 X3 features1 coef1 /\
    Z = Np.setitem_gt 10 10 X3 /\
    h' = prepared_heap self Z genes1 coef1 features1 (length lr_idx) h.
Proof.
  intros H. pose proof H as H0.
  unfold Classifier.celltype_prepare in H. rewrite bind_get in H.
  do 2 (step_success H; step_success H).
  do 3 step_success H.
  step_success H; step_success H.
  step_success H; do 2 step_success H.
  do 2 (step_success H; step_success H).
  assert (Hs : prepare_steps (Classifier.classifiers h !!! self)
                 (Classifier.models h !!! Classifier.model (Classifier.classifiers h !!! self))
                 a a0 a1 a2 a3 a4 a5 a6 a7) by (constructor; assumption).
  rewrite (celltype_prepare_run _ _ _ _ _ _ _ _ _ _ _ Hs) in H0.
  inversion H0; subst. eauto 15.
Qed.

(** ** Matching the genes *)

Lemma where_from_spec (mask : list bool) (base i : nat) :
  In i (Np.where_from base mask) <->
  base <= i /\ mask !! (i - base) = Some true.
Proof.
  revert base. induction mask as [| b mask IH]; intros base; simpl.
  - rewrite lookup_nil. split; [tauto | intros [_ H]; discriminate].
  - assert (Hrec : In i (Np.where_from (S base) mask) <->
                   (S base <= i /\ (b :: mask) !! (i - base) = Some true)).
    { rewrite IH. split; intros [Hle Hm]; split; try lia.
      - replace (i - base) with (S (i - S base)) by lia. exact Hm.
      - replace (i - base) with (S (i - S base)) in Hm by lia. exact Hm. }
    destruct b; simpl; rewrite Hrec.
    + split.
      * intros [<- | [Hle Hm]]; [| split; [lia | exact Hm]].
        split; [lia |]. rewrite Nat.sub_diag. reflexivity.
      * intros [Hle Hm]. destruct (Nat.eq_dec base i) as [-> | Hne]; [auto |].
        right. split; [lia | exact Hm].
    + split; [intros [Hle Hm]; split; [lia | exact Hm] |].
      intros [Hle Hm]. split; [| exact Hm].
      destruct (Nat.eq_dec base i) as [-> | Hne]; [| lia].
      rewrite Nat.sub_diag in Hm. discriminate.
Qed.

Lemma where_from_lt (mask : list bool) (base i : nat) :
  In i (Np.where_from base mask) -> i < base + length mask.
Proof.
  rewrite where_from_spec. intros [Hle Hm].
  apply lookup_lt_Some in Hm. lia.
Qed.


(** Selecting the positions of a mask picks the entries the mask keeps. *)
Lemma take_where_from {A} (pre a : list A) (mask : list bool) :
  length mask = length a ->
  Np.take (pre ++ a)%list (Np.where_from (length pre) mask)
  = inr (Np.compress mask a).
Proof.
  revert pre a. induction mask as [| b mask IH]; intros pre a Hlen.
  - reflexivity.
  - destruct a as [| x a]; [discriminate |]. simpl in Hlen.
    assert (Hrec : Np.take (pre ++ x :: a)%list (Np.where_from (S (length pre)) mask)
                   = inr (Np.compress mask a)).
    { specialize (IH (pre ++ [x])%list a ltac:(lia)).
      rewrite <- app_assoc in IH. simpl in IH.
      rewrite length_app in IH. simpl in IH.
      rewrite Nat.add_1_r in IH. exact IH. }
    simpl. destruct b.
    + unfold Np.take in *. simpl.
      rewrite list_lookup_middle by reflexivity. simpl.
      rewrite Hrec. reflexivity.
    + exact Hrec.
Qed.

Lemma take_where {A} (a : list A) (mask : list bool) :
  length mask = length a ->
  Np.take a (Np.where_ mask) = inr (Np.compress mask a).
Proof. intros H. apply (take_where_from [] a mask H). Qed.

Lemma compress_isin (genes feats : list string) :
  Np.compress (Np.isin genes feats) genes
  = List.filter (fun g => existsb (String.eqb g) feats) genes.
Proof.
  induction genes as [| g genes IH]; simpl; [reflexivity |].
  destruct (existsb (String.eqb g) feats); rewrite IH; reflexivity.
Qed.

Lemma existsb_eqb_In (g : string) (l : list string) :
  existsb (String.eqb g) l = true <-> In g l.
Proof.
  rewrite existsb_exists. split.
  - intros (x & Hx & He). apply String.eqb_eq in He. subst. exact Hx.
  - intros H. exists g. split; [exact H | apply String.eqb_refl].
Qed.

Lemma take_matched_genes (genes feats : list string) :
  Np.take genes (Np.where_ (Np.isin genes feats)) = inr (matched_genes genes feats).
Proof.
  rewrite take_where by (unfold Np.isin; apply length_map).
  rewrite compress_isin. reflexivity.
Qed.

Lemma matched_genes_In (genes feats : list string) g :
  In g (matched_genes genes feats) <-> In g genes /\ In g feats.
Proof.
  unfold matched_genes. rewrite filter_In, existsb_eqb_In. tauto.
Qed.

Lemma matched_genes_disjoint (genes feats : list string) :
  (forall g, In g genes -> ~ In g feats) -> matched_genes genes feats = [].
Proof.
  intros H. unfold matched_genes.
  induction genes as [| g genes IH]; simpl; [reflexivity |].
  destruct (existsb (String.eqb g) feats) eqn:E.
  - apply existsb_eqb_In in E. exfalso. apply (H g); simpl; auto.
  - apply IH. intros g' Hg'. apply H. simpl. auto.
Qed.


(** Positions of a name in a list of names. *)
Lemma positions_from_spec (key : string) (l : list string) (base i : nat) :
  In i (Pd.positions_from base key l) <->
  base <= i /\ l !! (i - base) = Some key.
Proof.
  revert base. induction l as [| x l IH]; intros base; simpl.
  - rewrite lookup_nil. split; [tauto | intros [_ H]; discriminate].
  - assert (Hrec : In i (Pd.positions_from (S base) key l) <->
                   (S base <= i /\ (x :: l) !! (i - base) = Some key)).
    { rewrite IH. split; intros [Hle Hm]; split; try lia.
      - replace (i - base) with (S (i - S base)) by lia. exact Hm.
      - replace (i - base) with (S (i - S base)) in Hm by lia. exact Hm. }
    destruct (String.eqb key x) eqn:E; simpl; rewrite Hrec.
    + apply String.eqb_eq in E. subst x. split.
      * intros [<- | [Hle Hm]]; [| split; [lia | exact Hm]].
        split; [lia |]. rewrite Nat.sub_diag. reflexivity.
      * intros [Hle Hm]. destruct (Nat.eq_dec base i) as [-> | Hne]; [auto |].
        right. split; [lia | exact Hm].
    + apply String.eqb_neq in E.
      split; [intros [Hle Hm]; split; [lia | exact Hm] |].
      intros [Hle Hm]. split; [| exact Hm].
      destruct (Nat.eq_dec base i) as [-> | Hne]; [| lia].
      rewrite Nat.sub_diag in Hm. simpl in Hm. congruence.
Qed.

Lemma positions_spec (key : string) (l : list string) (i : nat) :
  In i (Pd.positions key l) <-> l !! i = Some key.
Proof.
  unfold Pd.positions. rewrite positions_from_spec, Nat.sub_0_r.
  split; [tauto | split; [lia | assumption]].
Qed.

Lemma positions_from_absent (key : string) (l : list string) (base : nat) :
  ~ In key l -> Pd.positions_from base key l = [].
Proof.
  revert base. induction l as [| x l IH]; intros base H; simpl; [reflexivity |].
  destruct (String.eqb key x) eqn:E.
  - apply String.eqb_eq in E. subst. exfalso. apply H. simpl. auto.
  - apply IH. intros Hin. apply H. simpl. auto.
Qed.

Lemma positions_from_nodup (key : string) (l : list string) (base : nat) :
  List.NoDup l -> In key l ->
  exists j, Pd.positions_from base key l = [base + j] /\ l !! j = Some key.
Proof.
  intros Hnd. revert base. induction Hnd as [| x l Hx Hnd IH]; intros base Hin.
  - destruct Hin.
  - simpl. destruct (String.eqb key x) eqn:E.
    + apply String.eqb_eq in E. subst x. exists 0.
      rewrite positions_from_absent by exact Hx.
      rewrite Nat.add_0_r. auto.
    + apply String.eqb_neq in E. destruct Hin as [-> | Hin]; [congruence |].
      destruct (IH (S base) Hin) as (j & Hp & Hj). exists (S j).
      rewrite Hp. split; [f_equal; lia | exact Hj].
Qed.

Lemma positions_nonempty (key : string) (l : list string) :
  In key l -> Pd.positions key l <> [].
Proof.
  intros Hin Hnil. apply list_elem_of_In, list_elem_of_lookup in Hin.
  destruct Hin as [i Hi]. apply positions_spec in Hi. rewrite Hnil in Hi. destruct Hi.
Qed.

(** Every key that names a row is found: [.loc] raises nothing. *)
Lemma loc_index_total (names keys : list string) :
  (forall k, In k keys -> In k names) ->
  exists idx, Pd.loc_index names keys = inr idx /\
              Forall (fun i => i < length names) idx.
Proof.
  intros H. unfold Pd.loc_index.
  induction keys as [| k keys IH]; simpl.
  - exists []. split; [reflexivity | constructor].
  - destruct IH as (idx & Hidx & Hlt); [intros; apply H; simpl; auto |].
    destruct (Pd.positions k names) as [| p ps] eqn:Ep.
    + exfalso. eapply positions_nonempty; [apply (H k); simpl; auto | exact Ep].
    + simpl.
      destruct (mapM _ keys) as [e | pss]; simpl in Hidx; [discriminate |].
      inversion Hidx; subst. simpl. eexists. split; [reflexivity |].
      apply (Forall_app_2 _ (p :: ps)); [| exact Hlt].
      apply Forall_forall. intros i Hi. apply list_elem_of_In in Hi.
      rewrite <- Ep in Hi. apply positions_spec, lookup_lt_Some in Hi. exact Hi.
Qed.

(** With distinct names every key has one position. *)
Lemma loc_index_nodup (names keys : list string) :
  List.NoDup names -> (forall k, In k keys -> In k names) ->
  exists idx, Pd.loc_index names keys = inr idx /\
              length idx = length keys /\
              forall c k, keys !! c = Some k ->
                exists j, idx !! c = Some j /\ names !! j = Some k.
Proof.
  intros Hnd H. unfold Pd.loc_index.
  induction keys as [| k keys IH]; simpl.
  - exists []. repeat split; auto. intros c k Hc. rewrite lookup_nil in Hc. discriminate.
  - destruct IH as (idx & Hidx & Hlen & Hpos); [intros; apply H; simpl; auto |].
    destruct (positions_from_nodup k names 0 Hnd (H k (or_introl eq_refl)))
      as (j & Hp & Hj).
    unfold Pd.positions. rewrite Hp. simpl.
    destruct (mapM _ keys) as [e | pss]; simpl in Hidx; [discriminate |].
    inversion Hidx; subst. simpl. eexists. split; [reflexivity |].
    split; [simpl; lia |].
    intros [| c] k' Hc; simpl in *.
    + inversion Hc; subst. eauto.
    + apply Hpos. exact Hc.
Qed.

(** ** C2: no gene in common *)





Lemma prepared_heap_model self Z genes1 coef1 features1 k h :
  Classifier.models (prepared_heap self Z genes1 coef1 features1 k h)
  = <[Classifier.model (Classifier.classifiers h !!! self) :=
        restricted_model coef1 features1 k
          (Classifier.models h !!! Classifier.model (Classifier.classifiers h !!! self))]>
      (Classifier.models h).
Proof. reflexivity. Qed.

Lemma prepared_heap_classifier self Z genes1 coef1 features1 k h :
  Classifier.classifiers (prepared_heap self Z genes1 coef1 features1 k h) !!! self
  = prepared_classifier Z genes1 (Classifier.classifiers h !!! self).
Proof.
  unfold prepared_heap, Classifier.update_model, Classifier.update_classifier. simpl.
  apply lookup_total_insert_eq.
Qed.




(** ** C1: what a call leaves in the model *)

Lemma new_result_success r h h' l :
  Classifier.new_result r h = (h', inr l) ->
  Classifier.models h' = Classifier.models h /\
  Classifier.classifiers h' = Classifier.classifiers h.
Proof. unfold Classifier.new_result. intros H. inversion H. auto. Qed.

(** The prediction stage changes neither a model nor a classifier. *)
Lemma celltype_inv predict self h h' r :
  Classifier.celltype predict self h = (h', inr r) ->
  exists h1 Z,
    Classifier.celltype_prepare self h = (h1, inr Z) /\
    Classifier.models h' = Classifier.models h1 /\
    Classifier.classifiers h' = Classifier.classifiers h1.
Proof.
  unfold Classifier.celltype. intros H.
  apply bind_success in H. destruct H as (h1 & Z & Hprep & H).
  exists h1, Z. split; [exact Hprep |].
  rewrite bind_get in H. do 3 step_success H.
  apply new_result_success in H. exact H.
Qed.

(** C1, as amended: when [Classifier.celltype] returns, the model object
    the classifier refers to keeps its scaler (mean, scale and the rest),
    its intercepts, classes and description, and every other model
    object is untouched; but its classifier's [features], [coef_] and
    [n_features_in_] have been replaced by their restriction to the
    matched genes, in the order of the input's genes: [features[lr_idx]],
    [coef_[:, lr_idx]] and [len(lr_idx)], where [lr_idx] lists the
    positions in the model of the input's genes that the model knows. *)
Theorem celltype_model_after :
  forall predict (self : loc) (h h' : Classifier.Heap) (r : loc),
    Classifier.celltype predict self h = (h', inr r) ->
    exists lr_idx features1 coef1,
      Pd.loc_index
        (Model.features (Model.classifier (Classifier.models h !!!
           Classifier.model (Classifier.classifiers h !!! self))))
        (matched_genes
           (Classifier.indata_genes (Classifier.classifiers h !!! self))
           (Model.features (Model.classifier (Classifier.models h !!!
              Classifier.model (Classifier.classifiers h !!! self)))))
      = inr lr_idx /\
      Np.take (Model.features (Model.classifier (Classifier.models h !!!
                 Classifier.model (Classifier.classifiers h !!! self)))) lr_idx
      = inr features1 /\
      Np.take_cols (Model.coef_ (Model.classifier (Classifier.models h !!!
                      Classifier.model (Classifier.classifiers h !!! self)))) lr_idx
      = inr coef1 /\
      Classifier.models h' !!! Classifier.model (Classifier.classifiers h !!! self)
      = Model.mk
          (Model.mkSGDClassifier coef1
             (Model.intercept_ (Model.classifier (Classifier.models h !!!
                Classifier.model (Classifier.classifiers h !!! self))))
             (Model.classes_ (Model.classifier (Classifier.models h !!!
                Classifier.model (Classifier.classifiers h !!! self))))
             (length lr_idx) features1)
          (Model.scaler (Classifier.models h !!!
             Classifier.model (Classifier.classifiers h !!! self)))
          (Model.description (Classifier.models h !!!
             Classifier.model (Classifier.classifiers h !!! self))) /\
      forall l, l <> Classifier.model (Classifier.classifiers h !!! self) ->
                Classifier.models h' !! l = Classifier.models h !! l.
Proof.
  intros predict self h h' r H.
  apply celltype_inv in H. destruct H as (h1 & Z & Hprep & Hm & _).
  apply celltype_prepare_inv in Hprep.
  destruct Hprep as (X1 & genes1 & lr_idx & means_ & sds_ & X2 & X3 & features1 & coef1
                     & Hs & _ & ->).
  destruct Hs as [_ Hg Hl _ _ _ _ Hf Hc].
  rewrite take_matched_genes in Hg. inversion Hg; subst genes1.
  exists lr_idx, features1, coef1. repeat split; try assumption.
  - rewrite Hm, prepared_heap_model, lookup_total_insert_eq. reflexivity.
  - intros l Hl'. rewrite Hm, prepared_heap_model.
    apply lookup_insert_ne. congruence.
Qed.

Lemma celltype_partial_overlap_run :
  exists h' r,
    Classifier.celltype first_class_predictor the_classifier heap_partial_overlap = (h', inr r).
Proof.
  unfold Classifier.celltype. unfold bind at 1.
  rewrite (celltype_prepare_run the_classifier heap_partial_overlap
             [[3%R]] ["CD19"] [1] [0%R] [1%R] [[(3 - 0)%R]] [[((3 - 0) / 1)%R]]
             ["CD19"] [[2%R]]) by (constructor; reflexivity).
  eexists _, _. reflexivity.
Qed.

Lemma celltype_model_after_witness :
  exists h' lr_idx features1,
    Model.classifier
      (Classifier.models h' !!!
         Classifier.model (Classifier.classifiers heap_partial_overlap !!! the_classifier))
    = Model.mkSGDClassifier [[2%R]] [0%R] ["T cells"] (length lr_idx) features1
    /\ lr_idx = [1] /\ features1 = ["CD19"].
Proof.
  destruct celltype_partial_overlap_run as (h' & r & Hrun).
  destruct (celltype_model_after _ _ _ _ _ Hrun)
    as (lr_idx & features1 & coef1 & Hl & Hf & Hc & Hm & _).
  exists h', lr_idx, features1.
  vm_compute in Hl. inversion Hl; subst lr_idx.
  vm_compute in Hf. inversion Hf; subst features1.
  rewrite Hm. split; [| split; reflexivity].
  cbv [Np.take_cols Np.take mapM rbind] in Hc. simpl in Hc.
  inversion Hc; subst coef1. reflexivity.
Defined.

(** C1, the claim as stated, fails: a model trained on CD3E and CD19 is
    used on an input that has CD19 only; after the call the model lists
    the single feature CD19 and its weight matrix has one column. *)
Lemma celltype_changes_the_model :
  exists h' r,
    Classifier.celltype first_class_predictor the_classifier heap_partial_overlap = (h', inr r) /\
    Model.features (Model.classifier (Classifier.models heap_partial_overlap !!! the_model))
    = ["CD3E"; "CD19"] /\
    Model.features (Model.classifier (Classifier.models h' !!! the_model)) = ["CD19"] /\
    Model.coef_ (Model.classifier (Classifier.models heap_partial_overlap !!! the_model))
    = [[1%R; 2%R]] /\
    Model.coef_ (Model.classifier (Classifier.models h' !!! the_model)) = [[2%R]] /\
    Model.n_features_in_ (Model.classifier (Classifier.models heap_partial_overlap !!! the_model))
    = 2 /\
    Model.n_features_in_ (Model.classifier (Classifier.models h' !!! the_model)) = 1.
Proof.
  destruct celltype_partial_overlap_run as (h' & r & Hrun).
  exists h', r. split; [exact Hrun |].
  apply celltype_inv in Hrun. destruct Hrun as (h1 & Z & Hprep & Hm & _).
  rewrite (celltype_prepare_run the_classifier heap_partial_overlap
             [[3%R]] ["CD19"] [1] [0%R] [1%R] [[(3 - 0)%R]] [[((3 - 0) / 1)%R]]
             ["CD19"] [[2%R]]) in Hprep by (constructor; reflexivity).
  inversion Hprep; subst h1. rewrite Hm.
  repeat split; reflexivity.
Qed.

(** ** C9: the standardisation *)

Lemma broadcast_row_same (op : R -> R -> R) (v row : list R) :
  length row = length v -> Np.broadcast_row op v row = inr (zip_with op row v).
Proof. intros H. unfold Np.broadcast_row. rewrite H, Nat.eqb_refl. reflexivity. Qed.

Lemma subtract_same (a : Np.ndarray2) (v : list R) :
  Forall (fun row => length row = length v) a ->
  Np.subtract a v = inr (map (fun row => zip_with Rminus row v) a).
Proof.
  intros H. apply mapM_pure. intros row Hrow. apply broadcast_row_same.
  rewrite Forall_forall in H. apply H, list_elem_of_In, Hrow.
Qed.

Lemma divide_same (a : Np.ndarray2) (v : list R) :
  Forall (fun row => length row = length v) a ->
  Np.divide a v = inr (map (fun row => zip_with Rdiv row v) a).
Proof.
  intros H. apply mapM_pure. intros row Hrow. apply broadcast_row_same.
  rewrite Forall_forall in H. apply H, list_elem_of_In, Hrow.
Qed.

Lemma take_cols_total {A} (a : list (list A)) (idx : list nat) (n : nat) :
  Forall (fun row => length row = n) a ->
  Forall (fun i => i < n) idx ->
  exists a1, Np.take_cols a idx = inr a1 /\
             Forall (fun row => length row = length idx) a1.
Proof.
  intros Ha Hidx.
  destruct (mapM_total (fun row => Np.take row idx) a) as [a1 Ha1].
  - intros row Hrow. apply take_in_range.
    rewrite Forall_forall in Ha. rewrite (Ha row) by (apply list_elem_of_In, Hrow).
    exact Hidx.
  - exists a1. split; [exact Ha1 |].
    apply Forall_forall. intros row1 Hrow1.
    apply list_elem_of_lookup in Hrow1. destruct Hrow1 as [r Hr].
    assert (Hlt : r < length a).
    { rewrite <- (mapM_length _ _ _ Ha1). eapply lookup_lt_Some; eauto. }
    destruct (lookup_lt_is_Some_2 a r Hlt) as [row Hrow].
    destruct (mapM_lookup _ _ _ _ _ Ha1 Hrow) as (y & Hy & Hf).
    rewrite Hr in Hy. inversion Hy; subst y. eapply take_length; eauto.
Qed.

Lemma where_isin_lt (genes feats : list string) :
  Forall (fun i => i < length genes) (Np.where_ (Np.isin genes feats)).
Proof.
  apply Forall_forall. intros i Hi. apply list_elem_of_In, where_from_lt in Hi.
  unfold Np.isin in Hi. rewrite length_map in Hi. exact Hi.
Qed.

(** On well-shaped objects every step of the first two stages succeeds,
    and the scaled matrix is the clipped quotient, entry by entry. *)
Lemma prepare_steps_well_shaped (c : Classifier.t) (m : Model.t) :
  well_shaped c m ->
  exists X1 lr_idx means_ sds_ features1 coef1,
    prepare_steps c m X1
      (matched_genes (Classifier.indata_genes c) (Model.features (Model.classifier m)))
      lr_idx means_ sds_
      (map (fun row => zip_with Rminus row means_) X1)
      (map (fun row => zip_with Rdiv row sds_)
           (map (fun row => zip_with Rminus row means_) X1))
      features1 coef1 /\
    length lr_idx
    = length (Np.where_ (Np.isin (Classifier.indata_genes c)
                                 (Model.features (Model.classifier m)))) /\
    forall col g, matched_genes (Classifier.indata_genes c)
                    (Model.features (Model.classifier m)) !! col = Some g ->
      exists j, lr_idx !! col = Some j /\
                Model.features (Model.classifier m) !! j = Some g.
Proof.
  intros [Hnd Hmean Hscale Hcoef Hin].
  set (genes := Classifier.indata_genes c) in *.
  set (feats := Model.features (Model.classifier m)) in *.
  destruct (take_cols_total (Classifier.indata c) (Np.where_ (Np.isin genes feats))
              (length genes) Hin (where_isin_lt genes feats)) as (X1 & HX1 & HX1len).
  destruct (loc_index_nodup feats (matched_genes genes feats) Hnd)
    as (lr_idx & Hlr & Hlen & Hpos).
  { intros k Hk. apply matched_genes_In in Hk. tauto. }
  assert (Hlt : Forall (fun j => j < length feats) lr_idx).
  { destruct (loc_index_total feats (matched_genes genes feats)) as (idx & Hidx & Hlt).
    - intros k Hk. apply matched_genes_In in Hk. tauto.
    - rewrite Hlr in Hidx. inversion Hidx; subst. exact Hlt. }
  assert (Hlen' : length lr_idx = length (Np.where_ (Np.isin genes feats))).
  { rewrite Hlen. pose proof (take_matched_genes genes feats) as Ht.
    apply take_length in Ht. exact Ht. }
  destruct (take_in_range (Model.mean_ (Model.scaler m)) lr_idx) as [means_ Hmeans].
  { rewrite Hmean. exact Hlt. }
  destruct (take_in_range (Model.scale_ (Model.scaler m)) lr_idx) as [sds_ Hsds].
  { rewrite Hscale. exact Hlt. }
  destruct (take_in_range feats lr_idx Hlt) as [features1 Hfeatures1].
  destruct (take_cols_total (Model.coef_ (Model.classifier m)) lr_idx (length feats)
              Hcoef Hlt) as (coef1 & Hcoef1 & _).
  exists X1, lr_idx, means_, sds_, features1, coef1.
  split; [| split; [exact Hlen' | exact Hpos]].
  constructor; try assumption.
  - apply take_matched_genes.
  - apply subtract_same. eapply Forall_impl; [exact HX1len |].
    intros row Hrow. simpl in Hrow. rewrite Hrow, <- Hlen'.
    symmetry. eapply take_length; eauto.
  - apply divide_same. apply Forall_forall. intros row Hrow.
    apply list_elem_of_In, in_map_iff in Hrow. destruct Hrow as (row1 & <- & Hrow1).
    rewrite length_zip_with.
    rewrite Forall_forall in HX1len.
    rewrite (HX1len row1) by (apply list_elem_of_In, Hrow1).
    rewrite (take_length _ _ _ Hmeans), (take_length _ _ _ Hsds), <- Hlen'. lia.
Qed.

Lemma lookup_map {A B} (f : A -> B) (l : list A) (i : nat) :
  map f l !! i = option_map f (l !! i).
Proof.
  revert i. induction l as [| x l IH]; intros [| i]; simpl; auto.
Qed.

Lemma setitem_gt_lookup (bound value : R) (a : Np.ndarray2) r col row x :
  a !! r = Some row -> row !! col = Some x ->
  exists zrow, Np.setitem_gt bound value a !! r = Some zrow /\
               zrow !! col = Some (if Rgt_dec x bound then value else x).
Proof.
  intros Hr Hc. unfold Np.setitem_gt. rewrite lookup_map, Hr. simpl.
  eexists. split; [reflexivity |]. rewrite lookup_map, Hc. reflexivity.
Qed.

Lemma clip_is_Rmin (x : R) : (if Rgt_dec x 10 then 10 else x)%R = Rmin x 10.
Proof.
  unfold Rmin. destruct (Rgt_dec x 10), (Rle_dec x 10); lra.
Qed.

(** C9, as amended: the scale values are not checked.  On well-shaped
    objects, whatever the sign of the trained scale values, the first
    two stages of [Classifier.celltype] raise nothing and return a matrix
    with a row for every cell; for a cell, a matched gene at position [i]
    of the input and position [j] of the model, and a scale [sigma]
    other than zero, the entry is [(x - mu) / sigma] cut off at 10 from
    above, [min((x - mu) / sigma, 10)], with no bound from below. *)
Theorem celltype_prepare_standardizes :
  forall (self : loc) (h : Classifier.Heap),
    well_shaped (Classifier.classifiers h !!! self)
                (Classifier.models h !!!
                   Classifier.model (Classifier.classifiers h !!! self)) ->
    exists h' Z,
      Classifier.celltype_prepare self h = (h', inr Z) /\
      length Z = length (Classifier.indata (Classifier.classifiers h !!! self)) /\
      forall r col i j row g x mu sigma,
        Classifier.indata (Classifier.classifiers h !!! self) !! r = Some row ->
        Np.where_ (Np.isin
          (Classifier.indata_genes (Classifier.classifiers h !!! self))
          (Model.features (Model.classifier (Classifier.models h !!!
             Classifier.model (Classifier.classifiers h !!! self))))) !! col = Some i ->
        Classifier.indata_genes (Classifier.classifiers h !!! self) !! i = Some g ->
        row !! i = Some x ->
        Model.features (Model.classifier (Classifier.models h !!!
          Classifier.model (Classifier.classifiers h !!! self))) !! j = Some g ->
        Model.mean_ (Model.scaler (Classifier.models h !!!
          Classifier.model (Classifier.classifiers h !!! self))) !! j = Some mu ->
        Model.scale_ (Model.scaler (Classifier.models h !!!
          Classifier.model (Classifier.classifiers h !!! self))) !! j = Some sigma ->
        sigma <> 0%R ->
        exists zrow, Z !! r = Some zrow /\
                     zrow !! col = Some (Rmin ((x - mu) / sigma) 10).
Proof.
  intros self h Hws.
  set (c := Classifier.classifiers h !!! self) in *.
  set (m := Classifier.models h !!! Classifier.model c) in *.
  destruct (prepare_steps_well_shaped c m Hws)
    as (X1 & lr_idx & means_ & sds_ & features1 & coef1 & Hs & Hlen & Hpos).
  pose proof (celltype_prepare_run self h _ _ _ _ _ _ _ _ _ Hs) as Hrun.
  eexists _, _. split; [exact Hrun |].
  destruct Hs as [HX1 Hg _ Hmeans Hsds _ _ _ _].
  split.
  - unfold Np.setitem_gt. rewrite !length_map.
    eapply mapM_length. exact HX1.
  - intros r col i j row g x mu sigma Hrow Hcol Hgi Hx Hj Hmu Hsigma _.
    destruct (mapM_lookup _ _ _ _ _ HX1 Hrow) as (row1 & Hrow1 & Htake).
    pose proof (take_lookup _ _ _ _ _ Htake Hcol) as Hx1. rewrite Hx in Hx1.
    pose proof (take_lookup _ _ _ _ _ Hg Hcol) as Hg1. rewrite Hgi in Hg1.
    destruct (Hpos col g Hg1) as (j' & Hj' & Hfj').
    assert (j' = j) as ->.
    { eapply NoDup_lookup; [| exact Hfj' | exact Hj].
      apply NoDup_ListNoDup. apply Hws. }
    pose proof (take_lookup _ _ _ _ _ Hmeans Hj') as Hmu1. rewrite Hmu in Hmu1.
    pose proof (take_lookup _ _ _ _ _ Hsds Hj') as Hsg1. rewrite Hsigma in Hsg1.
    rewrite <- clip_is_Rmin.
    eapply setitem_gt_lookup.
    + rewrite !lookup_map, Hrow1. reflexivity.
    + rewrite !lookup_zip_with, Hx1. simpl. rewrite Hmu1. simpl. rewrite Hsg1.
      reflexivity.
Qed.

Lemma heap_negative_scale_well_shaped :
  well_shaped (Classifier.classifiers heap_negative_scale !!! the_classifier)
              (Classifier.models heap_negative_scale !!!
                 Classifier.model (Classifier.classifiers heap_negative_scale
                                     !!! the_classifier)).
Proof.
  constructor; try reflexivity.
  - repeat constructor. simpl. tauto.
  - repeat constructor.
  - repeat constructor.
Qed.

Lemma celltype_prepare_standardizes_witness :
  exists h' Z,
    Classifier.celltype_prepare the_classifier heap_negative_scale = (h', inr Z) /\
    exists zrow, Z !! 0 = Some zrow /\ zrow !! 0 = Some (Rmin ((3 - 1) / -1) 10).
Proof.
  destruct (celltype_prepare_standardizes the_classifier heap_negative_scale
              heap_negative_scale_well_shaped) as (h' & Z & Hrun & _ & Hval).
  exists h', Z. split; [exact Hrun |].
  apply (Hval 0 0 0 0 [3%R] "CD3E" 3%R 1%R (-1)%R); try reflexivity. lra.
Defined.

(** C9, the claim as stated, fails: the model's one scale value is -1,
    and the standardisation raises nothing; it returns the quotient
    [(3 - 1) / -1 = -2]. *)
Lemma celltype_prepare_negative_scale_returns :
  snd (Classifier.celltype_prepare the_classifier heap_negative_scale)
  = inr [[(-2)%R]].
Proof.
  rewrite (celltype_prepare_run the_classifier heap_negative_scale
             [[3%R]] ["CD3E"] [0] [1%R] [(-1)%R] [[(3 - 1)%R]] [[((3 - 1) / -1)%R]]
             ["CD3E"] [[1%R]]) by (constructor; reflexivity).
  simpl. unfold Np.setitem_gt. simpl.
  destruct (Rgt_dec ((3 - 1) / -1) 10) as [Hgt | _].
  - exfalso. lra.
  - do 3 f_equal. lra.
Qed.

(** ** [np.unique]: sorted and without duplicates *)

Section Unique.

Context {A : Type} (cmp : A -> A -> comparison).
Hypothesis cmp_eq : forall x y, cmp x y = Eq <-> x = y.
Hypothesis cmp_antisym : forall x y, cmp x y = CompOpp (cmp y x).
Hypothesis cmp_trans : forall x y z, cmp x y = Lt -> cmp y z = Lt -> cmp x z = Lt.

Lemma insert_unique_In (x y : A) (l : list A) :
  In y (Np.insert_unique cmp x l) <-> y = x \/ In y l.
Proof using cmp_eq.
  induction l as [| z l IH]; simpl.
  - intuition.
  - destruct (cmp x z) eqn:E; simpl.
    + apply cmp_eq in E. subst z. intuition.
    + intuition.
    + rewrite IH. intuition.
Qed.

Lemma unique_by_In (y : A) (l : list A) : In y (Np.unique_by cmp l) <-> In y l.
Proof using cmp_eq.
  induction l as [| x l IH]; simpl; [tauto |].
  rewrite insert_unique_In, IH. intuition.
Qed.

Lemma insert_unique_sorted (x : A) (l : list A) :
  StronglySorted (lt_by cmp) l -> StronglySorted (lt_by cmp) (Np.insert_unique cmp x l).
Proof using cmp_eq cmp_antisym cmp_trans.
  induction 1 as [| z l Hs IH Hz]; simpl.
  - repeat constructor.
  - destruct (cmp x z) eqn:E.
    + constructor; assumption.
    + constructor; [constructor; assumption |].
      constructor; [exact E |].
      rewrite List.Forall_forall in *. intros y Hy. eapply cmp_trans; [exact E |].
      apply Hz, Hy.
    + constructor; [exact IH |].
      rewrite List.Forall_forall in *. intros y Hy.
      apply insert_unique_In in Hy. destruct Hy as [-> | Hy]; [| apply Hz, Hy].
      unfold lt_by. rewrite cmp_antisym, E. reflexivity.
Qed.

Lemma unique_by_sorted (l : list A) : StronglySorted (lt_by cmp) (Np.unique_by cmp l).
Proof using cmp_eq cmp_antisym cmp_trans.
  induction l as [| x l IH]; simpl; [constructor |].
  apply insert_unique_sorted, IH.
Qed.

Lemma lt_by_irrefl (x : A) : ~ lt_by cmp x x.
Proof using cmp_eq.
  unfold lt_by. intros H. assert (E : cmp x x = Eq) by (apply cmp_eq; reflexivity).
  congruence.
Qed.

Lemma sorted_NoDup (l : list A) : StronglySorted (lt_by cmp) l -> List.NoDup l.
Proof using cmp_eq.
  induction 1 as [| z l Hs IH Hz]; constructor; [| exact IH].
  intros Hin. rewrite List.Forall_forall in Hz.
  exact (lt_by_irrefl z (Hz z Hin)).
Qed.

(** In a sorted list an earlier entry is smaller than a later one. *)
Lemma sorted_lookup_lt (l : list A) (i j : nat) (x y : A) :
  StronglySorted (lt_by cmp) l -> l !! i = Some x -> l !! j = Some y -> i < j ->
  lt_by cmp x y.
Proof using Type.
  intros Hs. revert i j. induction Hs as [| z l Hs IH Hz]; intros i j Hi Hj Hlt.
  - rewrite lookup_nil in Hi. discriminate.
  - destruct j as [| j]; [lia |]. simpl in Hj. destruct i as [| i]; simpl in Hi.
    + inversion Hi; subst. rewrite List.Forall_forall in Hz.
      apply Hz. apply list_elem_of_In. eapply list_elem_of_lookup_2. exact Hj.
    + eapply IH; eauto. lia.
Qed.



End Unique.

(** The order of the names. *)
Lemma string_compare_eq (x y : string) : String.compare x y = Eq <-> x = y.
Proof.
  split; [apply String.compare_eq_iff |].
  intros ->. induction y as [| a y IH]; simpl; [reflexivity |].
  assert (E : Ascii.compare a a = Eq).
  { unfold Ascii.compare. apply N.compare_refl. }
  rewrite E. exact IH.
Qed.

Lemma string_compare_trans (x y z : string) :
  String.compare x y = Lt -> String.compare y z = Lt -> String.compare x z = Lt.
Proof.
  intros H1 H2. apply String_as_OT.cmp_lt. apply String_as_OT.cmp_lt in H1, H2.
  eapply String_as_OT.lt_trans; eauto.
Qed.

Lemma string_lt_leb (x y : string) : String.compare x y = Lt -> String.leb x y = true.
Proof. unfold String.leb. intros ->. reflexivity. Qed.

Lemma unique_In (y : string) (l : list string) : In y (Np.unique l) <-> In y l.
Proof. apply unique_by_In, string_compare_eq. Qed.

Lemma unique_sorted (l : list string) :
  StronglySorted (lt_by String.compare) (Np.unique l).
Proof.
  apply unique_by_sorted.
  - apply string_compare_eq.
  - apply String.compare_antisym.
  - apply string_compare_trans.
Qed.

Lemma unique_NoDup (l : list string) : List.NoDup (Np.unique l).
Proof. eapply sorted_NoDup; [apply string_compare_eq | apply unique_sorted]. Qed.

(** ** The first maximum *)

Lemma lookup_nth {A} (l : list A) (i : nat) (d : A) :
  i < length l -> l !! i = Some (nth i l d).
Proof.
  revert i. induction l as [| x l IH]; intros [| i] H; simpl in *; try lia; auto.
  apply IH. lia.
Qed.

Lemma argmax_from_spec (l pre : list nat) (bi : nat) :
  bi < length pre ->
  (forall k, k < length pre -> nth k pre 0 <= nth bi pre 0) ->
  (forall k, k < bi -> nth k pre 0 < nth bi pre 0) ->
  let r := Pd.argmax_from (length pre) bi (nth bi pre 0) l in
  r < length (pre ++ l) /\
  (forall k, k < length (pre ++ l) -> nth k (pre ++ l) 0 <= nth r (pre ++ l) 0) /\
  (forall k, k < r -> nth k (pre ++ l) 0 < nth r (pre ++ l) 0).
Proof.
  revert pre bi. induction l as [| x l IH]; intros pre bi Hbi Hmax Hfirst; simpl.
  - rewrite app_nil_r. auto.
  - assert (Hpre : forall k, k < length pre ->
                             nth k (pre ++ [x]) 0 = nth k pre 0).
    { intros k Hk. apply app_nth1. exact Hk. }
    assert (Hx : nth (length pre) (pre ++ [x]) 0 = x).
    { rewrite app_nth2 by lia. rewrite Nat.sub_diag. reflexivity. }
    assert (Hlen : length (pre ++ [x]) = S (length pre)).
    { rewrite length_app. simpl. lia. }
    replace (pre ++ x :: l)%list with ((pre ++ [x]) ++ l)%list
      by (rewrite <- app_assoc; reflexivity).
    destruct (Nat.ltb (nth bi pre 0) x) eqn:E.
    + apply Nat.ltb_lt in E.
      specialize (IH (pre ++ [x])%list (length pre)).
      rewrite Hlen, Hx in IH. apply IH.
      * lia.
      * intros k Hk. destruct (Nat.eq_dec k (length pre)) as [-> | Hne].
        -- rewrite Hx. lia.
        -- rewrite Hpre by lia. specialize (Hmax k ltac:(lia)). lia.
      * intros k Hk. rewrite Hpre by lia. specialize (Hmax k Hk). lia.
    + apply Nat.ltb_ge in E.
      specialize (IH (pre ++ [x])%list bi).
      rewrite Hlen, (Hpre bi Hbi) in IH. apply IH.
      * lia.
      * intros k Hk. destruct (Nat.eq_dec k (length pre)) as [-> | Hne].
        -- rewrite Hx. exact E.
        -- rewrite Hpre by lia. apply Hmax. lia.
      * intros k Hk. rewrite Hpre by lia. apply Hfirst. exact Hk.
Qed.

Lemma argmax_spec (l : list nat) :
  l <> [] ->
  exists r, Pd.argmax l = Some r /\ r < length l /\
            (forall k, k < length l -> nth k l 0 <= nth r l 0) /\
            (forall k, k < r -> nth k l 0 < nth r l 0).
Proof.
  destruct l as [| x l]; [congruence |]. intros _.
  exists (Pd.argmax_from 1 0 x l). split; [reflexivity |].
  apply (argmax_from_spec l [x] 0); simpl.
  - lia.
  - intros k Hk. destruct k; [lia | lia].
  - intros k Hk. lia.
Qed.

(** ** The contingency table *)

Lemma count_pairs_pos (r c : string) (labels clusters : list string) (i : nat) :
  labels !! i = Some r -> clusters !! i = Some c ->
  0 < Pd.count_pairs r c labels clusters.
Proof.
  revert clusters i. induction labels as [| x labels IH]; intros clusters i Hl Hc.
  - rewrite lookup_nil in Hl. discriminate.
  - destruct clusters as [| y clusters]; [rewrite lookup_nil in Hc; discriminate |].
    destruct i as [| i]; simpl in *.
    + inversion Hl; inversion Hc; subst. rewrite !String.eqb_refl. simpl. lia.
    + specialize (IH clusters i Hl Hc). lia.
Qed.

Lemma count_pairs_In (r c : string) (labels clusters : list string) :
  0 < Pd.count_pairs r c labels clusters -> In r labels.
Proof.
  revert clusters. induction labels as [| x labels IH]; intros clusters H; simpl in *.
  - lia.
  - destruct clusters as [| y clusters]; [lia |].
    destruct (String.eqb r x) eqn:E.
    + apply String.eqb_eq in E. auto.
    + simpl in H. right. eapply IH. exact H.
Qed.

Lemma winner_spec (labels clusters : list string) (c : string) (i : nat) :
  length clusters = length labels ->
  clusters !! i = Some c ->
  let w := winner labels clusters c in
  0 < Pd.count_pairs w c labels clusters /\
  (forall l, Pd.count_pairs l c labels clusters <= Pd.count_pairs w c labels clusters) /\
  (forall l, Pd.count_pairs l c labels clusters = Pd.count_pairs w c labels clusters ->
             String.leb w l = true).
Proof.
  intros Hlen Hc. simpl.
  assert (Hi : i < length labels).
  { rewrite <- Hlen. eapply lookup_lt_Some; eauto. }
  destruct (lookup_lt_is_Some_2 labels i Hi) as [li Hli].
  pose proof (count_pairs_pos li c labels clusters i Hli Hc) as Hpos.
  set (rs := Np.unique labels).
  set (col := map (fun r => Pd.count_pairs r c labels clusters) rs).
  assert (Hin_li : In li rs).
  { apply unique_In. apply list_elem_of_In. eapply list_elem_of_lookup_2; eauto. }
  assert (Hne : col <> []).
  { unfold col. destruct rs; [destruct Hin_li | discriminate]. }
  destruct (argmax_spec col Hne) as (r & Hr & Hrlt & Hmax & Hfirst).
  unfold winner. fold rs. fold col. rewrite Hr.
  assert (Hcol : forall k, k < length rs ->
                   nth k col 0 = Pd.count_pairs (nth k rs "") c labels clusters).
  { intros k Hk. unfold col.
    rewrite (nth_indep _ 0 (Pd.count_pairs "" c labels clusters))
      by (rewrite length_map; exact Hk).
    apply (map_nth (fun r => Pd.count_pairs r c labels clusters)). }
  assert (Hlenc : length col = length rs) by (unfold col; apply length_map).
  rewrite Hlenc in *.
  assert (Hall : forall l, Pd.count_pairs l c labels clusters
                           <= Pd.count_pairs (nth r rs "") c labels clusters).
  { intros l. destruct (Nat.eq_dec (Pd.count_pairs l c labels clusters) 0) as [-> | Hnz];
      [lia |].
    assert (Hl : In l rs)
      by (apply unique_In, (count_pairs_In l c labels clusters); lia).
    apply (In_nth _ _ "") in Hl. destruct Hl as (k & Hk & <-).
    rewrite <- !Hcol by assumption. apply Hmax. exact Hk. }
  split; [| split].
  - specialize (Hall li). lia.
  - exact Hall.
  - intros l Heq.
    assert (Hl : In l rs).
    { apply unique_In, (count_pairs_In l c labels clusters). rewrite Heq.
      specialize (Hall li). lia. }
    apply (In_nth _ _ "") in Hl. destruct Hl as (k & Hk & <-).
    destruct (Nat.lt_trichotomy k r) as [Hlt | [-> | Hgt]].
    + specialize (Hfirst k Hlt). rewrite !Hcol in Hfirst by lia. lia.
    + unfold String.leb.
      assert (E : String.compare (nth r rs "") (nth r rs "") = Eq)
        by (apply string_compare_eq; reflexivity).
      rewrite E. reflexivity.
    + apply string_lt_leb.
      apply (sorted_lookup_lt String.compare rs r k); try (apply unique_sorted); try lia.
      * apply lookup_nth. exact Hrlt.
      * apply lookup_nth. exact Hk.
Qed.

Lemma mapM_enumerate {A B} (f : nat * A -> result B) (g : A -> B)
  (l : list A) (base : nat) :
  (forall j x, l !! j = Some x -> f (base + j, x) = inr (g x)) ->
  mapM f (combine (seq base (length l)) l) = inr (map g l).
Proof.
  revert base. induction l as [| x l IH]; intros base H; simpl; [reflexivity |].
  pose proof (H 0 x eq_refl) as H0. rewrite Nat.add_0_r in H0. rewrite H0. simpl.
  rewrite (IH (S base)); [reflexivity |].
  intros j y Hj. replace (S base + j) with (base + S j) by lia. apply H. exact Hj.
Qed.

Lemma nth_map_lookup {A} (F : A -> nat) (l : list A) (j : nat) (x : A) :
  l !! j = Some x -> nth j (map F l) 0 = F x.
Proof.
  revert j. induction l as [| y l IH]; intros [| j] H; simpl in *; try discriminate.
  - inversion H. reflexivity.
  - apply IH. exact H.
Qed.

(** [votes.idxmax()] on the contingency table of the labels and the
    clusters: every cluster with its winner. *)
Lemma idxmax_crosstab (labels clusters : list string) :
  length clusters = length labels ->
  exists t, Pd.crosstab labels clusters = inr t /\
            Pd.idxmax t = inr (map (fun c => (c, winner labels clusters c))
                                   (Np.unique clusters)).
Proof.
  intros Hlen. unfold Pd.crosstab. rewrite Hlen, Nat.eqb_refl. simpl.
  eexists. split; [reflexivity |].
  unfold Pd.idxmax. simpl.
  apply (mapM_enumerate _ (fun c => (c, winner labels clusters c)) _ 0).
  intros j c Hj. simpl.
  assert (Hcol : map (fun row => nth j row 0)
                     (map (fun r => map (fun c0 => Pd.count_pairs r c0 labels clusters)
                                        (Np.unique clusters)) (Np.unique labels))
                 = map (fun r => Pd.count_pairs r c labels clusters) (Np.unique labels)).
  { rewrite map_map. apply map_ext. intros r.
    apply (nth_map_lookup (fun c0 => Pd.count_pairs r c0 labels clusters)). exact Hj. }
  rewrite Hcol. unfold winner.
  destruct (Pd.argmax _) as [i |] eqn:E; [reflexivity |].
  exfalso.
  assert (Hc : In c clusters).
  { apply unique_In. apply list_elem_of_In. eapply list_elem_of_lookup_2. exact Hj. }
  destruct clusters as [| c0 clusters]; [destruct Hc |].
  destruct labels as [| l0 labels]; [discriminate |].
  assert (Hl0 : In l0 (Np.unique (l0 :: labels))) by (apply unique_In; simpl; auto).
  destruct (Np.unique (l0 :: labels)); [destruct Hl0 | discriminate].
Qed.

Lemma find_map_key (g : string -> string) (cs : list string) (k : string) :
  In k cs ->
  find (fun kv : string * string => String.eqb k (fst kv)) (map (fun c => (c, g c)) cs)
  = Some (k, g k).
Proof.
  induction cs as [| c cs IH]; intros Hin; [destruct Hin |]. simpl.
  destruct (String.eqb k c) eqn:E.
  - apply String.eqb_eq in E. subst. reflexivity.
  - apply String.eqb_neq in E. destruct Hin as [-> | Hin]; [congruence | auto].
Qed.

Lemma series_getitem_reset_total (g : string -> string) (cs keys : list string) :
  (forall k, In k keys -> In k cs) ->
  Pd.series_getitem_reset (map (fun c => (c, g c)) cs) keys
  = inr (map (fun k => [k; g k]) keys).
Proof.
  intros H. apply mapM_pure. intros k Hk.
  rewrite find_map_key by (apply H, Hk). reflexivity.
Qed.

(** ** The join on the cell index *)

Lemma positions_from_app (key : string) (l1 l2 : list string) (base : nat) :
  Pd.positions_from base key (l1 ++ l2)
  = (Pd.positions_from base key l1
     ++ Pd.positions_from (base + length l1) key l2)%list.
Proof.
  revert base. induction l1 as [| x l1 IH]; intros base; simpl.
  - rewrite Nat.add_0_r. reflexivity.
  - rewrite IH. replace (S base + length l1) with (base + S (length l1)) by lia.
    destruct (String.eqb key x); reflexivity.
Qed.

Lemma positions_nodup_middle (key : string) (pre post : list string) :
  List.NoDup (pre ++ key :: post) ->
  Pd.positions key (pre ++ key :: post) = [length pre].
Proof.
  intros Hnd. unfold Pd.positions. rewrite positions_from_app. simpl.
  rewrite String.eqb_refl.
  apply NoDup_remove_2 in Hnd.
  rewrite positions_from_absent by (intros H; apply Hnd, in_or_app; auto).
  rewrite positions_from_absent by (intros H; apply Hnd, in_or_app; auto).
  reflexivity.
Qed.

Lemma join_rows_aligned {A} (na : A) (right : Pd.DataFrame A)
  (idx : list string) (vals valsR : list (list A)) (pre : list string)
  (preR : list (list A)) :
  Pd.df_index right = (pre ++ idx)%list ->
  Pd.df_values right = (preR ++ valsR)%list ->
  length preR = length pre ->
  List.NoDup (pre ++ idx) ->
  length vals = length idx -> length valsR = length idx ->
  flat_map (Pd.join_row na right) (combine idx vals)
  = combine idx (zip_with (fun v w => (v ++ w)%list) vals valsR).
Proof.
  revert vals valsR pre preR.
  induction idx as [| k idx IH]; intros vals valsR pre preR Hi Hv Hp Hnd Hl Hr.
  - reflexivity.
  - destruct vals as [| v vals]; [discriminate |].
    destruct valsR as [| w valsR]; [discriminate |].
    simpl. unfold Pd.join_row at 1. simpl.
    rewrite Hi, (positions_nodup_middle k pre idx Hnd). simpl.
    rewrite Hv, app_nth2 by lia. rewrite Hp, Nat.sub_diag. simpl.
    f_equal.
    apply (IH vals valsR (pre ++ [k])%list (preR ++ [w])%list).
    + rewrite Hi, <- app_assoc. reflexivity.
    + rewrite Hv, <- app_assoc. reflexivity.
    + rewrite !length_app. simpl. lia.
    + rewrite <- app_assoc. exact Hnd.
    + simpl in Hl. lia.
    + simpl in Hr. lia.
Qed.

Lemma map_fst_combine {A B} (l : list A) (l' : list B) :
  length l' = length l -> map fst (combine l l') = l.
Proof.
  revert l'. induction l as [| x l IH]; intros [| y l'] H; simpl in *;
    try discriminate; auto.
  f_equal. apply IH. lia.
Qed.

Lemma map_snd_combine {A B} (l : list A) (l' : list B) :
  length l' = length l -> map snd (combine l l') = l'.
Proof.
  revert l'. induction l as [| x l IH]; intros [| y l'] H; simpl in *;
    try discriminate; auto.
  f_equal. apply IH. lia.
Qed.

(** Two frames over the same distinct row labels, with different column
    names: the join puts their rows side by side. *)
Lemma join_aligned {A} (na : A) (left right : Pd.DataFrame A) :
  Pd.df_index right = Pd.df_index left ->
  List.NoDup (Pd.df_index left) ->
  length (Pd.df_values left) = length (Pd.df_index left) ->
  length (Pd.df_values right) = length (Pd.df_index left) ->
  (forall c, In c (Pd.df_columns right) -> ~ In c (Pd.df_columns left)) ->
  Pd.join na left right
  = inr (Pd.mkDataFrame (Pd.df_index left)
           (Pd.df_columns left ++ Pd.df_columns right)%list
           (zip_with (fun v w => (v ++ w)%list) (Pd.df_values left) (Pd.df_values right))).
Proof.
  intros Hidx Hnd Hl Hr Hcols. unfold Pd.join.
  assert (E : existsb (fun c => existsb (String.eqb c) (Pd.df_columns left))
                      (Pd.df_columns right) = false).
  { apply not_true_is_false. intros H. apply existsb_exists in H.
    destruct H as (c & Hc & Hc'). apply existsb_eqb_In in Hc'. exact (Hcols c Hc Hc'). }
  rewrite E.
  rewrite (join_rows_aligned na right (Pd.df_index left) (Pd.df_values left)
             (Pd.df_values right) [] []); auto.
  rewrite map_fst_combine, map_snd_combine; auto;
    rewrite length_zip_with; lia.
Qed.

Lemma getitem_appended (idx cols : list string) (rows : list (list string))
  (a name : string) (g : string -> string) (keys : list string) :
  Forall (fun row => length row = length cols) rows ->
  ~ In name cols -> a <> name -> length keys = length rows ->
  Pd.getitem (Pd.mkDataFrame idx (cols ++ [a; name])%list
                (zip_with (fun v w => (v ++ w)%list) rows
                          (map (fun k => [k; g k]) keys))) name
  = inr (map g keys).
Proof.
  intros Hrows Hn Ha Hlen. unfold Pd.getitem, Pd.positions. simpl.
  rewrite positions_from_app, positions_from_absent by exact Hn. simpl.
  assert (E1 : String.eqb name a = false) by (apply String.eqb_neq; congruence).
  rewrite E1, String.eqb_refl.
  revert keys Hlen. induction Hrows as [| row rows Hrow Hrows IH]; intros keys Hlen.
  - destruct keys; [reflexivity | discriminate].
  - destruct keys as [| k keys]; [discriminate |]. simpl.
    rewrite lookup_app_r by lia.
    replace (S (length cols) - length row) with 1 by lia. simpl.
    rewrite IH by (simpl in Hlen; lia). reflexivity.
Qed.

(** ** [Classifier.majority_vote] *)

Lemma getitem_length {A} (df : Pd.DataFrame A) (name : string) (col : list A) :
  Pd.getitem df name = inr col -> length col = length (Pd.df_values df).
Proof.
  unfold Pd.getitem. destruct (Pd.positions name (Pd.df_columns df)); [discriminate |].
  apply mapM_length.
Qed.

Lemma majority_vote_run (h : Classifier.Heap) (p : loc) (oc labels : list string) :
  voting_ready (AnnotationResult.predicted_labels (Classifier.results h !!! p)) labels oc ->
  Classifier.majority_vote p oc h
  = (Classifier.update_result p
       (AnnotationResult.set_predicted_labels
          (voted_frame (AnnotationResult.predicted_labels (Classifier.results h !!! p))
                       labels oc)) h,
     inr p).
Proof.
  intros [Hl Hlen Hidx Hrows Hnd Hoc Hmv].
  set (P := AnnotationResult.predicted_labels (Classifier.results h !!! p)) in *.
  pose proof (getitem_length _ _ _ Hl) as Hn.
  destruct (idxmax_crosstab labels oc Hlen) as (t & Ht & Hbest).
  unfold Classifier.majority_vote. rewrite bind_get. fold P.
  rewrite (bind_lift_inr _ _ _ _ Hl), (bind_lift_inr _ _ _ _ Ht),
          (bind_lift_inr _ _ _ _ Hbest).
  rewrite (bind_lift_inr _ _ _ _
             (series_getitem_reset_total (winner labels oc) (Np.unique oc) oc
                ltac:(intros k Hk; apply unique_In, Hk))).
  unfold Pd.set_index at 1. simpl. rewrite !length_map.
  replace (Nat.eqb (length oc) (length (Pd.df_index P))) with true
    by (symmetry; apply Nat.eqb_eq; lia).
  unfold lift at 1, bind at 1.
  unfold Pd.set_columns at 1. simpl.
  unfold lift at 1, bind at 1.
  rewrite join_aligned; simpl; auto.
  - rewrite length_map. lia.
  - intros c [<- | [<- | []]]; assumption.
Qed.

Lemma update_result_lookup p f h :
  Classifier.results (Classifier.update_result p f h) !!! p
  = f (Classifier.results h !!! p).
Proof. unfold Classifier.update_result. simpl. apply lookup_total_insert_eq. Qed.

(** C4: for a partition as long as the predicted labels, over cells
    with distinct names, [Classifier.majority_vote] returns and writes a
    column [majority_voting] in which every cell carries the winner of
    its cluster: a label that occurs in the cluster, that no label beats
    in count there, and that comes first in the order of the code
    points ([String.leb]) among the labels with that same count. *)
Theorem majority_vote_consensus :
  forall (h : Classifier.Heap) (p : loc) (over_clustering labels : list string),
    voting_ready (AnnotationResult.predicted_labels (Classifier.results h !!! p))
                 labels over_clustering ->
    exists h' mv,
      Classifier.majority_vote p over_clustering h = (h', inr p) /\
      Pd.getitem (AnnotationResult.predicted_labels (Classifier.results h' !!! p))
                 "majority_voting" = inr mv /\
      length mv = length labels /\
      forall i c, over_clustering !! i = Some c ->
        exists w,
          mv !! i = Some w /\
          0 < Pd.count_pairs w c labels over_clustering /\
          (forall l, Pd.count_pairs l c labels over_clustering
                     <= Pd.count_pairs w c labels over_clustering) /\
          (forall l, Pd.count_pairs l c labels over_clustering
                     = Pd.count_pairs w c labels over_clustering ->
                     String.leb w l = true).
Proof.
  intros h p oc labels Hready.
  pose proof (majority_vote_run h p oc labels Hready) as Hrun.
  destruct Hready as [Hl Hlen Hidx Hrows Hnd Hoc Hmv].
  pose proof (getitem_length _ _ _ Hl) as Hn.
  exists (Classifier.update_result p
            (AnnotationResult.set_predicted_labels
               (voted_frame (AnnotationResult.predicted_labels
                               (Classifier.results h !!! p)) labels oc)) h),
         (map (winner labels oc) oc).
  split; [exact Hrun |]. split; [| split].
  - rewrite update_result_lookup. simpl. unfold voted_frame.
    apply getitem_appended; try assumption; try discriminate; lia.
  - rewrite length_map. exact Hlen.
  - intros i c Hc. exists (winner labels oc c). split.
    + rewrite lookup_map, Hc. reflexivity.
    + apply (winner_spec labels oc c i Hlen Hc).
Qed.


Lemma voting_heap_ready (a b c d : string) (oc : list string) :
  length oc = 4 ->
  voting_ready
    (AnnotationResult.predicted_labels
       (Classifier.results (voting_heap [a; b; c; d]) !!! the_predictions))
    [a; b; c; d] oc.
Proof.
  intros Hoc. constructor; try reflexivity.
  - exact Hoc.
  - repeat constructor.
  - repeat constructor; simpl; intuition discriminate.
  - intros H. vm_compute in H. intuition discriminate.
  - intros H. vm_compute in H. intuition discriminate.
Qed.

Lemma majority_vote_consensus_witness :
  exists h' mv,
    Classifier.majority_vote the_predictions ["0"; "0"; "0"; "0"]
                             (voting_heap ["A"; "A"; "A"; "B"])
    = (h', inr the_predictions) /\
    Pd.getitem (AnnotationResult.predicted_labels
                  (Classifier.results h' !!! the_predictions)) "majority_voting"
    = inr mv /\
    length mv = length ["A"; "A"; "A"; "B"] /\
    forall i c, ["0"; "0"; "0"; "0"] !! i = Some c ->
      exists w,
        mv !! i = Some w /\
        0 < Pd.count_pairs w c ["A"; "A"; "A"; "B"] ["0"; "0"; "0"; "0"] /\
        (forall l, Pd.count_pairs l c ["A"; "A"; "A"; "B"] ["0"; "0"; "0"; "0"]
                   <= Pd.count_pairs w c ["A"; "A"; "A"; "B"] ["0"; "0"; "0"; "0"]) /\
        (forall l, Pd.count_pairs l c ["A"; "A"; "A"; "B"] ["0"; "0"; "0"; "0"]
                   = Pd.count_pairs w c ["A"; "A"; "A"; "B"] ["0"; "0"; "0"; "0"] ->
                   String.leb w l = true).
Proof.
  apply (majority_vote_consensus (voting_heap ["A"; "A"; "A"; "B"]) the_predictions
           ["0"; "0"; "0"; "0"] ["A"; "A"; "A"; "B"]).
  apply voting_heap_ready. reflexivity.
Defined.

(** The two scenarios of the specification, run: one cluster with the
    labels A, A, A, B gives A to all four cells, and the tie A, A, B, B
    goes to A. *)
Example majority_vote_three_to_one :
  Pd.getitem
    (AnnotationResult.predicted_labels
       (Classifier.results
          (fst (Classifier.majority_vote the_predictions ["0"; "0"; "0"; "0"]
                  (voting_heap ["A"; "A"; "A"; "B"]))) !!! the_predictions))
    "majority_voting"
  = inr ["A"; "A"; "A"; "A"].
Proof. vm_compute. reflexivity. Qed.

Example majority_vote_tie :
  Pd.getitem
    (AnnotationResult.predicted_labels
       (Classifier.results
          (fst (Classifier.majority_vote the_predictions ["0"; "0"; "0"; "0"]
                  (voting_heap ["B"; "A"; "B"; "A"]))) !!! the_predictions))
    "majority_voting"
  = inr ["A"; "A"; "A"; "A"].
Proof. vm_compute. reflexivity. Qed.

Example majority_vote_two_clusters :
  Pd.getitem
    (AnnotationResult.predicted_labels
       (Classifier.results
          (fst (Classifier.majority_vote the_predictions ["1"; "0"; "1"; "0"]
                  (voting_heap ["B"; "A"; "B"; "B"]))) !!! the_predictions))
    "majority_voting"
  = inr ["B"; "A"; "B"; "A"].
Proof. vm_compute. reflexivity. Qed.

(** C8: a partition whose length is not the number of predicted labels
    makes [Classifier.majority_vote] fail, the heap untouched.  The
    exception is the [ValueError] with which [pd.crosstab] refuses an
    array that does not fit the index of the labels (a frame without the
    [predicted_labels] column fails earlier, on the lookup). *)
Theorem majority_vote_length_mismatch :
  forall (h : Classifier.Heap) (p : loc) (over_clustering : list string),
    length over_clustering
    <> length (Pd.df_values (AnnotationResult.predicted_labels
                               (Classifier.results h !!! p))) ->
    exists e,
      Classifier.majority_vote p over_clustering h = (h, inl e) /\
      forall labels,
        Pd.getitem (AnnotationResult.predicted_labels (Classifier.results h !!! p))
                   "predicted_labels" = inr labels ->
        e = ValueError "Length of values does not match length of index".
Proof.
  intros h p oc Hne. unfold Classifier.majority_vote. rewrite bind_get.
  destruct (Pd.getitem _ "predicted_labels") as [e | labels] eqn:Hl.
  - exists e. split; [reflexivity | discriminate].
  - rewrite (bind_lift_inr _ _ _ _ eq_refl).
    apply getitem_length in Hl.
    assert (Hct : Pd.crosstab labels oc
                  = inl (ValueError "Length of values does not match length of index")).
    { unfold Pd.crosstab.
      replace (Nat.eqb (length oc) (length labels)) with false; [reflexivity |].
      symmetry. apply Nat.eqb_neq. congruence. }
    rewrite (bind_lift_inl _ _ _ _ Hct).
    eexists. split; [reflexivity |]. reflexivity.
Qed.

Lemma majority_vote_length_mismatch_witness :
  exists e,
    Classifier.majority_vote the_predictions ["0"; "0"; "0"]
                             (voting_heap ["A"; "A"; "A"; "B"])
    = (voting_heap ["A"; "A"; "A"; "B"], inl e) /\
    forall labels,
      Pd.getitem (AnnotationResult.predicted_labels
                    (Classifier.results (voting_heap ["A"; "A"; "A"; "B"])
                       !!! the_predictions))
                 "predicted_labels" = inr labels ->
      e = ValueError "Length of values does not match length of index".
Proof.
  apply (majority_vote_length_mismatch (voting_heap ["A"; "A"; "A"; "B"])
           the_predictions ["0"; "0"; "0"]).
  vm_compute. discriminate.
Defined.

Lemma set_index_success {A} (df df' : Pd.DataFrame A) (idx : list string) :
  Pd.set_index df idx = inr df' ->
  length (Pd.df_values df) = length idx /\
  df' = Pd.mkDataFrame idx (Pd.df_columns df) (Pd.df_values df).
Proof.
  unfold Pd.set_index. destruct (Nat.eqb _ _) eqn:E; [| discriminate].
  apply Nat.eqb_eq in E. intros H. inversion H. auto.
Qed.

Lemma set_columns_success {A} (df df' : Pd.DataFrame A) (cols : list string) :
  Pd.set_columns df cols = inr df' ->
  df' = Pd.mkDataFrame (Pd.df_index df) cols (Pd.df_values df).
Proof.
  unfold Pd.set_columns. destruct (Nat.eqb _ _); [| discriminate].
  intros H. inversion H. reflexivity.
Qed.


Lemma join_success {A} (na : A) (left right joined : Pd.DataFrame A) :
  Pd.join na left right = inr joined ->
  Pd.df_columns joined = (Pd.df_columns left ++ Pd.df_columns right)%list /\
  (forall c, In c (Pd.df_columns right) -> ~ In c (Pd.df_columns left)).
Proof.
  unfold Pd.join. destruct (existsb _ _) eqn:E; [discriminate |].
  intros H. inversion H. split; [reflexivity |].
  intros c Hc Hc'. apply not_true_iff_false in E. apply E.
  apply existsb_exists. exists c. split; [exact Hc |]. apply existsb_eqb_In, Hc'.
Qed.



Lemma majority_vote_run_example :
  exists h',
    Classifier.majority_vote the_predictions ["0"; "0"; "0"; "0"]
                             (voting_heap ["A"; "A"; "A"; "B"])
    = (h', inr the_predictions).
Proof.
  eexists. apply (majority_vote_run _ _ _ ["A"; "A"; "A"; "B"]).
  apply voting_heap_ready. reflexivity.
Qed.


(** ** [_SGDClassifier]: the mini-batch mode *)

Section MiniBatch.

Variable sgd_fit :
  Train.SGDParams -> list (list R) -> list string -> result Model.SGDClassifier.
Variable sgd_partial_fit :
  Train.SGDParams -> Train.estimator -> list (list R) -> list string -> list string ->
  result Model.SGDClassifier.
Variable sklearn_shuffle :
  nat -> list (list R) -> list string -> result (list (list R) * list string).

(** C6: in mini-batch mode a batch size larger than the number of cells
    makes [_SGDClassifier] raise its [ValueError] ("Number of cells is
    fewer than the batch size") with the log of fitting calls as it
    found it: no [fit] and no [partial_fit] has been made. *)
Theorem sgd_batch_larger_than_data :
  forall (indata : list (list R)) (labels : list string) (params : Train.SGDParams)
         (batch_number batch_size epochs : Z) (log : list Train.call),
    (Z.of_nat (length labels) < batch_size)%Z ->
    Train._SGDClassifier sgd_fit sgd_partial_fit sklearn_shuffle
      indata labels params true batch_number batch_size epochs log
    = (log, inl (ValueError "Number of cells is fewer than the batch size. Decrease `batch_size`, or use SGD directly (mini_batch = False)")).
Proof using Type.
  intros indata labels params batch_number batch_size epochs log Hlt.
  unfold Train._SGDClassifier. simpl.
  replace (Z.of_nat (length labels) <=? batch_size)%Z with true
    by (symmetry; apply Z.leb_le; lia).
  reflexivity.
Qed.

(** The name [shuffle] is bound nowhere in the module. *)
Lemma shuffle_is_unbound : Train.is_bound "shuffle" = false.
Proof using Type. reflexivity. Qed.

(** C5, what the code does instead: with more cells than the batch
    size, a positive batch size and at least one epoch, the first epoch
    stops at the call of [shuffle], a name the module never binds:
    [_SGDClassifier] raises [NameError] before any [partial_fit]. *)
Theorem sgd_mini_batch_name_error :
  forall (indata : list (list R)) (labels : list string) (params : Train.SGDParams)
         (batch_number batch_size epochs : Z) (log : list Train.call),
    (batch_size < Z.of_nat (length labels))%Z -> (0 < batch_size)%Z ->
    (0 < epochs)%Z ->
    Train._SGDClassifier sgd_fit sgd_partial_fit sklearn_shuffle
      indata labels params true batch_number batch_size epochs log
    = (log, inl (NameError "shuffle")).
Proof using Type.
  intros indata labels params batch_number batch_size epochs log Hlt Hpos Hep.
  unfold Train._SGDClassifier. simpl.
  replace (Z.of_nat (length labels) <=? batch_size)%Z with false
    by (symmetry; apply Z.leb_gt; lia).
  replace (batch_size =? 0)%Z with false
    by (symmetry; apply Z.eqb_neq; lia).
  destruct (Z.to_nat epochs) as [| n] eqn:He; [lia |].
  reflexivity.
Qed.

End MiniBatch.

Lemma sgd_batch_larger_than_data_witness :
  Train._SGDClassifier
    (fun _ _ _ => inr (Model.mkSGDClassifier [] [] [] 0 []))
    (fun _ _ _ _ _ => inr (Model.mkSGDClassifier [] [] [] 0 []))
    (fun _ X y => inr (X, y))
    [[1%R]; [2%R]] ["A"; "B"] (Train.mkSGDParams 0.0001 1000 None []) true 100 1000 10 []
  = ([], inl (ValueError "Number of cells is fewer than the batch size. Decrease `batch_size`, or use SGD directly (mini_batch = False)")).
Proof.
  apply sgd_batch_larger_than_data. simpl. lia.
Defined.

Lemma sgd_mini_batch_name_error_witness :
  Train._SGDClassifier
    (fun _ _ _ => inr (Model.mkSGDClassifier [] [] [] 0 []))
    (fun _ _ _ _ _ => inr (Model.mkSGDClassifier [] [] [] 0 []))
    (fun _ X y => inr (X, y))
    [[1%R]; [2%R]; [3%R]] ["A"; "B"; "A"] (Train.mkSGDParams 0.0001 1000 None [])
    true 100 2 10 []
  = ([], inl (NameError "shuffle")).
Proof.
  apply sgd_mini_batch_name_error; simpl; lia.
Defined.

(** ** C7: the integrity check at loading time *)

Lemma not_normalised_cons (row0 : list R) (rest : list (list R)) :
  Classifier.not_normalised (row0 :: rest)
  = inr (if Rgt_dec (Rabs (Np.sum (map Np.expm1 row0) - 10000)) 1 then true else false).
Proof. reflexivity. Qed.

Lemma not_normalised_accepts (row0 : list R) (rest : list (list R)) :
  row_within_bound row0 -> Classifier.not_normalised (row0 :: rest) = inr false.
Proof.
  unfold row_within_bound. intros H. rewrite not_normalised_cons.
  destruct (Rgt_dec _ 1); [lra | reflexivity].
Qed.


Section Loading.

Variable sc_read : string -> result AnnData.t.
Variable read_column : string -> result (list string).
Variable var_names_make_unique : list string -> list string.
Variable normalize_total : R -> list (list R) -> list (list R).
Variable log1p : list (list R) -> list (list R).

(** Loading an [.h5ad] file whose matrix has no negative entry: the
    outcome is decided by row 0. *)
Lemma init_h5ad (filename : string) (model : loc) (transpose : bool)
  (gene_file cell_file : option string) (adata : AnnData.t) (lo : R)
  (row0 : list R) (rest : list (list R)) (h : Classifier.Heap) :
  Classifier.endswith filename [".csv"; ".txt"; ".tsv"; ".tab"; ".mtx"; ".mtx.gz"] = false ->
  Classifier.endswith filename [".h5ad"] = true ->
  sc_read filename = inr adata ->
  AnnData.X adata = row0 :: rest ->
  Np.amin (AnnData.X adata) = Some lo -> ~ (lo < 0)%R ->
  Classifier.__init__ sc_read read_column var_names_make_unique normalize_total log1p
                  filename model transpose gene_file cell_file h
  = if Rgt_dec (Rabs (Np.sum (map Np.expm1 row0) - 10000)) 1
    then (h, inl (ValueError "Invalid expression matrix, expect log1p normalized expression to 10000 counts per cell"))
    else Classifier.new_classifier
           (Classifier.mk filename adata (row0 :: rest) (AnnData.var_names adata) model) h.
Proof using Type.
  intros E1 E2 Hread HX Hmin Hlo. unfold Classifier.__init__. rewrite E1, E2.
  rewrite (bind_lift_inr _ _ _ _ Hread). rewrite Hmin.
  rewrite (bind_lift_inr _ _ _ _ eq_refl).
  destruct (Rlt_dec lo 0) as [Hneg | _]; [contradiction |].
  rewrite bind_ret. simpl. rewrite HX.
  rewrite (bind_lift_inr _ _ _ _ (not_normalised_cons row0 rest)).
  destruct (Rgt_dec _ 1); reflexivity.
Qed.

Variable sgd_fit :
  Train.SGDParams -> list (list R) -> list string -> result Model.SGDClassifier.
Variable sgd_partial_fit :
  Train.SGDParams -> Train.estimator -> list (list R) -> list string -> list string ->
  result Model.SGDClassifier.
Variable scaler_fit_transform :
  list (list R) -> result (Model.StandardScaler * list (list R)).
Variable sklearn_shuffle :
  nat -> list (list R) -> list string -> result (list (list R) * list string).
Variable argpartition : list R -> nat -> list nat.


End Loading.

Lemma first_cell_within_bound : row_within_bound [ln 10001].
Proof.
  unfold row_within_bound, Np.sum, Np.expm1. simpl.
  rewrite exp_ln by lra.
  replace (10001 - 1 + 0 - 10000)%R with 0%R by lra.
  rewrite Rabs_R0. lra.
Qed.




(** ** C3: feature selection *)







Lemma nat_compare_antisym (x y : nat) :
  Nat.compare x y = CompOpp (Nat.compare y x).
Proof. apply Nat.compare_antisym. Qed.

Lemma nat_compare_trans (x y z : nat) :
  Nat.compare x y = Lt -> Nat.compare y z = Lt -> Nat.compare x z = Lt.
Proof. rewrite !Nat.compare_lt_iff. lia. Qed.

Lemma unique_nat_In (j : nat) (l : list nat) : In j (Np.unique_nat l) <-> In j l.
Proof. apply unique_by_In, Nat.compare_eq_iff. Qed.

Lemma unique_nat_NoDup (l : list nat) : List.NoDup (Np.unique_nat l).
Proof.
  eapply sorted_NoDup; [apply Nat.compare_eq_iff |].
  apply unique_by_sorted.
  - apply Nat.compare_eq_iff.
  - apply nat_compare_antisym.
  - apply nat_compare_trans.
Qed.

Lemma unique_nat_ascending (l : list nat) : StronglySorted lt (Np.unique_nat l).
Proof.
  assert (H : StronglySorted (lt_by Nat.compare) (Np.unique_nat l)).
  { apply unique_by_sorted.
    - apply Nat.compare_eq_iff.
    - apply nat_compare_antisym.
    - apply nat_compare_trans. }
  induction H as [| x l' Hs IH Hx]; constructor; [exact IH |].
  eapply List.Forall_impl; [| exact Hx].
  intros y Hy. apply Nat.compare_lt_iff. exact Hy.
Qed.

Lemma mapM_In {A B} (f : A -> result B) (l : list A) (l' : list B) (y : B) :
  mapM f l = inr l' -> In y l' -> exists x, In x l /\ f x = inr y.
Proof.
  revert l'. induction l as [| a l IH]; simpl; intros l' H Hy.
  - inversion H; subst. destruct Hy.
  - destruct (f a) as [e | b] eqn:Hf; simpl in H; [discriminate |].
    destruct (mapM f l) as [e | bs]; simpl in H; [discriminate |].
    inversion H; subst. destruct Hy as [<- | Hy]; [eauto |].
    destruct (IH bs eq_refl Hy) as (x & Hx & Hfx). eauto.
Qed.

Lemma mapM_In_inv {A B} (f : A -> result B) (l : list A) (l' : list B) (x : A) :
  mapM f l = inr l' -> In x l -> exists y, In y l' /\ f x = inr y.
Proof.
  revert l'. induction l as [| a l IH]; simpl; intros l' H Hx; [destruct Hx |].
  destruct (f a) as [e | b] eqn:Hf; simpl in H; [discriminate |].
  destruct (mapM f l) as [e | bs]; simpl in H; [discriminate |].
  inversion H; subst. destruct Hx as [<- | Hx]; [simpl; eauto |].
  destruct (IH bs eq_refl Hx) as (y & Hy & Hfy). simpl. eauto.
Qed.



(** *** A sort fulfils the contract of [np.argpartition] *)

Lemma insert_by_perm (a : list R) (i : nat) (p : list nat) :
  Permutation (Train.insert_by a i p) (i :: p).
Proof.
  induction p as [| j p IH]; simpl; [reflexivity |].
  destruct (Rle_dec _ _); [reflexivity |].
  rewrite IH. apply perm_swap.
Qed.

Lemma fold_insert_by_perm (a : list R) (l : list nat) :
  Permutation (fold_right (Train.insert_by a) [] l) l.
Proof.
  induction l as [| i l IH]; simpl; [reflexivity |].
  rewrite insert_by_perm, IH. reflexivity.
Qed.

Lemma insert_by_sorted (a : list R) (i : nat) (p : list nat) :
  StronglySorted (le_at a) p -> StronglySorted (le_at a) (Train.insert_by a i p).
Proof.
  induction 1 as [| j p Hs IH Hj]; simpl.
  - repeat constructor.
  - destruct (Rle_dec _ _) as [Hle | Hgt].
    + constructor; [constructor; assumption |].
      constructor; [exact Hle |].
      eapply List.Forall_impl; [| exact Hj].
      intros k Hk. unfold le_at in *. lra.
    + constructor; [exact IH |].
      rewrite List.Forall_forall in *. intros k Hk.
      apply (Permutation_in _ (insert_by_perm a i p)) in Hk.
      destruct Hk as [<- | Hk]; [unfold le_at; lra | apply Hj, Hk].
Qed.

Lemma argsort_sorted (a : list R) : StronglySorted (le_at a) (Train.argsort a).
Proof.
  unfold Train.argsort. induction (seq 0 (length a)) as [| i l IH]; simpl.
  - constructor.
  - apply insert_by_sorted, IH.
Qed.

Lemma sorted_nth {A} (rel : A -> A -> Prop) (l : list A) (d : A) (i j : nat) :
  StronglySorted rel l -> i < j -> j < length l -> rel (nth i l d) (nth j l d).
Proof.
  intros Hs. revert i j. induction Hs as [| x l Hs IH Hx]; intros i j Hij Hj.
  - simpl in Hj. lia.
  - destruct j as [| j]; [lia |]. simpl in Hj. destruct i as [| i]; simpl.
    + rewrite List.Forall_forall in Hx. apply Hx, nth_In. lia.
    + apply IH; lia.
Qed.

Lemma argpartition_sort_contract : Train.argpartition_contract Train.argpartition_sort.
Proof.
  intros a kth Hkth. unfold Train.argpartition_sort. split.
  - apply fold_insert_by_perm.
  - intros i j Hi Hj Hlt.
    assert (Hlen : length (Train.argsort a) = length a).
    { unfold Train.argsort.
      rewrite (Permutation_length (fold_insert_by_perm a _)). apply length_seq. }
    destruct (Nat.eq_dec i j) as [-> | Hne]; [lra |].
    apply (sorted_nth (le_at a) (Train.argsort a) 0%nat i j (argsort_sorted a)); lia.
Qed.

(** *** The selection inside [train] *)

Lemma raise_not_success {S A} (e : exn) (s s' : S) (a : A) :
  raise e s = (s', inr a) -> False.
Proof. unfold raise. intros H. inversion H. Qed.

Section FeatureSelection.

Variable sgd_fit :
  Train.SGDParams -> list (list R) -> list string -> result Model.SGDClassifier.
Variable sgd_partial_fit :
  Train.SGDParams -> Train.estimator -> list (list R) -> list string -> list string ->
  result Model.SGDClassifier.
Variable scaler_fit_transform :
  list (list R) -> result (Model.StandardScaler * list (list R)).
Variable sklearn_shuffle :
  nat -> list (list R) -> list string -> result (list (list R) * list string).
Variable argpartition : list R -> nat -> list nat.

Lemma train_selection_inv indata labels genes params mini_batch
  batch_number batch_size epochs top_genes date details url now log log2 model :
  Train.train sgd_fit sgd_partial_fit scaler_fit_transform sklearn_shuffle argpartition
    indata labels genes params mini_batch batch_number batch_size epochs
    true top_genes date details url now log = (log2, inr model) ->
  exists log1 scaled clf1 gene_index genes2 X2 est2 scaler2,
    selection_run sgd_fit sgd_partial_fit scaler_fit_transform sklearn_shuffle
                  argpartition indata labels genes params mini_batch batch_number
                  batch_size epochs top_genes log log1 log2 scaled clf1 gene_index
                  genes2 X2 est2 scaler2 /\
    Model.features (Model.classifier model) = genes2 /\
    Model.scaler model = scaler2.
Proof using Type.
  unfold Train.train. intros H.
  apply bind_success in H. destruct H as (s0 & bad & Hbad & H).
  apply lift_success in Hbad. destruct Hbad as [-> Hbad].
  destruct bad; [exfalso; eapply raise_not_success; exact H |].
  destruct (negb (Nat.eqb (length labels) (length indata)));
    [exfalso; eapply raise_not_success; exact H |].
  destruct (negb (Nat.eqb (length genes) (length (hd [] indata))));
    [exfalso; eapply raise_not_success; exact H |].
  cbv zeta in H.
  apply bind_success in H. destruct H as (s1 & scaled & Hscaled & H).
  apply lift_success in Hscaled. destruct Hscaled as [-> Hscaled].
  apply bind_success in H. destruct H as (log1 & est1 & Hfirst & H).
  apply bind_success in H. destruct H as (log2' & sel & Hsel & H).
  destruct (Nat.leb (length (snd (Train.drop_non_expressed indata genes))) top_genes)
    eqn:Eleb; [exfalso; eapply raise_not_success; exact Hsel |].
  apply Nat.leb_gt in Eleb.
  step_success Hsel. destruct est1 as [clf1 |]; [| discriminate].
  inversion Hstep; subst a. clear Hstep.
  do 3 step_success Hsel.
  apply bind_success in Hsel. destruct Hsel as (log3 & est2 & Hsecond & Hsel).
  step_success Hsel. unfold ret in Hsel. inversion Hsel; subst log3 sel. clear Hsel.
  unfold ret in H. inversion H; subst log2' model. clear H. simpl.
  exists log1, scaled, clf1, a, a0, a1, est2, a2.
  split; [constructor; assumption |]. split; reflexivity.
Qed.



End FeatureSelection.

(** *** A run with three classes and three genes *)



Section TrainRun.

Variable sgd_fit :
  Train.SGDParams -> list (list R) -> list string -> result Model.SGDClassifier.
Variable sgd_partial_fit :
  Train.SGDParams -> Train.estimator -> list (list R) -> list string -> list string ->
  result Model.SGDClassifier.
Variable scaler_fit_transform :
  list (list R) -> result (Model.StandardScaler * list (list R)).
Variable sklearn_shuffle :
  nat -> list (list R) -> list string -> result (list (list R) * list string).
Variable argpartition : list R -> nat -> list nat.


End TrainRun.

Lemma drop_non_expressed_none (indata : list (list R)) (genes : list string) :
  Forall (fun s => s <> 0%R) (Np.sum_axis0 (length genes) indata) ->
  Train.drop_non_expressed indata genes = (indata, genes).
Proof.
  intros H. unfold Train.drop_non_expressed.
  replace (existsb _ _) with false; [reflexivity |].
  symmetry. apply not_true_is_false. intros Hex.
  apply existsb_exists in Hex. destruct Hex as (b & Hb & ->).
  apply in_map_iff in Hb. destruct Hb as (s & Hs & Hin).
  rewrite Forall_forall in H. specialize (H s ltac:(apply list_elem_of_In, Hin)).
  destruct (Req_dec_T s 0); [contradiction | discriminate].
Qed.

Lemma ln_pos (x : R) : (1 < x)%R -> (0 < ln x)%R.
Proof. intros H. rewrite <- ln_1. apply ln_increasing; lra. Qed.

Lemma example_training_data_normalised :
  Classifier.not_normalised example_training_data = inr false.
Proof.
  apply not_normalised_accepts.
  unfold row_within_bound, Np.sum, Np.expm1. simpl.
  rewrite !exp_ln by lra.
  replace (5001 - 1 + (2501 - 1 + (2501 - 1 + 0)) - 10000)%R with 0%R by lra.
  rewrite Rabs_R0. lra.
Qed.

Lemma example_training_data_expressed :
  Train.drop_non_expressed example_training_data example_genes
  = (example_training_data, example_genes).
Proof.
  apply drop_non_expressed_none.
  pose proof (ln_pos 5001 ltac:(lra)). pose proof (ln_pos 2501 ltac:(lra)).
  pose proof (ln_pos 3001 ltac:(lra)). pose proof (ln_pos 3501 ltac:(lra)).
  unfold Np.sum_axis0, Np.sum. simpl.
  repeat constructor; lra.
Qed.





(* ================================================================== *)
(** * Part IV: further properties of the two modules *)
(* ================================================================== *)

(** ** [Classifier.celltype]: what the call leaves behind *)

Lemma setitem_gt_bound (v : R) (a : Np.ndarray2) :
  Forall (Forall (fun x => (x <= v)%R)) (Np.setitem_gt v v a).
Proof.
  unfold Np.setitem_gt. apply List.Forall_forall. intros row Hrow.
  apply in_map_iff in Hrow as (row0 & <- & _).
  apply List.Forall_forall. intros x Hx.
  apply in_map_iff in Hx as (x0 & <- & _).
  destruct (Rgt_dec x0 v); lra.
Qed.

Lemma setitem_gt_row_length (b v : R) (a : Np.ndarray2) (n : nat) :
  Forall (fun row => length row = n) a ->
  Forall (fun row => length row = n) (Np.setitem_gt b v a).
Proof.
  intros H. unfold Np.setitem_gt. induction H as [| row a Hrow _ IH]; simpl.
  - constructor.
  - constructor; [| exact IH]. rewrite length_map. exact Hrow.
Qed.

Lemma take_cols_row_length {A} (a a1 : list (list A)) (idx : list nat) :
  Np.take_cols a idx = inr a1 ->
  Forall (fun row => length row = length idx) a1.
Proof.
  intros H. apply List.Forall_forall. intros row Hrow.
  destruct (mapM_In _ _ _ _ H Hrow) as (row0 & _ & Htake).
  eapply take_length. exact Htake.
Qed.

Lemma broadcast_rows_length (op : R -> R -> R) (a a1 : Np.ndarray2) (v : list R) :
  Forall (fun row => length row = length v) a ->
  mapM (Np.broadcast_row op v) a = inr a1 ->
  Forall (fun row => length row = length v) a1.
Proof.
  intros Ha H. apply List.Forall_forall. intros row Hrow.
  destruct (mapM_In _ _ _ _ H Hrow) as (row0 & Hin & Hb).
  pose proof (proj1 (List.Forall_forall _ _) Ha row0 Hin) as Hlen.
  rewrite (broadcast_row_same op v row0 Hlen) in Hb. inversion Hb; subst row.
  simpl in Hlen. rewrite length_zip_with. lia.
Qed.

(** The positions [loc] finds for keys over distinct names are fixed by
    the keys: one position per key, that of the name. *)
Lemma loc_index_nodup_inv (names keys : list string) (idx : list nat) :
  List.NoDup names -> Pd.loc_index names keys = inr idx ->
  length idx = length keys /\
  forall c k, keys !! c = Some k ->
    exists j, idx !! c = Some j /\ names !! j = Some k.
Proof.
  intros Hnd H.
  assert (Hin : forall k, In k keys -> In k names).
  { intros k Hk. unfold Pd.loc_index in H.
    destruct (mapM _ keys) as [e | ps] eqn:Hps; simpl in H; [discriminate |].
    destruct (mapM_In_inv _ _ _ _ Hps Hk) as (p & _ & Hp).
    destruct (Pd.positions k names) as [| j p'] eqn:Hpos; [discriminate |].
    assert (Hj : In j (Pd.positions k names)) by (rewrite Hpos; left; reflexivity).
    apply positions_spec in Hj.
    apply list_elem_of_In. eapply list_elem_of_lookup_2. exact Hj. }
  destruct (loc_index_nodup names keys Hnd Hin) as (idx' & Hidx' & Hlen & Hspec).
  rewrite H in Hidx'. inversion Hidx'; subst idx'. auto.
Qed.

Lemma DataFrame_success {A} (data : list (list A)) (columns index : list string)
  (df : Pd.DataFrame A) :
  Pd.DataFrame_ data columns index = inr df ->
  df = Pd.mkDataFrame index columns data /\
  length data = length index /\
  Forall (fun row => length row = length columns) data.
Proof.
  unfold Pd.DataFrame_. intros H.
  destruct (Nat.eqb (length data) (length index)) eqn:Hn; simpl in H; [| discriminate].
  destruct (forallb _ data) eqn:Hf; simpl in H; [| discriminate].
  inversion H. split; [reflexivity |]. split; [apply Nat.eqb_eq, Hn |].
  apply List.Forall_forall. intros row Hrow.
  rewrite forallb_forall in Hf. apply Nat.eqb_eq, Hf, Hrow.
Qed.

Lemma prepared_heap_results self Z genes1 coef1 features1 k h :
  Classifier.results (prepared_heap self Z genes1 coef1 features1 k h)
  = Classifier.results h.
Proof. reflexivity. Qed.

Lemma prepared_heap_model_lookup self Z genes1 coef1 features1 k h :
  Classifier.models (prepared_heap self Z genes1 coef1 features1 k h)
    !!! Classifier.model (Classifier.classifiers h !!! self)
  = restricted_model coef1 features1 k
      (Classifier.models h !!! Classifier.model (Classifier.classifiers h !!! self)).
Proof. rewrite prepared_heap_model. apply lookup_total_insert_eq. Qed.

(** A run of the first two stages on the example with one shared gene. *)
Lemma celltype_prepare_partial_overlap_run :
  exists h' Z,
    Classifier.celltype_prepare the_classifier heap_partial_overlap = (h', inr Z).
Proof.
  destruct celltype_partial_overlap_run as (h' & r & Hrun).
  destruct (celltype_inv _ _ _ _ _ Hrun) as (h1 & Z & Hprep & _).
  eauto.
Qed.

(** Over distinct feature names the steps of the first two stages keep
    the gene list of the input and the feature list of the model in
    step. *)
Lemma prepare_steps_aligned (c : Classifier.t) (m : Model.t)
  (X1 : Np.ndarray2) (genes1 : list string) (lr_idx : list nat)
  (means_ sds_ : list R) (X2 X3 : Np.ndarray2)
  (features1 : list string) (coef1 : Np.ndarray2) :
  List.NoDup (Model.features (Model.classifier m)) ->
  prepare_steps c m X1 genes1 lr_idx means_ sds_ X2 X3 features1 coef1 ->
  genes1 = matched_genes (Classifier.indata_genes c) (Model.features (Model.classifier m)) /\
  features1 = genes1 /\
  length lr_idx = length genes1 /\
  Forall (fun row => length row = length genes1) X3 /\
  Forall (fun row => length row = length genes1) coef1.
Proof.
  intros Hnd [HX1 Hgenes Hlr Hmeans Hsds Hsub Hdiv Hfeat Hcoef].
  rewrite take_matched_genes in Hgenes. injection Hgenes as Hg.
  destruct (loc_index_nodup_inv _ _ _ Hnd Hlr) as (Hlen & Hspec).
  assert (Hf1 : features1 = genes1).
  { apply list_eq. intros i.
    destruct (genes1 !! i) as [g |] eqn:Hgi.
    - destruct (Hspec i g Hgi) as (j & Hj & Hnj).
      rewrite (take_lookup _ _ _ _ _ Hfeat Hj). exact Hnj.
    - apply lookup_ge_None in Hgi. apply lookup_ge_None.
      rewrite (take_length _ _ _ Hfeat). lia. }
  split; [symmetry; exact Hg |]. split; [exact Hf1 |]. split; [exact Hlen |].
  assert (HlenX1 : Forall (fun row => length row = length genes1) X1).
  { pose proof (take_cols_row_length _ _ _ HX1) as H1.
    pose proof (take_length _ _ _ (take_matched_genes (Classifier.indata_genes c)
                                     (Model.features (Model.classifier m)))) as H2.
    rewrite Hg in H2. rewrite H2. exact H1. }
  assert (Hm : length means_ = length genes1)
    by (rewrite (take_length _ _ _ Hmeans); exact Hlen).
  assert (Hs : length sds_ = length genes1)
    by (rewrite (take_length _ _ _ Hsds); exact Hlen).
  split.
  - rewrite <- Hs. eapply broadcast_rows_length; [| exact Hdiv].
    rewrite Hs, <- Hm. eapply broadcast_rows_length; [| exact Hsub].
    rewrite Hm. exact HlenX1.
  - rewrite <- Hlen. eapply take_cols_row_length. exact Hcoef.
Qed.

(** X1 ([Classifier.celltype], feature alignment).  For a model with
    distinct feature names, when the first two stages of [celltype]
    return, the gene list of the classifier object and the feature list
    of the shared model are the same list, the genes of the input that
    the model knows in the input's order; [n_features_in_] is its
    length, and every row of the scaled matrix and of [coef_] has that
    many entries. *)
Theorem celltype_prepare_aligned (self : loc) (h h' : Classifier.Heap)
  (Z : Np.ndarray2) :
  List.NoDup (Model.features (Model.classifier
     (Classifier.models h !!! Classifier.model (Classifier.classifiers h !!! self)))) ->
  Classifier.celltype_prepare self h = (h', inr Z) ->
  let c := Classifier.classifiers h !!! self in
  let m := Classifier.models h !!! Classifier.model c in
  let c' := Classifier.classifiers h' !!! self in
  let clf' := Model.classifier (Classifier.models h' !!! Classifier.model c) in
  Classifier.indata_genes c'
  = matched_genes (Classifier.indata_genes c) (Model.features (Model.classifier m)) /\
  Model.features clf' = Classifier.indata_genes c' /\
  Model.n_features_in_ clf' = length (Classifier.indata_genes c') /\
  Classifier.indata c' = Z /\
  Forall (fun row => length row = length (Classifier.indata_genes c')) Z /\
  Forall (fun row => length row = length (Classifier.indata_genes c')) (Model.coef_ clf').
Proof.
  intros Hnd Hrun c m c' clf'.
  destruct (celltype_prepare_inv _ _ _ _ Hrun)
    as (X1 & genes1 & lr_idx & means_ & sds_ & X2 & X3 & features1 & coef1
        & Hsteps & HZ & Hh').
  destruct (prepare_steps_aligned _ _ _ _ _ _ _ _ _ _ _ Hnd Hsteps)
    as (Hg & Hf1 & Hlen & HX3 & Hcoef).
  assert (Hc' : c' = prepared_classifier Z genes1 c).
  { unfold c'. rewrite Hh'. apply prepared_heap_classifier. }
  assert (Hclf' : clf' = Model.mkSGDClassifier coef1
                           (Model.intercept_ (Model.classifier m))
                           (Model.classes_ (Model.classifier m))
                           (length lr_idx) features1).
  { unfold clf'. rewrite Hh'. unfold c. rewrite prepared_heap_model_lookup.
    reflexivity. }
  rewrite Hc', Hclf'. simpl.
  split; [exact Hg |]. split; [exact Hf1 |].
  split; [exact Hlen |]. split; [reflexivity |].
  split; [| exact Hcoef].
  rewrite HZ. apply setitem_gt_row_length. exact HX3.
Qed.

Lemma celltype_prepare_aligned_witness :
  exists h' Z,
    Classifier.celltype_prepare the_classifier heap_partial_overlap = (h', inr Z) /\
    Model.features (Model.classifier
      (Classifier.models h' !!!
         Classifier.model (Classifier.classifiers heap_partial_overlap !!! the_classifier)))
    = ["CD19"] /\
    Classifier.indata_genes (Classifier.classifiers h' !!! the_classifier) = ["CD19"].
Proof.
  destruct celltype_prepare_partial_overlap_run as (h' & Z & Hrun).
  assert (Hnd : List.NoDup (Model.features (Model.classifier
            (Classifier.models heap_partial_overlap !!!
               Classifier.model (Classifier.classifiers heap_partial_overlap
                                   !!! the_classifier))))).
  { change (List.NoDup ["CD3E"; "CD19"]).
    apply List.NoDup_cons; [simpl; intuition discriminate |].
    apply List.NoDup_cons; [simpl; tauto | apply List.NoDup_nil]. }
  destruct (celltype_prepare_aligned _ _ _ _ Hnd Hrun) as (Hg & Hf & _).
  exists h', Z. split; [exact Hrun |].
  rewrite Hf, Hg. split; reflexivity.
Defined.

(** X2 ([Classifier.celltype], clipping).  Whenever the first two
    stages return, no entry of the matrix handed to the predictor is
    above 10, whatever the model and the input hold. *)
Theorem celltype_prepare_upper_bound (self : loc) (h h' : Classifier.Heap)
  (Z : Np.ndarray2) :
  Classifier.celltype_prepare self h = (h', inr Z) ->
  Forall (Forall (fun x => (x <= 10)%R)) Z.
Proof.
  intros Hrun.
  destruct (celltype_prepare_inv _ _ _ _ Hrun)
    as (X1 & genes1 & lr_idx & means_ & sds_ & X2 & X3 & features1 & coef1
        & _ & HZ & _).
  rewrite HZ. apply setitem_gt_bound.
Qed.

Lemma celltype_prepare_upper_bound_witness :
  exists h' Z,
    Classifier.celltype_prepare the_classifier heap_partial_overlap = (h', inr Z) /\
    Forall (Forall (fun x => (x <= 10)%R)) Z.
Proof.
  destruct celltype_prepare_partial_overlap_run as (h' & Z & Hrun).
  exists h', Z. split; [exact Hrun |].
  exact (celltype_prepare_upper_bound _ _ _ _ Hrun).
Defined.

(** ** [Classifier.celltype]: the result object *)

(** The steps of a call that returns. *)
Lemma celltype_steps predict (self : loc) (h h' : Classifier.Heap) (r : loc) :
  Classifier.celltype predict self h = (h', inr r) ->
  exists h1 Z lp,
    Classifier.celltype_prepare self h = (h1, inr Z) /\
    predict (Classifier.models h1
               !!! Classifier.model (Classifier.classifiers h !!! self)) Z = inr lp /\
    length (fst lp)
    = length (AnnData.obs_names (Classifier.adata (Classifier.classifiers h !!! self))) /\
    length (snd lp)
    = length (AnnData.obs_names (Classifier.adata (Classifier.classifiers h !!! self))) /\
    Forall (fun row => length row
                       = length (Model.classes_ (Model.classifier
                           (Classifier.models h
                              !!! Classifier.model (Classifier.classifiers h !!! self)))))
           (snd lp) /\
    r = fresh (dom (Classifier.results h)) /\
    h' = Classifier.mkHeap (Classifier.models h1) (Classifier.classifiers h1)
           (<[r := AnnotationResult.mk
                     (Pd.mkDataFrame
                        (AnnData.obs_names
                           (Classifier.adata (Classifier.classifiers h !!! self)))
                        ["predicted_labels"] (map (fun l => [l]) (fst lp)))
                     (Pd.mkDataFrame
                        (AnnData.obs_names
                           (Classifier.adata (Classifier.classifiers h !!! self)))
                        (Model.classes_ (Model.classifier
                           (Classifier.models h
                              !!! Classifier.model (Classifier.classifiers h !!! self))))
                        (snd lp))
                     (length (AnnData.obs_names
                                (Classifier.adata (Classifier.classifiers h !!! self))))
                     (Classifier.adata (Classifier.classifiers h !!! self))]>
              (Classifier.results h)).
Proof.
  intros Hrun. unfold Classifier.celltype in Hrun.
  apply bind_success in Hrun as (h1 & Z & Hprep & Hrun).
  rewrite bind_get in Hrun.
  destruct (celltype_prepare_inv _ _ _ _ Hprep)
    as (X1 & genes1 & lr_idx & means_ & sds_ & X2 & X3 & features1 & coef1
        & _ & _ & Hh1).
  assert (Hc1 : Classifier.classifiers h1 !!! self
                = prepared_classifier Z genes1 (Classifier.classifiers h !!! self)).
  { rewrite Hh1. apply prepared_heap_classifier. }
  assert (Hr1 : Classifier.results h1 = Classifier.results h).
  { rewrite Hh1. apply prepared_heap_results. }
  rewrite Hc1 in Hrun. unfold prepared_classifier in Hrun.
  cbn [Classifier.adata Classifier.model] in Hrun.
  assert (Hcls : Model.classes_ (Model.classifier
                   (Classifier.models h1
                      !!! Classifier.model (Classifier.classifiers h !!! self)))
                 = Model.classes_ (Model.classifier
                     (Classifier.models h
                        !!! Classifier.model (Classifier.classifiers h !!! self)))).
  { rewrite Hh1, prepared_heap_model_lookup. reflexivity. }
  rewrite Hcls in Hrun.
  step_success Hrun. step_success Hrun. step_success Hrun.
  apply DataFrame_success in Hstep0 as (-> & Hlen0 & _).
  apply DataFrame_success in Hstep1 as (-> & Hlen1 & Hrows1).
  rewrite length_map in Hlen0.
  unfold Classifier.new_result in Hrun. rewrite Hr1 in Hrun.
  unfold AnnotationResult.__init__ in Hrun. cbn [Pd.df_values] in Hrun.
  rewrite length_map, Hlen0 in Hrun.
  inversion Hrun. exists h1, Z, a. repeat split; auto.
Qed.

Lemma getitem_single_column (idx : list string) (name : string) (labels : list string) :
  Pd.getitem (Pd.mkDataFrame idx [name] (map (fun l => [l]) labels)) name = inr labels.
Proof.
  unfold Pd.getitem, Pd.positions. simpl. rewrite String.eqb_refl.
  induction labels as [| l labels IH]; simpl; [reflexivity |].
  rewrite IH. reflexivity.
Qed.

(** X3 ([Classifier.celltype], the result).  When [celltype] returns,
    the result is a new object at a location no result held before, and
    every older result is as it was; its two frames are indexed by the
    cell names of the input object, the label frame has the single
    column [predicted_labels], the probability frame one column per
    class of the model, [cell_count] is the number of cells, and [adata]
    is the classifier's object. *)
Theorem celltype_result predict (self : loc) (h h' : Classifier.Heap) (r : loc) :
  Classifier.celltype predict self h = (h', inr r) ->
  let c := Classifier.classifiers h !!! self in
  let m := Classifier.models h !!! Classifier.model c in
  Classifier.results h !! r = None /\
  (forall l, l <> r -> Classifier.results h' !! l = Classifier.results h !! l) /\
  exists labels prob,
    Classifier.results h' !! r
    = Some (AnnotationResult.mk
              (Pd.mkDataFrame (AnnData.obs_names (Classifier.adata c))
                              ["predicted_labels"] (map (fun l => [l]) labels))
              (Pd.mkDataFrame (AnnData.obs_names (Classifier.adata c))
                              (Model.classes_ (Model.classifier m)) prob)
              (AnnData.n_obs (Classifier.adata c)) (Classifier.adata c)) /\
    length labels = AnnData.n_obs (Classifier.adata c) /\
    length prob = AnnData.n_obs (Classifier.adata c) /\
    Forall (fun row => length row = length (Model.classes_ (Model.classifier m))) prob.
Proof.
  intros Hrun c m. unfold m, c. clear m c.
  destruct (celltype_steps _ _ _ _ _ Hrun)
    as (h1 & Z & lp & _ & _ & Hl & Hp & Hrows & Hr & Hh').
  split.
  - rewrite Hr. apply not_elem_of_dom, is_fresh.
  - split.
    + intros l Hne. rewrite Hh'. simpl. apply lookup_insert_ne. congruence.
    + exists (fst lp), (snd lp). rewrite Hh'. simpl. rewrite lookup_insert_eq.
      unfold AnnData.n_obs. auto.
Qed.

Lemma celltype_result_witness :
  exists h' r,
    Classifier.celltype first_class_predictor the_classifier heap_partial_overlap
    = (h', inr r) /\
    Classifier.results heap_partial_overlap !! r = None /\
    is_Some (Classifier.results h' !! r).
Proof.
  destruct celltype_partial_overlap_run as (h' & r & Hrun).
  destruct (celltype_result _ _ _ _ _ Hrun) as (Hfresh & _ & labels & prob & Hres & _).
  exists h', r. split; [exact Hrun |]. split; [exact Hfresh |].
  rewrite Hres. eexists. reflexivity.
Defined.

(** X4 ([Classifier.celltype] then [Classifier.majority_vote]).  The
    result of [celltype] over cells with distinct names can be voted on
    with any partition that has one entry per cell: the vote returns the
    same object, its label frame keeps the cell names as index and has
    the columns [predicted_labels], [over_clustering] and
    [majority_voting]. *)
Theorem celltype_then_majority_vote predict (self : loc) (h h' : Classifier.Heap)
  (r : loc) (over_clustering : list string) :
  Classifier.celltype predict self h = (h', inr r) ->
  List.NoDup (AnnData.obs_names (Classifier.adata (Classifier.classifiers h !!! self))) ->
  length over_clustering
  = AnnData.n_obs (Classifier.adata (Classifier.classifiers h !!! self)) ->
  exists h'',
    Classifier.majority_vote r over_clustering h' = (h'', inr r) /\
    Pd.df_index (AnnotationResult.predicted_labels (Classifier.results h'' !!! r))
    = AnnData.obs_names (Classifier.adata (Classifier.classifiers h !!! self)) /\
    Pd.df_columns (AnnotationResult.predicted_labels (Classifier.results h'' !!! r))
    = ["predicted_labels"; "over_clustering"; "majority_voting"].
Proof.
  intros Hrun Hnd Hlen.
  destruct (celltype_steps _ _ _ _ _ Hrun)
    as (h1 & Z & lp & _ & _ & Hl & Hp & Hrows & Hr & Hh').
  assert (Hres : Classifier.results h' !!! r
                 = AnnotationResult.mk
                     (Pd.mkDataFrame
                        (AnnData.obs_names
                           (Classifier.adata (Classifier.classifiers h !!! self)))
                        ["predicted_labels"] (map (fun l => [l]) (fst lp)))
                     (Pd.mkDataFrame
                        (AnnData.obs_names
                           (Classifier.adata (Classifier.classifiers h !!! self)))
                        (Model.classes_ (Model.classifier
                           (Classifier.models h
                              !!! Classifier.model (Classifier.classifiers h !!! self))))
                        (snd lp))
                     (length (AnnData.obs_names
                                (Classifier.adata (Classifier.classifiers h !!! self))))
                     (Classifier.adata (Classifier.classifiers h !!! self))).
  { rewrite Hh'. simpl. apply lookup_total_insert_eq. }
  assert (Hready : voting_ready
                     (AnnotationResult.predicted_labels (Classifier.results h' !!! r))
                     (fst lp) over_clustering).
  { rewrite Hres. simpl. constructor; simpl.
    - apply getitem_single_column.
    - unfold AnnData.n_obs in Hlen. congruence.
    - rewrite length_map. congruence.
    - apply List.Forall_forall. intros row Hrow.
      apply in_map_iff in Hrow as (l & <- & _). reflexivity.
    - exact Hnd.
    - intros [H | []]. discriminate.
    - intros [H | []]. discriminate. }
  eexists. split; [apply (majority_vote_run _ _ _ _ Hready) |].
  rewrite update_result_lookup. rewrite Hres. simpl. split; reflexivity.
Qed.

Lemma celltype_then_majority_vote_witness :
  exists h' r h'',
    Classifier.celltype first_class_predictor the_classifier heap_partial_overlap
    = (h', inr r) /\
    Classifier.majority_vote r ["0"] h' = (h'', inr r).
Proof.
  destruct celltype_partial_overlap_run as (h' & r & Hrun).
  assert (Hnd : List.NoDup (AnnData.obs_names (Classifier.adata
            (Classifier.classifiers heap_partial_overlap !!! the_classifier)))).
  { change (List.NoDup ["cell1"]).
    apply List.NoDup_cons; [simpl; tauto | apply List.NoDup_nil]. }
  destruct (celltype_then_majority_vote _ _ _ _ _ ["0"] Hrun Hnd eq_refl)
    as (h'' & Hvote & _).
  exists h', r, h''. split; [exact Hrun | exact Hvote].
Defined.

(** ** [Classifier.celltype]: a second call on the same object *)

Lemma isin_all (genes feats : list string) :
  (forall g, In g genes -> In g feats) ->
  Np.isin genes feats = map (fun _ => true) genes.
Proof.
  intros H. unfold Np.isin. apply map_ext_in. intros g Hg.
  apply existsb_eqb_In, H, Hg.
Qed.

Lemma where_from_all_true {A} (i : nat) (l : list A) :
  Np.where_from i (map (fun _ => true) l) = seq i (length l).
Proof.
  revert i. induction l as [| x l IH]; intros i; simpl; [reflexivity |].
  rewrite IH. reflexivity.
Qed.

Lemma take_seq_from {A} (pre a : list A) (k : nat) :
  k <= length a ->
  Np.take (pre ++ a)%list (seq (length pre) k) = inr (firstn k a).
Proof.
  revert pre a. induction k as [| k IH]; intros pre a Hk; [reflexivity |].
  destruct a as [| x a]; [simpl in Hk; lia |].
  unfold Np.take. simpl.
  rewrite (list_lookup_middle pre a x (length pre) eq_refl). simpl.
  specialize (IH (pre ++ [x])%list a).
  rewrite length_app in IH. simpl in IH.
  rewrite Nat.add_1_r, <- app_assoc in IH. simpl in IH.
  unfold Np.take in IH. rewrite IH; [reflexivity | simpl in Hk; lia].
Qed.

Lemma take_seq {A} (a : list A) (k : nat) :
  k <= length a -> Np.take a (seq 0 k) = inr (firstn k a).
Proof. apply (take_seq_from [] a k). Qed.

Lemma take_cols_seq {A} (a : list (list A)) (k : nat) :
  Forall (fun row => length row = k) a -> Np.take_cols a (seq 0 k) = inr a.
Proof.
  intros H. unfold Np.take_cols.
  rewrite (mapM_pure _ (fun row => row)); [rewrite map_id; reflexivity |].
  intros row Hrow.
  pose proof (proj1 (List.Forall_forall _ _) H row Hrow) as Hlen. simpl in Hlen.
  rewrite take_seq; [| lia]. rewrite <- Hlen, firstn_all. reflexivity.
Qed.

(** Looking a list of distinct names up in itself gives the positions
    in order. *)
Lemma loc_index_refl (names : list string) :
  List.NoDup names -> Pd.loc_index names names = inr (seq 0 (length names)).
Proof.
  intros Hnd.
  destruct (loc_index_nodup names names Hnd (fun k H => H))
    as (idx & Hidx & Hlen & Hspec).
  rewrite Hidx. f_equal. apply list_eq. intros i.
  destruct (names !! i) as [k |] eqn:Hi.
  - destruct (Hspec i k Hi) as (j & Hj & Hnj).
    assert (j = i).
    { apply NoDup_ListNoDup in Hnd. eapply NoDup_lookup; eauto. }
    subst j. rewrite Hj. symmetry. apply lookup_lt_Some in Hi.
    rewrite lookup_seq_lt; [reflexivity | exact Hi].
  - apply lookup_ge_None in Hi.
    rewrite (proj2 (lookup_ge_None idx i)); [| lia].
    symmetry. apply lookup_ge_None. rewrite length_seq. exact Hi.
Qed.

Lemma matched_genes_NoDup (genes feats : list string) :
  List.NoDup genes -> List.NoDup (matched_genes genes feats).
Proof. intros H. unfold matched_genes. apply List.NoDup_filter, H. Qed.

Lemma matched_genes_length (genes feats : list string) :
  List.NoDup genes -> length (matched_genes genes feats) <= length feats.
Proof.
  intros H. apply List.NoDup_incl_length; [apply matched_genes_NoDup, H |].
  intros g Hg. apply matched_genes_In in Hg. tauto.
Qed.

(** X5 ([Classifier.celltype], called twice).  With distinct feature
    names, distinct input genes and a scaler of the model's width none
    of whose [scale_] values is zero, the first two stages can be run
    again on the same classifier object:
    the second run leaves every model object and the gene list as the
    first run left them, but standardizes the already scaled matrix a
    second time, with the first entries of the scaler's [mean_] and
    [scale_], whichever genes were matched. *)
Theorem celltype_prepare_twice (self : loc) (h h1 : Classifier.Heap) (Z : Np.ndarray2) :
  let c := Classifier.classifiers h !!! self in
  let m := Classifier.models h !!! Classifier.model c in
  List.NoDup (Model.features (Model.classifier m)) ->
  List.NoDup (Classifier.indata_genes c) ->
  length (Model.mean_ (Model.scaler m)) = length (Model.features (Model.classifier m)) ->
  length (Model.scale_ (Model.scaler m)) = length (Model.features (Model.classifier m)) ->
  List.Forall (fun s => s <> 0%R) (Model.scale_ (Model.scaler m)) ->
  Classifier.celltype_prepare self h = (h1, inr Z) ->
  let k := length (Classifier.indata_genes (Classifier.classifiers h1 !!! self)) in
  Classifier.celltype_prepare self h1
  = (Classifier.update_classifier self
       (Classifier.set_indata
          (Np.setitem_gt 10 10
             (map (fun row => zip_with Rdiv row (firstn k (Model.scale_ (Model.scaler m))))
                (map (fun row => zip_with Rminus row
                                   (firstn k (Model.mean_ (Model.scaler m)))) Z)))) h1,
     inr (Np.setitem_gt 10 10
            (map (fun row => zip_with Rdiv row (firstn k (Model.scale_ (Model.scaler m))))
               (map (fun row => zip_with Rminus row
                                  (firstn k (Model.mean_ (Model.scaler m)))) Z)))).
Proof.
  intros c m Hnd Hndg Hmean Hscale _ Hrun k.
  destruct (celltype_prepare_inv _ _ _ _ Hrun)
    as (X1 & genes1 & lr_idx & means_ & sds_ & X2 & X3 & features1 & coef1
        & Hsteps & HZ & Hh1).
  destruct (prepare_steps_aligned _ _ _ _ _ _ _ _ _ _ _ Hnd Hsteps)
    as (Hg & Hf1 & Hlen & HX3 & Hcoef).
  fold c in Hg, Hh1. fold m in Hg.
  assert (Hc1 : Classifier.classifiers h1 !!! self = prepared_classifier Z genes1 c).
  { rewrite Hh1. apply prepared_heap_classifier. }
  assert (Hm1 : Classifier.models h1 !!! Classifier.model c
                = restricted_model coef1 features1 (length lr_idx) m).
  { rewrite Hh1. apply prepared_heap_model_lookup. }
  assert (Hk : k = length genes1) by (unfold k; rewrite Hc1; reflexivity).
  assert (Hnd1 : List.NoDup genes1) by (rewrite Hg; apply matched_genes_NoDup, Hndg).
  assert (Hkn : k <= length (Model.features (Model.classifier m))).
  { rewrite Hk, Hg. apply matched_genes_length, Hndg. }
  assert (HZrows : Forall (fun row => length row = k) Z).
  { rewrite HZ, Hk. apply setitem_gt_row_length, HX3. }
  assert (Hwhere : Np.where_ (Np.isin genes1 genes1) = seq 0 k).
  { rewrite isin_all by auto. unfold Np.where_.
    rewrite where_from_all_true, Hk. reflexivity. }
  assert (Hsteps2 :
    prepare_steps (Classifier.classifiers h1 !!! self)
      (Classifier.models h1 !!! Classifier.model (Classifier.classifiers h1 !!! self))
      Z genes1 (seq 0 k)
      (firstn k (Model.mean_ (Model.scaler m)))
      (firstn k (Model.scale_ (Model.scaler m)))
      (map (fun row => zip_with Rminus row (firstn k (Model.mean_ (Model.scaler m)))) Z)
      (map (fun row => zip_with Rdiv row (firstn k (Model.scale_ (Model.scaler m))))
         (map (fun row => zip_with Rminus row
                            (firstn k (Model.mean_ (Model.scaler m)))) Z))
      genes1 coef1).
  { rewrite Hc1. unfold prepared_classifier at 2. cbn [Classifier.model].
    rewrite Hm1, Hf1. unfold prepared_classifier, restricted_model.
    constructor; cbn [Classifier.indata Classifier.indata_genes Model.features
                      Model.classifier Model.scaler Model.coef_].
    - rewrite Hwhere. apply take_cols_seq, HZrows.
    - rewrite Hwhere, Hk, take_seq, firstn_all by lia. reflexivity.
    - rewrite Hk. apply loc_index_refl, Hnd1.
    - apply take_seq. lia.
    - apply take_seq. lia.
    - apply subtract_same. rewrite length_firstn.
      replace (Nat.min k (length (Model.mean_ (Model.scaler m)))) with k by lia.
      exact HZrows.
    - apply divide_same. rewrite length_firstn.
      replace (Nat.min k (length (Model.scale_ (Model.scaler m)))) with k by lia.
      apply List.Forall_forall. intros row Hrow.
      apply in_map_iff in Hrow as (row0 & <- & Hrow0).
      pose proof (proj1 (List.Forall_forall _ _) HZrows row0 Hrow0) as Hl. simpl in Hl.
      rewrite length_zip_with, length_firstn. lia.
    - rewrite Hk, take_seq, firstn_all by lia. reflexivity.
    - apply take_cols_seq. rewrite Hk. exact Hcoef. }
  rewrite (celltype_prepare_run _ _ _ _ _ _ _ _ _ _ _ Hsteps2).
  f_equal. unfold prepared_heap.
  unfold Classifier.update_model, Classifier.update_classifier.
  cbn [Classifier.models Classifier.classifiers Classifier.results].
  rewrite Hc1.
  change (Classifier.model (prepared_classifier Z genes1 c)) with (Classifier.model c).
  f_equal.
  rewrite Hm1, length_seq, Hk, <- Hlen, Hf1.
  apply insert_id. rewrite Hh1, prepared_heap_model. fold c. fold m.
  rewrite lookup_insert_eq, Hf1. reflexivity.
Qed.

Lemma celltype_prepare_twice_witness :
  exists h1 Z h2 Z2,
    Classifier.celltype_prepare the_classifier heap_partial_overlap = (h1, inr Z) /\
    Classifier.celltype_prepare the_classifier h1 = (h2, inr Z2) /\
    Classifier.models h2 = Classifier.models h1.
Proof.
  destruct celltype_prepare_partial_overlap_run as (h1 & Z & Hrun).
  assert (Hnd : List.NoDup ["CD3E"; "CD19"]).
  { apply List.NoDup_cons; [simpl; intuition discriminate |].
    apply List.NoDup_cons; [simpl; tauto | apply List.NoDup_nil]. }
  assert (Hndg : List.NoDup ["CD19"]).
  { apply List.NoDup_cons; [simpl; tauto | apply List.NoDup_nil]. }
  assert (Hnz : List.Forall (fun s => s <> 0%R) [1%R; 1%R]).
  { repeat apply List.Forall_cons; [lra | lra | apply List.Forall_nil]. }
  pose proof (celltype_prepare_twice the_classifier heap_partial_overlap h1 Z
                Hnd Hndg eq_refl eq_refl Hnz Hrun) as Hsecond.
  simpl in Hsecond.
  eexists h1, Z, _, _. split; [exact Hrun |]. split; [exact Hsecond |]. reflexivity.
Defined.

(** ** [Classifier.majority_vote]: the columns of the vote *)

(** A vote that returns has gone through the join. *)
Lemma majority_vote_inv (h h' : Classifier.Heap) (p q : loc) (oc : list string) :
  Classifier.majority_vote p oc h = (h', inr q) ->
  q = p /\
  exists joined,
    h' = Classifier.update_result p (AnnotationResult.set_predicted_labels joined) h /\
    Pd.df_columns joined
    = (Pd.df_columns (AnnotationResult.predicted_labels (Classifier.results h !!! p))
       ++ ["over_clustering"; "majority_voting"])%list.
Proof.
  intros H. unfold Classifier.majority_vote in H. rewrite bind_get in H.
  do 7 step_success H. step_success H.
  unfold ret in H. inversion H; subst q h'. clear H.
  apply set_index_success in Hstep3. destruct Hstep3 as [_ ->].
  apply set_columns_success in Hstep4. subst a4. simpl in Hstep5.
  destruct (join_success _ _ _ _ Hstep5) as [Hcols _]. simpl in Hcols.
  split; [reflexivity |]. exists a5. split; [reflexivity | exact Hcols].
Qed.

Ltac step_lift :=
  match goal with
  | |- exists e, bind (lift ?r) _ ?s = (?s, inl e) =>
      let E := fresh "E" in
      let e0 := fresh "e" in
      let a := fresh "a" in
      destruct r as [e0 | a] eqn:E;
      [ exists e0; reflexivity | erewrite bind_lift_inr by reflexivity ]
  end.

(** On a frame that holds a column of an earlier vote the join is
    refused, and nothing before the join touches the heap. *)
Lemma majority_vote_voted (h : Classifier.Heap) (p : loc) (oc : list string) :
  In "over_clustering"
     (Pd.df_columns (AnnotationResult.predicted_labels (Classifier.results h !!! p))) ->
  exists e, Classifier.majority_vote p oc h = (h, inl e).
Proof.
  intros Hin. unfold Classifier.majority_vote. rewrite bind_get.
  do 6 step_lift.
  apply set_columns_success in E4. subst a4.
  exists (ValueError "columns overlap but no suffix specified").
  apply bind_lift_inl. unfold Pd.join. cbn [Pd.df_columns existsb].
  rewrite (proj2 (existsb_eqb_In _ _) Hin). reflexivity.
Qed.

(** X6 ([Classifier.majority_vote], called twice).  An object that has
    been voted on cannot be voted on again: whatever partition the
    second call is given, it raises and leaves the heap as the first
    vote left it, because the frame already holds the columns the join
    would add. *)
Theorem majority_vote_twice (h h' : Classifier.Heap) (p q : loc)
  (over_clustering again : list string) :
  Classifier.majority_vote p over_clustering h = (h', inr q) ->
  exists e, Classifier.majority_vote q again h' = (h', inl e).
Proof.
  intros Hrun. destruct (majority_vote_inv _ _ _ _ _ Hrun) as (-> & joined & -> & Hcols).
  apply majority_vote_voted. rewrite update_result_lookup. simpl.
  rewrite Hcols. apply in_or_app. right. simpl. auto.
Qed.

Lemma majority_vote_twice_witness :
  exists h' e,
    Classifier.majority_vote the_predictions ["1"; "1"; "2"; "2"] h' = (h', inl e).
Proof.
  destruct majority_vote_run_example as [h' Hrun].
  destruct (majority_vote_twice _ _ _ _ _ ["1"; "1"; "2"; "2"] Hrun) as [e He].
  exists h', e. exact He.
Defined.

Lemma getitem_appended_first (idx cols : list string) (rows : list (list string))
  (a name : string) (g : string -> string) (keys : list string) :
  Forall (fun row => length row = length cols) rows ->
  ~ In a cols -> length keys = length rows ->
  Pd.getitem (Pd.mkDataFrame idx (cols ++ [a; name])%list
                (zip_with (fun v w => (v ++ w)%list) rows
                          (map (fun k => [k; g k]) keys))) a
  = inr keys.
Proof.
  intros Hrows Hn Hlen. unfold Pd.getitem, Pd.positions. simpl.
  rewrite positions_from_app, positions_from_absent by exact Hn. simpl.
  rewrite String.eqb_refl.
  revert keys Hlen. induction Hrows as [| row rows Hrow Hrows IH]; intros keys Hlen.
  - destruct keys; [reflexivity | discriminate].
  - destruct keys as [| k keys]; [discriminate |]. simpl.
    rewrite lookup_app_r by lia.
    replace (length cols - length row) with 0 by lia. simpl.
    rewrite IH by (simpl in Hlen; lia). reflexivity.
Qed.

Lemma getitem_appended_old {A} (idx cols more : list string) (rows extra : list (list A))
  (name : string) (col : list A) :
  Pd.getitem (Pd.mkDataFrame idx cols rows) name = inr col ->
  length extra = length rows ->
  Pd.getitem (Pd.mkDataFrame idx (cols ++ more)%list
                (zip_with (fun v w => (v ++ w)%list) rows extra)) name
  = inr col.
Proof.
  unfold Pd.getitem, Pd.positions. simpl. rewrite positions_from_app.
  destruct (Pd.positions_from 0 name cols) as [| j ps]; [discriminate |]. simpl.
  revert col extra. induction rows as [| row rows IH]; intros col extra H Hlen.
  - destruct extra; [exact H | discriminate].
  - destruct extra as [| w extra]; [discriminate |]. simpl in *.
    destruct (row !! j) as [x |] eqn:Hx; simpl in H; [| discriminate].
    rewrite (lookup_app_l_Some _ _ _ _ Hx). simpl.
    destruct (mapM _ rows) as [e | xs] eqn:Hxs; simpl in H; [discriminate |].
    rewrite (IH xs extra eq_refl) by lia. simpl. exact H.
Qed.

Lemma count_pairs_witness (r c : string) (labels clusters : list string) :
  0 < Pd.count_pairs r c labels clusters ->
  exists j, labels !! j = Some r /\ clusters !! j = Some c.
Proof.
  revert clusters. induction labels as [| x labels IH]; intros clusters H.
  - simpl in H. lia.
  - destruct clusters as [| y clusters]; [simpl in H; lia |]. simpl in H.
    destruct (String.eqb r x && String.eqb c y) eqn:E.
    + apply andb_true_iff in E as [E1 E2].
      apply String.eqb_eq in E1, E2. subst. exists 0. auto.
    + destruct (IH clusters) as (j & Hj1 & Hj2); [lia |]. exists (S j). auto.
Qed.

(** The frame a vote leaves behind, column by column. *)
Lemma voted_frame_columns (P : Pd.DataFrame string) (labels oc : list string) :
  voting_ready P labels oc ->
  Pd.getitem (voted_frame P labels oc) "predicted_labels" = inr labels /\
  Pd.getitem (voted_frame P labels oc) "over_clustering" = inr oc /\
  Pd.getitem (voted_frame P labels oc) "majority_voting"
  = inr (map (winner labels oc) oc).
Proof.
  intros [Hlab Hlen Hidx Hrows Hcells Hoc Hmv].
  pose proof (getitem_length _ _ _ Hlab) as Hn.
  unfold voted_frame. destruct P as [idx cols rows]. simpl in *.
  split; [| split].
  - apply getitem_appended_old; [exact Hlab | rewrite length_map; lia].
  - apply getitem_appended_first; [exact Hrows | exact Hoc | lia].
  - apply getitem_appended; [exact Hrows | exact Hmv | discriminate | lia].
Qed.

(** X7 ([Classifier.majority_vote], the two new columns).  On
    predictions that are ready for a vote, the column [over_clustering]
    of the result is the partition as given and [predicted_labels] is
    unchanged; all cells of a cluster carry the same entry in
    [majority_voting], and that entry is the predicted label of at
    least one cell of the cluster. *)
Theorem majority_vote_columns (h h' : Classifier.Heap) (p q : loc)
  (labels over_clustering : list string) :
  voting_ready (AnnotationResult.predicted_labels (Classifier.results h !!! p))
               labels over_clustering ->
  Classifier.majority_vote p over_clustering h = (h', inr q) ->
  let P' := AnnotationResult.predicted_labels (Classifier.results h' !!! p) in
  Pd.getitem P' "predicted_labels" = inr labels /\
  Pd.getitem P' "over_clustering" = inr over_clustering /\
  exists voted,
    Pd.getitem P' "majority_voting" = inr voted /\
    length voted = length over_clustering /\
    (forall i j, over_clustering !! i = over_clustering !! j ->
                 voted !! i = voted !! j) /\
    (forall i l, voted !! i = Some l ->
       exists j, over_clustering !! j = over_clustering !! i /\ labels !! j = Some l).
Proof.
  intros Hready Hrun P'.
  rewrite (majority_vote_run _ _ _ _ Hready) in Hrun.
  inversion Hrun; subst q. unfold P'.
  rewrite <- H0 in *. rewrite update_result_lookup. simpl.
  destruct (voted_frame_columns _ _ _ Hready) as (H1 & H2 & H3).
  split; [exact H1 |]. split; [exact H2 |].
  exists (map (winner labels over_clustering) over_clustering).
  split; [exact H3 |]. split; [apply length_map |]. split.
  - intros i j Hij. rewrite !lookup_map, Hij. reflexivity.
  - intros i l Hl. rewrite lookup_map in Hl.
    destruct (over_clustering !! i) as [c |] eqn:Hc; [| discriminate].
    simpl in Hl. inversion Hl; subst l.
    destruct (winner_spec labels over_clustering c i (vr_length _ _ _ Hready) Hc)
      as (Hpos & _).
    destruct (count_pairs_witness _ _ _ _ Hpos) as (j & Hj1 & Hj2).
    exists j. split; [exact Hj2 | exact Hj1].
Qed.

Lemma majority_vote_columns_witness :
  exists h',
    Pd.getitem (AnnotationResult.predicted_labels
                  (Classifier.results h' !!! the_predictions)) "over_clustering"
    = inr ["0"; "0"; "1"; "1"].
Proof.
  pose proof (voting_heap_ready "A" "A" "B" "B" ["0"; "0"; "1"; "1"] eq_refl) as Hready.
  pose proof (majority_vote_run _ _ _ _ Hready) as Hrun.
  destruct (majority_vote_columns _ _ _ _ _ _ Hready Hrun) as (_ & Hoc & _).
  eexists. exact Hoc.
Defined.

(** X8 ([Classifier.majority_vote], a cluster of one cell).  A cell
    that is alone in its cluster keeps its predicted label as its
    majority label. *)
Theorem majority_vote_singleton_cluster (h h' : Classifier.Heap) (p q : loc)
  (labels over_clustering : list string) (i : nat) (c l : string) :
  voting_ready (AnnotationResult.predicted_labels (Classifier.results h !!! p))
               labels over_clustering ->
  Classifier.majority_vote p over_clustering h = (h', inr q) ->
  over_clustering !! i = Some c ->
  labels !! i = Some l ->
  (forall j, over_clustering !! j = Some c -> j = i) ->
  exists voted,
    Pd.getitem (AnnotationResult.predicted_labels (Classifier.results h' !!! p))
               "majority_voting" = inr voted /\
    voted !! i = Some l.
Proof.
  intros Hready Hrun Hc Hl Halone.
  rewrite (majority_vote_run _ _ _ _ Hready) in Hrun.
  inversion Hrun; subst q.
  rewrite update_result_lookup. simpl.
  destruct (voted_frame_columns _ _ _ Hready) as (_ & _ & H3).
  exists (map (winner labels over_clustering) over_clustering).
  split; [exact H3 |]. rewrite lookup_map, Hc. simpl. f_equal.
  destruct (winner_spec labels over_clustering c i (vr_length _ _ _ Hready) Hc)
    as (Hpos & _).
  destruct (count_pairs_witness _ _ _ _ Hpos) as (j & Hj1 & Hj2).
  rewrite (Halone j Hj2) in Hj1. congruence.
Qed.

Lemma majority_vote_singleton_cluster_witness :
  exists h' voted,
    Pd.getitem (AnnotationResult.predicted_labels
                  (Classifier.results h' !!! the_predictions)) "majority_voting"
    = inr voted /\
    voted !! 3 = Some "B".
Proof.
  pose proof (voting_heap_ready "A" "A" "A" "B" ["0"; "0"; "0"; "1"] eq_refl) as Hready.
  pose proof (majority_vote_run _ _ _ _ Hready) as Hrun.
  assert (Halone : forall j, ["0"; "0"; "0"; "1"] !! j = Some "1" -> j = 3).
  { intros [| [| [| [| j]]]] Hj; simpl in Hj; try discriminate; reflexivity. }
  destruct (majority_vote_singleton_cluster _ _ _ _ _ _ 3 "1" "B"
              Hready Hrun eq_refl eq_refl Halone) as (voted & Hv & Hi).
  eexists _, voted. split; [exact Hv | exact Hi].
Defined.

(** ** [Classifier.__init__]: the dispatch on the file name *)

Lemma substring_all (s : string) : substring 0 (String.length s) s = s.
Proof. induction s as [| c s IH]; simpl; [reflexivity | rewrite IH; reflexivity]. Qed.

Lemma string_length_append (s1 s2 : string) :
  String.length (s1 ++ s2) = String.length s1 + String.length s2.
Proof. induction s1 as [| c s1 IH]; simpl; [reflexivity | rewrite IH; reflexivity]. Qed.

Lemma substring_append (pre suf : string) :
  substring (String.length pre) (String.length suf) (pre ++ suf) = suf.
Proof. induction pre as [| c pre IH]; simpl; [apply substring_all | exact IH]. Qed.

Lemma append_substring (s : string) (n m : nat) :
  n + m = String.length s -> s = substring 0 n s ++ substring n m s.
Proof.
  revert n m. induction s as [| c s IH]; intros n m H; simpl in H.
  - destruct n; [| lia]. destruct m; [reflexivity | lia].
  - destruct n as [| n].
    + simpl in H. subst m. simpl. rewrite substring_all. reflexivity.
    + change (String c s = String c (substring 0 n s ++ substring n m s)).
      f_equal. apply IH. lia.
Qed.

(** [endswith] holds exactly of the strings that end in one of the
    suffixes. *)
Lemma endswith_spec (s : string) (suffixes : list string) :
  Classifier.endswith s suffixes = true <->
  exists pre suf, In suf suffixes /\ s = pre ++ suf.
Proof.
  unfold Classifier.endswith. rewrite existsb_exists. split.
  - intros (suf & Hin & H). apply andb_true_iff in H as [Hle Heq].
    apply Nat.leb_le in Hle. apply String.eqb_eq in Heq.
    exists (substring 0 (String.length s - String.length suf) s), suf.
    split; [exact Hin |].
    assert (Hs : String.length s - String.length suf + String.length suf
                 = String.length s) by lia.
    apply append_substring in Hs. rewrite Heq in Hs. exact Hs.
  - intros (pre & suf & Hin & ->). exists suf. split; [exact Hin |].
    rewrite string_length_append. apply andb_true_iff. split.
    + apply Nat.leb_le. lia.
    + replace (String.length pre + String.length suf - String.length suf)
        with (String.length pre) by lia.
      rewrite substring_append. apply String.eqb_refl.
Qed.

Lemma new_classifier_spec (c : Classifier.t) (h h' : Classifier.Heap) (l : loc) :
  Classifier.new_classifier c h = (h', inr l) ->
  Classifier.classifiers h !! l = None /\
  Classifier.classifiers h' !! l = Some c /\
  (forall l', l' <> l -> Classifier.classifiers h' !! l' = Classifier.classifiers h !! l') /\
  Classifier.models h' = Classifier.models h /\
  Classifier.results h' = Classifier.results h.
Proof.
  unfold Classifier.new_classifier. intros H. inversion H. simpl.
  split; [apply not_elem_of_dom, is_fresh |].
  split; [apply lookup_insert_eq |].
  split; [| split; reflexivity].
  intros l' Hne. apply lookup_insert_ne. congruence.
Qed.

Lemma last_char_append (pre suf : string) :
  suf <> "" -> last_char (pre ++ suf) = last_char suf.
Proof.
  intros Hne. induction pre as [| c pre IH]; [reflexivity |].
  change (last_char (String c (pre ++ suf)) = last_char suf). simpl. rewrite IH.
  destruct suf as [| d suf]; [contradiction |]. simpl.
  destruct (last_char suf); reflexivity.
Qed.

Lemma endswith_last_char (s : string) (suffixes : list string) :
  Classifier.endswith s suffixes = true ->
  exists suf, In suf suffixes /\ (suf = "" \/ last_char s = last_char suf).
Proof.
  intros H. apply endswith_spec in H as (pre & suf & Hin & ->).
  exists suf. split; [exact Hin |].
  destruct suf as [| c suf]; [left; reflexivity |].
  right. apply last_char_append. discriminate.
Qed.

(** No string ends in two suffixes whose last characters differ. *)
Ltac no_suffix E :=
  let Hin := fresh "Hin" in
  let He := fresh "He" in
  let Hl := fresh "Hl" in
  apply endswith_last_char in E as (? & Hin & [He | Hl]);
  simpl in Hin;
  repeat (destruct Hin as [<- | Hin]; [first [discriminate He |
           rewrite last_char_append in Hl by discriminate; simpl in Hl; discriminate Hl] |]);
  contradiction.

Lemma h5ad_is_no_text (pre : string) :
  Classifier.endswith (pre ++ ".h5ad")
    [".csv"; ".txt"; ".tsv"; ".tab"; ".mtx"; ".mtx.gz"] = false.
Proof.
  destruct (Classifier.endswith _ _) eqn:E; [| reflexivity]. no_suffix E.
Qed.

Lemma text_is_no_mtx (pre suf : string) :
  In suf [".csv"; ".txt"; ".tsv"; ".tab"] ->
  Classifier.endswith (pre ++ suf) [".mtx"; ".mtx.gz"] = false.
Proof.
  intros Hsuf. destruct (Classifier.endswith _ _) eqn:E; [| reflexivity].
  simpl in Hsuf. repeat (destruct Hsuf as [<- | Hsuf]; [no_suffix E |]). contradiction.
Qed.

Lemma endswith_more (s : string) (some more : list string) :
  (forall suf, In suf some -> In suf more) ->
  Classifier.endswith s some = true -> Classifier.endswith s more = true.
Proof.
  intros Hincl H. apply endswith_spec in H as (pre & suf & Hin & ->).
  apply endswith_spec. exists pre, suf. auto.
Qed.

Lemma not_normalised_false_inv (indata : list (list R)) :
  Classifier.not_normalised indata = inr false ->
  exists row0 rest, indata = row0 :: rest /\ row_within_bound row0.
Proof.
  destruct indata as [| row0 rest]; [discriminate |].
  rewrite not_normalised_cons. intros H. exists row0, rest. split; [reflexivity |].
  unfold row_within_bound. destruct (Rgt_dec _ 1); [discriminate | lra].
Qed.

Section Constructor.

Variable sc_read : string -> result AnnData.t.
Variable read_column : string -> result (list string).
Variable var_names_make_unique : list string -> list string.
Variable normalize_total : R -> list (list R) -> list (list R).
Variable log1p : list (list R) -> list (list R).

(** The three ways in which the constructor returns. *)
Lemma init_inv (filename : string) (model : loc) (transpose : bool)
  (gene_file cell_file : option string) (h h' : Classifier.Heap) (l : loc) :
  Classifier.__init__ sc_read read_column var_names_make_unique normalize_total log1p
    filename model transpose gene_file cell_file h = (h', inr l) ->
  exists adata0 c,
    sc_read filename = inr adata0 /\
    Classifier.new_classifier c h = (h', inr l) /\
    Classifier.filename c = filename /\ Classifier.model c = model /\
    ((* a text file *)
     (Classifier.endswith filename [".csv"; ".txt"; ".tsv"; ".tab"; ".mtx"; ".mtx.gz"] = true /\
      Classifier.endswith filename [".mtx"; ".mtx.gz"] = false /\
      Classifier.adata c
      = AnnData.mk
          (log1p (normalize_total 10000
                    (AnnData.X (if transpose then AnnData.transpose adata0 else adata0))))
          (AnnData.obs_names (if transpose then AnnData.transpose adata0 else adata0))
          (var_names_make_unique
             (AnnData.var_names (if transpose then AnnData.transpose adata0 else adata0)))
          (AnnData.raw (if transpose then AnnData.transpose adata0 else adata0)) /\
      Classifier.indata c = AnnData.X (Classifier.adata c) /\
      Classifier.indata_genes c = AnnData.var_names (Classifier.adata c)) \/
     (* a matrix-market file with its two companions *)
     (Classifier.endswith filename [".mtx"; ".mtx.gz"] = true /\
      exists gf cf genes_mtx cells_mtx,
        gene_file = Some gf /\ cell_file = Some cf /\
        read_column gf = inr genes_mtx /\ read_column cf = inr cells_mtx /\
        length genes_mtx
        = AnnData.n_vars (if transpose then AnnData.transpose adata0 else adata0) /\
        length cells_mtx
        = AnnData.n_obs (if transpose then AnnData.transpose adata0 else adata0) /\
        Classifier.adata c
        = AnnData.mk
            (log1p (normalize_total 10000
                      (AnnData.X (if transpose then AnnData.transpose adata0 else adata0))))
            cells_mtx (var_names_make_unique genes_mtx)
            (AnnData.raw (if transpose then AnnData.transpose adata0 else adata0)) /\
        Classifier.indata c = AnnData.X (Classifier.adata c) /\
        Classifier.indata_genes c = AnnData.var_names (Classifier.adata c)) \/
     (* an h5ad file *)
     (Classifier.endswith filename [".csv"; ".txt"; ".tsv"; ".tab"; ".mtx"; ".mtx.gz"] = false /\
      Classifier.endswith filename [".h5ad"] = true /\
      Classifier.adata c = adata0 /\
      Classifier.not_normalised (Classifier.indata c) = inr false /\
      exists lo, Np.amin (AnnData.X adata0) = Some lo /\
        ((~ (lo < 0)%R /\ Classifier.indata c = AnnData.X adata0 /\
          Classifier.indata_genes c = AnnData.var_names adata0) \/
         ((lo < 0)%R /\
          AnnData.raw adata0 = Some (Classifier.indata c, Classifier.indata_genes c))))).
Proof using Type.
  unfold Classifier.__init__. intros H.
  destruct (Classifier.endswith filename
              [".csv"; ".txt"; ".tsv"; ".tab"; ".mtx"; ".mtx.gz"]) eqn:E1.
  - step_success H. rename a into adata0.
    apply bind_success in H as (s1 & adata1 & Hmid & H).
    destruct (Classifier.endswith filename [".mtx"; ".mtx.gz"]) eqn:E2.
    + destruct gene_file as [gf |]; [| discriminate].
      destruct cell_file as [cf |]; [| discriminate].
      step_success Hmid. step_success Hmid.
      destruct (negb (Nat.eqb (length a) _)) eqn:Eg; [discriminate |].
      destruct (negb (Nat.eqb (length a0) _)) eqn:Ec; [discriminate |].
      unfold ret in Hmid. inversion Hmid; subst s1 adata1. clear Hmid.
      apply negb_false_iff, Nat.eqb_eq in Eg, Ec.
      eexists adata0, _. split; [exact Hstep |]. split; [exact H |].
      split; [reflexivity |]. split; [reflexivity |].
      right. left. split; [reflexivity |].
      exists gf, cf, a, a0. simpl. repeat split; auto.
    + unfold ret in Hmid. inversion Hmid; subst s1 adata1. clear Hmid.
      eexists adata0, _. split; [exact Hstep |]. split; [exact H |].
      split; [reflexivity |]. split; [reflexivity |].
      left. simpl. repeat split; reflexivity.
  - destruct (Classifier.endswith filename [".h5ad"]) eqn:E3; [| discriminate].
    step_success H. rename a into adata0.
    step_success H. rename a into lo.
    apply bind_success in H as (s1 & ig & Hmid & H).
    step_success H. destruct a; [discriminate |].
    eexists adata0, _. split; [exact Hstep |].
    destruct (Np.amin (AnnData.X adata0)) as [lo' |] eqn:Hmin; [| discriminate].
    inversion Hstep0; subst lo'.
    destruct (Rlt_dec lo 0) as [Hneg | Hpos].
    + destruct (AnnData.raw adata0) as [rw |] eqn:Hraw; [| discriminate].
      unfold ret in Hmid. inversion Hmid; subst s1 ig. clear Hmid.
      split; [exact H |]. split; [reflexivity |]. split; [reflexivity |].
      right. right. simpl. repeat split; auto.
      exists lo. split; [reflexivity |]. right. split; [exact Hneg |].
      destruct rw; reflexivity.
    + unfold ret in Hmid. inversion Hmid; subst s1 ig. clear Hmid.
      split; [exact H |]. split; [reflexivity |]. split; [reflexivity |].
      right. right. simpl. repeat split; auto.
      exists lo. split; [reflexivity |]. left. auto.
Qed.


(** X9 ([Classifier.__init__], a constructor that returns).  When the
    constructor returns, the file name ends in one of the seven
    supported suffixes and the reader has delivered an object; the new
    classifier sits at a location that held none, records the file name
    and the reference to the model it was given, and no other object of
    the heap has changed. *)
Theorem init_result (filename : string) (model : loc) (transpose : bool)
  (gene_file cell_file : option string) (h h' : Classifier.Heap) (l : loc) :
  Classifier.__init__ sc_read read_column var_names_make_unique normalize_total log1p
    filename model transpose gene_file cell_file h = (h', inr l) ->
  (exists pre suf, In suf supported_suffixes /\ filename = pre ++ suf) /\
  (exists adata0, sc_read filename = inr adata0) /\
  Classifier.classifiers h !! l = None /\
  (exists c, Classifier.classifiers h' !! l = Some c /\
             Classifier.filename c = filename /\ Classifier.model c = model) /\
  (forall l', l' <> l ->
     Classifier.classifiers h' !! l' = Classifier.classifiers h !! l') /\
  Classifier.models h' = Classifier.models h /\
  Classifier.results h' = Classifier.results h.
Proof using Type.
  intros Hrun.
  destruct (init_inv _ _ _ _ _ _ _ _ Hrun)
    as (adata0 & c & Hread & Hnew & Hfile & Hmodel & Hcases).
  destruct (new_classifier_spec _ _ _ _ Hnew) as (Hfresh & Hc & Hothers & Hm & Hr).
  split.
  - assert (E : Classifier.endswith filename supported_suffixes = true).
    { destruct Hcases as [(E & _) | [(E & _) | (_ & E & _)]];
        (eapply endswith_more; [| exact E]);
        intros suf Hs; unfold supported_suffixes; simpl in *; tauto. }
    apply endswith_spec in E. exact E.
  - split; [eauto |]. split; [exact Hfresh |].
    split; [exists c; auto |]. auto.
Qed.

(** X10 ([Classifier.__init__], an h5ad file).  For a file name that
    ends in [.h5ad], a constructor that returns has kept the object as
    it was read and has looked at the smallest entry of [X]: when it is
    not negative the matrix and the genes are [X] and [var_names], when
    it is negative they are those of [raw]; the first row of the matrix
    taken is within the bound of the integrity check.  [transpose],
    [gene_file] and [cell_file] play no part in the call. *)
Theorem init_h5ad_result (pre : string) (model : loc) (transpose : bool)
  (gene_file cell_file : option string) (h h' : Classifier.Heap) (l : loc) :
  Classifier.__init__ sc_read read_column var_names_make_unique normalize_total log1p
    (pre ++ ".h5ad") model transpose gene_file cell_file h = (h', inr l) ->
  (exists adata0 c row0 rest lo,
     sc_read (pre ++ ".h5ad") = inr adata0 /\
     Classifier.classifiers h' !! l = Some c /\
     Classifier.adata c = adata0 /\
     Classifier.indata c = row0 :: rest /\ row_within_bound row0 /\
     Np.amin (AnnData.X adata0) = Some lo /\
     ((~ (lo < 0)%R /\
       Classifier.indata c = AnnData.X adata0 /\
       Classifier.indata_genes c = AnnData.var_names adata0) \/
      ((lo < 0)%R /\
       AnnData.raw adata0 = Some (Classifier.indata c, Classifier.indata_genes c)))) /\
  (forall transpose' gene_file' cell_file',
     Classifier.__init__ sc_read read_column var_names_make_unique normalize_total log1p
       (pre ++ ".h5ad") model transpose' gene_file' cell_file' h = (h', inr l)).
Proof using Type.
  intros Hrun. split.
  - destruct (init_inv _ _ _ _ _ _ _ _ Hrun)
      as (adata0 & c & Hread & Hnew & Hfile & Hmodel & Hcases).
    destruct (new_classifier_spec _ _ _ _ Hnew) as (_ & Hc & _).
    pose proof (h5ad_is_no_text pre) as Hno.
    destruct Hcases as [(E & _) | [(E & _) | (_ & _ & Hadata & Hcheck & lo & Hmin & Hsrc)]].
    + congruence.
    + apply (endswith_more _ _ [".csv"; ".txt"; ".tsv"; ".tab"; ".mtx"; ".mtx.gz"]) in E;
        [congruence | simpl; tauto].
    + destruct (not_normalised_false_inv _ Hcheck) as (row0 & rest & Hrows & Hbound).
      exists adata0, c, row0, rest, lo. repeat (split; [assumption |]).
      exact Hsrc.
  - intros transpose' gene_file' cell_file'. rewrite <- Hrun.
    unfold Classifier.__init__. rewrite h5ad_is_no_text. reflexivity.
Qed.

(** X11 ([Classifier.__init__], a matrix-market file).  For a file name
    that ends in [.mtx] or [.mtx.gz], a constructor that returns was
    given both companion files; they were read, the gene file has one
    line per column and the cell file one line per row of the matrix,
    the cells of the object are named after the cell file and the genes
    of the classifier are those of the gene file made unique. *)
Theorem init_mtx_result (pre suf : string) (model : loc) (transpose : bool)
  (gene_file cell_file : option string) (h h' : Classifier.Heap) (l : loc) :
  suf = ".mtx" \/ suf = ".mtx.gz" ->
  Classifier.__init__ sc_read read_column var_names_make_unique normalize_total log1p
    (pre ++ suf) model transpose gene_file cell_file h = (h', inr l) ->
  exists gf cf genes_mtx cells_mtx adata0 c,
    gene_file = Some gf /\ cell_file = Some cf /\
    read_column gf = inr genes_mtx /\ read_column cf = inr cells_mtx /\
    sc_read (pre ++ suf) = inr adata0 /\
    length genes_mtx
    = AnnData.n_vars (if transpose then AnnData.transpose adata0 else adata0) /\
    length cells_mtx
    = AnnData.n_obs (if transpose then AnnData.transpose adata0 else adata0) /\
    Classifier.classifiers h' !! l = Some c /\
    AnnData.obs_names (Classifier.adata c) = cells_mtx /\
    Classifier.indata_genes c = var_names_make_unique genes_mtx.
Proof using Type.
  intros Hsuf Hrun.
  assert (Emtx : Classifier.endswith (pre ++ suf) [".mtx"; ".mtx.gz"] = true).
  { apply endswith_spec. exists pre, suf.
    split; [destruct Hsuf as [-> | ->]; simpl; auto | reflexivity]. }
  destruct (init_inv _ _ _ _ _ _ _ _ Hrun)
    as (adata0 & c & Hread & Hnew & Hfile & Hmodel & Hcases).
  destruct (new_classifier_spec _ _ _ _ Hnew) as (_ & Hc & _).
  destruct Hcases as [(_ & E & _) | [(_ & Hmtx) | (E & _)]].
  - congruence.
  - destruct Hmtx as (gf & cf & genes_mtx & cells_mtx & Hgf & Hcf & Hrg & Hrc
                      & Hlg & Hlc & Hadata & _ & Hgenes).
    exists gf, cf, genes_mtx, cells_mtx, adata0, c.
    repeat (split; [assumption |]).
    rewrite Hgenes, Hadata. split; reflexivity.
  - apply (endswith_more _ _ [".csv"; ".txt"; ".tsv"; ".tab"; ".mtx"; ".mtx.gz"]) in Emtx;
      [congruence | simpl; tauto].
Qed.

(** X12 ([Classifier.__init__], a matrix-market file without a
    companion).  For a file name that ends in [.mtx] or [.mtx.gz] and a
    call that leaves out [gene_file] or [cell_file], the constructor
    raises and allocates nothing; the matrix file is read before the
    two arguments are looked at, so what it raises is the reader's
    exception when the reader fails and [FileNotFoundError] otherwise,
    and the companion that was given is not read. *)
Theorem init_mtx_missing_companion (pre suf : string) (model : loc)
  (transpose : bool) (gene_file cell_file : option string) (h : Classifier.Heap) :
  suf = ".mtx" \/ suf = ".mtx.gz" ->
  gene_file = None \/ cell_file = None ->
  Classifier.__init__ sc_read read_column var_names_make_unique normalize_total log1p
    (pre ++ suf) model transpose gene_file cell_file h
  = (h, inl (match sc_read (pre ++ suf) with
             | inl e => e
             | inr _ => FileNotFoundError "Missing `gene_file` and/or `cell_file`"
             end)).
Proof using Type.
  intros Hsuf Hnone.
  assert (Emtx : Classifier.endswith (pre ++ suf) [".mtx"; ".mtx.gz"] = true).
  { apply endswith_spec. exists pre, suf.
    split; [destruct Hsuf as [-> | ->]; simpl; auto | reflexivity]. }
  assert (E1 : Classifier.endswith (pre ++ suf)
                 [".csv"; ".txt"; ".tsv"; ".tab"; ".mtx"; ".mtx.gz"] = true).
  { apply (endswith_more _ [".mtx"; ".mtx.gz"]); [simpl; tauto | exact Emtx]. }
  unfold Classifier.__init__. rewrite E1, Emtx.
  destruct (sc_read (pre ++ suf)) as [e | adata0]; [reflexivity |].
  rewrite (bind_lift_inr _ _ _ _ eq_refl).
  destruct gene_file as [gf |], cell_file as [cf |]; try reflexivity.
  destruct Hnone; discriminate.
Qed.

(** A constructor that raises leaves the heap as it found it: no
    classifier object is allocated before the last check has passed. *)
Lemma init_failure_allocates_nothing (filename : string) (model : loc)
  (transpose : bool) (gene_file cell_file : option string)
  (h h' : Classifier.Heap) (e : exn) :
  Classifier.__init__ sc_read read_column var_names_make_unique normalize_total log1p
    filename model transpose gene_file cell_file h = (h', inl e) ->
  h' = h.
Proof using Type.
  unfold Classifier.__init__. intros H.
  destruct (Classifier.endswith filename
              [".csv"; ".txt"; ".tsv"; ".tab"; ".mtx"; ".mtx.gz"]).
  - destruct (sc_read filename) as [e0 | adata0]; [inversion H; reflexivity |].
    rewrite (bind_lift_inr _ _ _ _ eq_refl) in H.
    destruct (Classifier.endswith filename [".mtx"; ".mtx.gz"]).
    + destruct gene_file as [gf |]; [| inversion H; reflexivity].
      destruct cell_file as [cf |]; [| inversion H; reflexivity].
      destruct (read_column gf) as [e1 | genes_mtx]; [inversion H; reflexivity |].
      destruct (read_column cf) as [e2 | cells_mtx]; [inversion H; reflexivity |].
      unfold bind, lift, raise, ret, Classifier.new_classifier in H.
      destruct (negb (Nat.eqb (length genes_mtx) _)); [inversion H; reflexivity |].
      destruct (negb (Nat.eqb (length cells_mtx) _)); [inversion H; reflexivity |].
      discriminate.
    + unfold bind, ret, Classifier.new_classifier in H. discriminate.
  - destruct (Classifier.endswith filename [".h5ad"]); [| inversion H; reflexivity].
    destruct (sc_read filename) as [e0 | adata0]; [inversion H; reflexivity |].
    rewrite (bind_lift_inr _ _ _ _ eq_refl) in H.
    destruct (Np.amin (AnnData.X adata0)) as [lo |]; [| inversion H; reflexivity].
    rewrite (bind_lift_inr _ _ _ _ eq_refl) in H.
    unfold bind, lift, raise, ret, Classifier.new_classifier in H.
    destruct (Rlt_dec lo 0).
    + destruct (AnnData.raw adata0) as [rw |]; [| inversion H; reflexivity].
      destruct (Classifier.not_normalised (fst rw)) as [e1 | [|]];
        [inversion H; reflexivity | inversion H; reflexivity | discriminate].
    + destruct (Classifier.not_normalised _) as [e1 | [|]];
        [inversion H; reflexivity | inversion H; reflexivity | discriminate].
Qed.

(** X13 ([Classifier.__init__], a text file).  For a file name that
    ends in [.csv], [.txt], [.tsv] or [.tab] the constructor returns
    whenever the reader does: the matrix is normalised and
    log-transformed by the constructor and is not checked, and the
    companion files are not looked at. *)
Theorem init_text_total (pre suf : string) (model : loc) (transpose : bool)
  (gene_file cell_file : option string) (h : Classifier.Heap) (adata0 : AnnData.t) :
  In suf [".csv"; ".txt"; ".tsv"; ".tab"] ->
  sc_read (pre ++ suf) = inr adata0 ->
  exists h' l c,
    Classifier.__init__ sc_read read_column var_names_make_unique normalize_total log1p
      (pre ++ suf) model transpose gene_file cell_file h = (h', inr l) /\
    Classifier.classifiers h' !! l = Some c /\
    Classifier.indata c
    = log1p (normalize_total 10000
               (AnnData.X (if transpose then AnnData.transpose adata0 else adata0))) /\
    Classifier.indata_genes c
    = var_names_make_unique
        (AnnData.var_names (if transpose then AnnData.transpose adata0 else adata0)).
Proof using Type.
  intros Hsuf Hread.
  assert (E1 : Classifier.endswith (pre ++ suf)
                 [".csv"; ".txt"; ".tsv"; ".tab"; ".mtx"; ".mtx.gz"] = true).
  { apply endswith_spec. exists pre, suf. split; [simpl in *; tauto | reflexivity]. }
  pose proof (text_is_no_mtx pre suf Hsuf) as E2.
  unfold Classifier.__init__. rewrite E1, E2.
  rewrite (bind_lift_inr _ _ _ _ Hread). rewrite bind_ret.
  unfold Classifier.new_classifier. eexists _, _, _.
  split; [reflexivity |]. simpl. split; [apply lookup_insert_eq |].
  split; reflexivity.
Qed.

End Constructor.

Lemma init_h5ad_example_run :
  exists h' l,
    Classifier.__init__ example_read example_read_column example_make_unique
      example_normalize_total example_log1p
      ("cells" ++ ".h5ad") the_model false None None empty_heap
    = (h', inr l).
Proof.
  assert (Hln : (0 < ln 10001)%R).
  { rewrite <- ln_1. apply ln_increasing; lra. }
  rewrite (init_h5ad _ _ _ _ _ "cells.h5ad" the_model false None None two_cells
             (Rmin (ln 10001) 0) [ln 10001] [[0%R]]); try reflexivity.
  - pose proof first_cell_within_bound as Hok. unfold row_within_bound in Hok.
    destruct (Rgt_dec _ 1); [lra |].
    unfold Classifier.new_classifier. eexists _, _. reflexivity.
  - rewrite Rmin_right by lra. lra.
Qed.

Lemma init_result_witness :
  exists h' l,
    Classifier.classifiers empty_heap !! l = None /\
    Classifier.models h' = Classifier.models empty_heap.
Proof.
  destruct init_h5ad_example_run as (h' & l & Hrun).
  destruct (init_result _ _ _ _ _ _ _ _ _ _ _ _ _ Hrun)
    as (_ & _ & Hfresh & _ & _ & Hmodels & _).
  exists h', l. split; [exact Hfresh | exact Hmodels].
Defined.

(** The constructor on a scaled object: the data come from [raw]. *)
Lemma init_h5ad_scaled_run :
  exists h' l,
    Classifier.__init__ example_read_scaled example_read_column example_make_unique
      example_normalize_total example_log1p
      ("cells" ++ ".h5ad") the_model false None None empty_heap
    = (h', inr l).
Proof.
  unfold Classifier.__init__.
  change (Classifier.endswith ("cells" ++ ".h5ad")
            [".csv"; ".txt"; ".tsv"; ".tab"; ".mtx"; ".mtx.gz"]) with false.
  change (Classifier.endswith ("cells" ++ ".h5ad") [".h5ad"]) with true.
  cbv iota. rewrite (bind_lift_inr _ one_cell_scaled) by reflexivity.
  rewrite (bind_lift_inr _ (-1)%R) by reflexivity.
  destruct (Rlt_dec (-1) 0) as [_ | Hpos]; [| exfalso; apply Hpos; lra].
  change (AnnData.raw one_cell_scaled) with (Some ([[ln 10001]], ["GAPDH"])).
  cbv iota. rewrite bind_ret. cbn [fst snd].
  rewrite (bind_lift_inr _ _ _ _ (not_normalised_cons [ln 10001] [])).
  pose proof first_cell_within_bound as Hok. unfold row_within_bound in Hok.
  destruct (Rgt_dec _ 1); [lra |].
  unfold Classifier.new_classifier. eexists _, _. reflexivity.
Qed.

Lemma init_h5ad_result_witness :
  exists h' l c,
    Classifier.classifiers h' !! l = Some c /\
    AnnData.X (Classifier.adata c) = [[(-1)%R]] /\
    Classifier.indata c = [[ln 10001]] /\
    Classifier.indata_genes c = ["GAPDH"].
Proof.
  destruct init_h5ad_scaled_run as (h' & l & Hrun).
  destruct (init_h5ad_result _ _ _ _ _ _ _ _ _ _ _ _ _ Hrun)
    as ((adata0 & c & row0 & rest & lo & Hread & Hc & Hadata & _ & _ & Hmin & Hsrc) & _).
  injection Hread as <-.
  injection Hmin as <-.
  exists h', l, c. split; [exact Hc |]. split; [rewrite Hadata; reflexivity |].
  destruct Hsrc as [(Hpos & _) | (_ & Hraw)]; [exfalso; apply Hpos; lra |].
  injection Hraw as <- <-. split; reflexivity.
Defined.

Lemma init_mtx_example_run :
  exists h' l,
    Classifier.__init__ example_read example_read_column example_make_unique
      example_normalize_total example_log1p
      ("matrix" ++ ".mtx") the_model false (Some "genes.tsv") (Some "cells.tsv")
      empty_heap
    = (h', inr l).
Proof.
  unfold Classifier.__init__.
  change (Classifier.endswith ("matrix" ++ ".mtx")
            [".csv"; ".txt"; ".tsv"; ".tab"; ".mtx"; ".mtx.gz"]) with true.
  change (Classifier.endswith ("matrix" ++ ".mtx") [".mtx"; ".mtx.gz"]) with true.
  cbv iota. rewrite (bind_lift_inr _ two_cells) by reflexivity.
  eexists _, _. reflexivity.
Qed.

Lemma init_mtx_result_witness :
  exists h' l c,
    Classifier.classifiers h' !! l = Some c /\
    AnnData.obs_names (Classifier.adata c) = ["AAAC"; "AAAG"] /\
    Classifier.indata_genes c = ["GAPDH"].
Proof.
  destruct init_mtx_example_run as (h' & l & Hrun).
  destruct (init_mtx_result _ _ _ _ _ _ _ _ _ _ _ _ _ _ (or_introl eq_refl) Hrun)
    as (gf & cf & genes_mtx & cells_mtx & adata0 & c
        & Hgf & Hcf & Hrg & Hrc & _ & _ & _ & Hc & Hobs & Hgenes).
  inversion Hgf; subst gf. inversion Hcf; subst cf.
  vm_compute in Hrg. inversion Hrg; subst genes_mtx.
  vm_compute in Hrc. inversion Hrc; subst cells_mtx.
  exists h', l, c. auto.
Defined.

Lemma init_mtx_missing_companion_witness :
  Classifier.__init__ example_read example_read_column example_make_unique
    example_normalize_total example_log1p
    ("matrix" ++ ".mtx") the_model false (Some "genes.tsv") None empty_heap
  = (empty_heap, inl (FileNotFoundError "Missing `gene_file` and/or `cell_file`")).
Proof.
  apply (init_mtx_missing_companion example_read example_read_column example_make_unique
           example_normalize_total example_log1p
           "matrix" ".mtx" the_model false (Some "genes.tsv") None empty_heap).
  - left. reflexivity.
  - right. reflexivity.
Defined.

Lemma init_text_total_witness :
  exists h' l,
    Classifier.__init__ example_read example_read_column example_make_unique
      example_normalize_total example_log1p
      ("cells" ++ ".csv") the_model true None None empty_heap
    = (h', inr l).
Proof.
  destruct (init_text_total example_read example_read_column example_make_unique
              example_normalize_total example_log1p
              "cells" ".csv" the_model true None None empty_heap two_cells
              (or_introl eq_refl) eq_refl)
    as (h' & l & c & Hrun & _).
  exists h', l. exact Hrun.
Defined.

(** ** [Classifier.over_cluster] *)

Section OverCluster.

Variable neighbors_pipeline : list (list R) -> result Clustering.neighbor_graph.
Variable sc_tl_leiden : R -> string -> Slots.t -> result Slots.t.

(** The steps of an over-clustering that returns. *)
Lemma over_cluster_inv (adata : AnnData.t) (resolution : option R)
  (s s' : Slots.t) (column : list string) :
  Clustering.over_cluster neighbors_pipeline sc_tl_leiden adata resolution s
  = (s', inr column) ->
  exists s1 s2 r,
    ((exists g, Slots.obsp s !! "connectivities" = Some g /\ s1 = s) \/
     (Slots.obsp s !! "connectivities" = None /\
      exists g, Clustering._construct_neighbor_graph neighbors_pipeline adata = inr g /\
                s1 = with_graph g s)) /\
    sc_tl_leiden r "over_clustering" s1 = inr s2 /\
    Slots.obs s2 !! "over_clustering" = Some column /\
    s' = Slots.set_obs (delete "over_clustering" (Slots.obs s2)) s2.
Proof using Type.
  unfold Clustering.over_cluster. intros H. rewrite bind_get in H.
  apply bind_success in H as (s1 & [] & Hgraph & H).
  rewrite bind_get in H. step_success H. rename a into s2.
  rewrite bind_modify in H. step_success H. rewrite bind_modify in H.
  unfold ret in H. inversion H; subst s' a. clear H.
  destruct (Slots.obs s2 !! "over_clustering") as [col |] eqn:Hcol; [| discriminate].
  inversion Hstep0; subst col.
  eexists s1, s2, _. split; [| split; [exact Hstep | split; [exact Hcol | reflexivity]]].
  destruct (Slots.obsp s !! "connectivities") as [g |] eqn:Hg.
  - left. exists g. split; [reflexivity |]. unfold ret in Hgraph. congruence.
  - right. split; [reflexivity |].
    step_success Hgraph. exists a. split; [exact Hstep1 |].
    destruct a as [[[pca connectivities] distances] neighbors].
    unfold modify in Hgraph. inversion Hgraph. reflexivity.
Qed.

(** X14 ([Classifier.over_cluster], the observations).  With a
    [sc.tl.leiden] that keeps to its contract, an over-clustering that
    returns leaves in [obs] every column it found, except a column
    called [over_clustering]: the column the call writes is dropped
    again, and a column of that name that was there before is lost. *)
Theorem over_cluster_restores_obs (adata : AnnData.t) (resolution : option R)
  (s s' : Slots.t) (column : list string) :
  leiden_contract sc_tl_leiden ->
  Clustering.over_cluster neighbors_pipeline sc_tl_leiden adata resolution s
  = (s', inr column) ->
  Slots.obs s' = delete "over_clustering" (Slots.obs s).
Proof using Type.
  intros Hleiden Hrun.
  destruct (over_cluster_inv _ _ _ _ _ Hrun)
    as (s1 & s2 & r & Hgraph & Hl & _ & ->).
  destruct (Hleiden _ _ _ _ Hl) as ((col & Hobs) & _). simpl.
  rewrite Hobs, delete_insert_eq.
  destruct Hgraph as [(g & _ & ->) | (_ & g & _ & ->)]; [reflexivity |].
  destruct g as [[[pca connectivities] distances] neighbors]. reflexivity.
Qed.

(** X15 ([Classifier.over_cluster], an object with a graph).  When the
    object holds [connectivities], neither the matrix nor the
    neighbourhood pipeline plays a part: the call is the same for any
    pipeline and for any object with the same number of cells. *)
Theorem over_cluster_reuses_graph
  (other_pipeline : list (list R) -> result Clustering.neighbor_graph)
  (adata adata' : AnnData.t) (resolution : option R) (s : Slots.t)
  (g : list (list R)) :
  Slots.obsp s !! "connectivities" = Some g ->
  AnnData.n_obs adata' = AnnData.n_obs adata ->
  Clustering.over_cluster neighbors_pipeline sc_tl_leiden adata resolution s
  = Clustering.over_cluster other_pipeline sc_tl_leiden adata' resolution s.
Proof using Type.
  intros Hg Hn. unfold Clustering.over_cluster.
  rewrite !bind_get, Hg, Hn. reflexivity.
Qed.

(** X16 ([Classifier.over_cluster], an object without a graph).  When
    the object holds no [connectivities], an over-clustering that
    returns has run the pipeline: on [X] when the smallest entry of [X]
    is not negative, on [raw.X] when it is.  The graph stays in the
    object: [obsp] has gained [connectivities] and [distances], [obsm]
    has gained [X_pca]. *)
Theorem over_cluster_builds_graph (adata : AnnData.t) (resolution : option R)
  (s s' : Slots.t) (column : list string) :
  leiden_contract sc_tl_leiden ->
  Slots.obsp s !! "connectivities" = None ->
  Clustering.over_cluster neighbors_pipeline sc_tl_leiden adata resolution s
  = (s', inr column) ->
  exists lo X pca connectivities distances neighbors,
    Np.amin (AnnData.X adata) = Some lo /\
    ((~ (lo < 0)%R /\ X = AnnData.X adata) \/
     ((lo < 0)%R /\ exists names, AnnData.raw adata = Some (X, names))) /\
    neighbors_pipeline X = inr (pca, connectivities, distances, neighbors) /\
    Slots.obsp s'
    = <["distances" := distances]> (<["connectivities" := connectivities]> (Slots.obsp s)) /\
    Slots.obsm s' = <["X_pca" := pca]> (Slots.obsm s).
Proof using Type.
  intros Hleiden Hnone Hrun.
  destruct (over_cluster_inv _ _ _ _ _ Hrun)
    as (s1 & s2 & r & Hgraph & Hl & _ & ->).
  destruct (Hleiden _ _ _ _ Hl) as (_ & Hobsm & Hobsp).
  destruct Hgraph as [(g & Hg & _) | (_ & g & Hg & ->)]; [congruence |].
  destruct g as [[[pca connectivities] distances] neighbors].
  unfold Clustering._construct_neighbor_graph in Hg.
  destruct (Np.amin (AnnData.X adata)) as [lo |]; [| discriminate]. simpl in Hg.
  exists lo.
  destruct (Rlt_dec lo 0) as [Hneg | Hpos].
  - destruct (AnnData.raw adata) as [[X names] |] eqn:Hraw; [| discriminate].
    simpl in Hg. exists X, pca, connectivities, distances, neighbors.
    split; [reflexivity |].
    split; [right; split; [exact Hneg | exists names; reflexivity] |].
    split; [exact Hg |].
    simpl. rewrite Hobsm, Hobsp. split; reflexivity.
  - simpl in Hg. exists (AnnData.X adata), pca, connectivities, distances, neighbors.
    split; [reflexivity |]. split; [left; split; [exact Hpos | reflexivity] |].
    split; [exact Hg |].
    simpl. rewrite Hobsm, Hobsp. split; reflexivity.
Qed.

(** X17 ([Classifier.over_cluster], a call that raises).  With a
    [sc.tl.leiden] that keeps to its contract, an over-clustering that
    raises leaves the columns of [obs] as they were: the temporary
    column is never left behind. *)
Theorem over_cluster_failure_keeps_obs (adata : AnnData.t) (resolution : option R)
  (s s' : Slots.t) (e : exn) :
  leiden_contract sc_tl_leiden ->
  Clustering.over_cluster neighbors_pipeline sc_tl_leiden adata resolution s
  = (s', inl e) ->
  Slots.obs s' = Slots.obs s.
Proof using Type.
  intros Hleiden. unfold Clustering.over_cluster. rewrite bind_get.
  set (r := match resolution with Some r => r | None => _ end). clearbody r.
  assert (Hrest : forall s1, Slots.obs s1 = Slots.obs s ->
    (s1 <- get ;;
     s2 <- lift (sc_tl_leiden r "over_clustering" s1) ;;
     modify (fun _ => s2) ;;;
     oc_column <- lift (match Slots.obs s2 !! "over_clustering" with
                        | Some c => inr c
                        | None => inl (AttributeError "over_clustering")
                        end) ;;
     modify (Slots.set_obs (delete "over_clustering" (Slots.obs s2))) ;;;
     ret oc_column) s1 = (s', inl e) ->
    Slots.obs s' = Slots.obs s).
  { intros s1 Hs1. rewrite bind_get.
    destruct (sc_tl_leiden r "over_clustering" s1) as [e1 | s2] eqn:Hl.
    - rewrite (bind_lift_inl _ _ _ _ eq_refl). intros H. inversion H. congruence.
    - rewrite (bind_lift_inr _ _ _ _ eq_refl), bind_modify.
      destruct (Hleiden _ _ _ _ Hl) as ((col & Hobs) & _).
      rewrite Hobs, lookup_insert_eq.
      rewrite (bind_lift_inr _ _ _ _ eq_refl), bind_modify. discriminate. }
  destruct (Slots.obsp s !! "connectivities") as [g |].
  - rewrite bind_ret. apply Hrest. reflexivity.
  - destruct (Clustering._construct_neighbor_graph neighbors_pipeline adata)
      as [e1 | [[[pca connectivities] distances] neighbors]].
    + unfold bind at 1 2. simpl. intros H. inversion H. reflexivity.
    + unfold bind at 1 2. simpl. apply Hrest. reflexivity.
Qed.

End OverCluster.

Lemma example_leiden_contract : leiden_contract example_leiden.
Proof.
  intros r key s s' H. unfold example_leiden in H.
  destruct (Slots.obsp s !! "connectivities"); [| discriminate].
  inversion H. simpl. split; [eexists; reflexivity | split; reflexivity].
Qed.

Lemma over_cluster_example_run :
  Clustering.over_cluster example_pipeline example_leiden one_cell None
                          slots_without_graph
  = (Slots.mk ∅ {[ "X_pca" := [[1%R]] ]}
              (<["distances" := [[0%R]]]> {[ "connectivities" := [[1%R]] ]})
              (<["leiden" := [("random_state", "0")]]>
                 {[ "neighbors" := [("n_neighbors", "10")] ]}),
     inr ["0"]).
Proof.
  unfold Clustering.over_cluster. rewrite bind_get.
  change (Slots.obsp slots_without_graph !! "connectivities") with (@None (list (list R))).
  cbv iota.
  assert (Hg : Clustering._construct_neighbor_graph example_pipeline one_cell
               = inr ([[1%R]], [[1%R]], [[0%R]], [("n_neighbors", "10")])).
  { unfold Clustering._construct_neighbor_graph, one_cell, Np.amin. simpl.
    destruct (Rlt_dec 1 0); [lra | reflexivity]. }
  rewrite Hg. reflexivity.
Qed.

Lemma over_cluster_restores_obs_witness :
  Slots.obs (Slots.mk ∅ {[ "X_pca" := [[1%R]] ]}
               (<["distances" := [[0%R]]]> {[ "connectivities" := [[1%R]] ]})
               (<["leiden" := [("random_state", "0")]]>
                  {[ "neighbors" := [("n_neighbors", "10")] ]}))
  = delete "over_clustering" (Slots.obs slots_without_graph).
Proof.
  exact (over_cluster_restores_obs _ _ _ _ _ _ _
           example_leiden_contract over_cluster_example_run).
Defined.

Lemma over_cluster_reuses_graph_witness :
  Clustering.over_cluster example_pipeline example_leiden one_cell None slots_with_graph
  = Clustering.over_cluster (fun _ => inl (ValueError "not called")) example_leiden
      (AnnData.mk [] ["cell1"] [] None) None slots_with_graph.
Proof.
  apply (over_cluster_reuses_graph _ _ _ _ _ _ _ [[1%R]]); reflexivity.
Defined.

(** Over-clustering of a scaled object: the graph is built on [raw]. *)
Lemma over_cluster_scaled_run :
  Clustering.over_cluster example_pipeline example_leiden one_cell_scaled None
                          slots_without_graph
  = (Slots.mk ∅ {[ "X_pca" := [[ln 10001]] ]}
              (<["distances" := [[0%R]]]> {[ "connectivities" := [[1%R]] ]})
              (<["leiden" := [("random_state", "0")]]>
                 {[ "neighbors" := [("n_neighbors", "10")] ]}),
     inr ["0"]).
Proof.
  unfold Clustering.over_cluster. rewrite bind_get.
  change (Slots.obsp slots_without_graph !! "connectivities") with (@None (list (list R))).
  cbv iota.
  assert (Hg : Clustering._construct_neighbor_graph example_pipeline one_cell_scaled
               = inr ([[ln 10001]], [[1%R]], [[0%R]], [("n_neighbors", "10")])).
  { unfold Clustering._construct_neighbor_graph, one_cell_scaled, Np.amin. simpl.
    destruct (Rlt_dec (-1) 0); [reflexivity | lra]. }
  rewrite Hg. reflexivity.
Qed.

Lemma over_cluster_builds_graph_witness :
  exists X pca connectivities distances neighbors,
    example_pipeline X = inr (pca, connectivities, distances, neighbors) /\
    AnnData.X one_cell_scaled = [[(-1)%R]] /\
    X = [[ln 10001]].
Proof.
  destruct (over_cluster_builds_graph example_pipeline example_leiden one_cell_scaled
              None slots_without_graph _ _
              example_leiden_contract eq_refl over_cluster_scaled_run)
    as (lo & X & pca & connectivities & distances & neighbors & Hmin & Hsrc & Hp & _).
  injection Hmin as <-.
  exists X, pca, connectivities, distances, neighbors.
  split; [exact Hp |]. split; [reflexivity |].
  destruct Hsrc as [(Hpos & _) | (_ & names & Hraw)]; [exfalso; apply Hpos; lra |].
  injection Hraw as <- _. reflexivity.
Defined.

Lemma failing_leiden_contract :
  leiden_contract (fun _ _ _ => inl (KeyError "neighbors")).
Proof. intros r key s s' H. discriminate. Qed.

Lemma over_cluster_leiden_fails :
  Clustering.over_cluster example_pipeline (fun _ _ _ => inl (KeyError "neighbors"))
    one_cell None slots_without_graph
  = (with_graph ([[1%R]], [[1%R]], [[0%R]], [("n_neighbors", "10")]) slots_without_graph,
     inl (KeyError "neighbors")).
Proof.
  unfold Clustering.over_cluster. rewrite bind_get.
  change (Slots.obsp slots_without_graph !! "connectivities") with (@None (list (list R))).
  cbv iota.
  assert (Hg : Clustering._construct_neighbor_graph example_pipeline one_cell
               = inr ([[1%R]], [[1%R]], [[0%R]], [("n_neighbors", "10")])).
  { unfold Clustering._construct_neighbor_graph, one_cell, Np.amin. simpl.
    destruct (Rlt_dec 1 0); [lra | reflexivity]. }
  rewrite Hg. reflexivity.
Qed.

Lemma over_cluster_failure_keeps_obs_witness :
  Slots.obs (with_graph ([[1%R]], [[1%R]], [[0%R]], [("n_neighbors", "10")])
                        slots_without_graph)
  = Slots.obs slots_without_graph.
Proof.
  exact (over_cluster_failure_keeps_obs _ _ _ _ _ _ _
           failing_leiden_contract over_cluster_leiden_fails).
Defined.

(** ** [AnnotationResult.summary_frequency] *)

Lemma map_nth_seq {A} (l : list A) (d : A) :
  map (fun i => nth i l d) (seq 0 (length l)) = l.
Proof.
  apply (List.nth_ext _ _ (nth 0 l d) d).
  - rewrite length_map, length_seq. reflexivity.
  - intros n Hn. rewrite length_map, length_seq in Hn.
    rewrite (map_nth (fun i => nth i l d)). rewrite seq_nth by exact Hn. reflexivity.
Qed.

Lemma list_sum_indicator_absent (x : string) (U : list string) :
  ~ In x U -> list_sum (map (fun u => if string_dec x u then 1 else 0) U) = 0.
Proof.
  induction U as [| v U IH]; intros Hx; [reflexivity |]. simpl.
  destruct (string_dec x v) as [-> | _]; [exfalso; apply Hx; left; reflexivity |].
  apply IH. intros H. apply Hx. right. exact H.
Qed.

Lemma list_sum_indicator (x : string) (U : list string) :
  List.NoDup U -> In x U ->
  list_sum (map (fun u => if string_dec x u then 1 else 0) U) = 1.
Proof.
  induction 1 as [| u U Hu Hnd IH]; intros Hin; [contradiction |]. simpl.
  destruct (string_dec x u) as [-> | Hne].
  - rewrite list_sum_indicator_absent by exact Hu. reflexivity.
  - destruct Hin as [-> | Hin]; [contradiction |]. apply IH, Hin.
Qed.

Lemma list_sum_map_add {A} (f g : A -> nat) (l : list A) :
  list_sum (map (fun x => f x + g x) l) = list_sum (map f l) + list_sum (map g l).
Proof. induction l as [| x l IH]; simpl; [reflexivity | rewrite IH; lia]. Qed.

(** The counts of the distinct values add up to the length. *)
Lemma count_occ_total (col U : list string) :
  List.NoDup U -> (forall x, In x col -> In x U) ->
  list_sum (map (count_occ string_dec col) U) = length col.
Proof.
  intros Hnd. induction col as [| x col IH]; intros Hin.
  - clear. induction U as [| u U IHU]; [reflexivity | exact IHU].
  - rewrite (map_ext (count_occ string_dec (x :: col))
               (fun u => (if string_dec x u then 1 else 0) + count_occ string_dec col u)).
    + rewrite list_sum_map_add, list_sum_indicator, IH.
      * reflexivity.
      * intros y Hy. apply Hin. right. exact Hy.
      * exact Hnd.
      * apply Hin. left. reflexivity.
    + intros u. simpl. destruct (string_dec x u); reflexivity.
Qed.

Lemma StronglySorted_map {A B} (f : A -> B) (R' : B -> B -> Prop) (l : list A) :
  StronglySorted (fun x y => R' (f x) (f y)) l -> StronglySorted R' (map f l).
Proof.
  induction 1 as [| x l Hs IH Hall]; simpl; constructor; [exact IH |].
  apply List.Forall_forall. intros y Hy. apply in_map_iff in Hy as (y0 & <- & Hy0).
  exact (proj1 (List.Forall_forall _ _) Hall y0 Hy0).
Qed.

Lemma insert_desc_perm (counts : list nat) (i : nat) (p : list nat) :
  Permutation (Summary.insert_desc counts i p) (i :: p).
Proof.
  induction p as [| j p IH]; simpl; [reflexivity |].
  destruct (Nat.leb _ _); [reflexivity |].
  rewrite IH. apply perm_swap.
Qed.

Lemma insert_desc_sorted (counts : list nat) (i : nat) (p : list nat) :
  StronglySorted (fun i j => nth j counts 0 <= nth i counts 0) p ->
  StronglySorted (fun i j => nth j counts 0 <= nth i counts 0)
                 (Summary.insert_desc counts i p).
Proof.
  induction 1 as [| j p Hs IH Hall]; simpl.
  - constructor; constructor.
  - destruct (Nat.leb (nth j counts 0) (nth i counts 0)) eqn:E.
    + apply Nat.leb_le in E. constructor; [constructor; assumption |].
      constructor; [exact E |].
      eapply List.Forall_impl; [| exact Hall]. simpl. intros k Hk. lia.
    + apply Nat.leb_gt in E. constructor; [exact IH |].
      apply List.Forall_forall. intros k Hk.
      apply (Permutation_in _ (insert_desc_perm counts i p)) in Hk.
      destruct Hk as [<- | Hk]; [lia |].
      exact (proj1 (List.Forall_forall _ _) Hall k Hk).
Qed.

Lemma argsort_desc_insertion_contract :
  Summary.sort_desc_contract Summary.argsort_desc_insertion.
Proof.
  intros counts. unfold Summary.argsort_desc_insertion.
  generalize (seq 0 (length counts)) as l. intros l. split.
  - induction l as [| i l IH]; simpl; [reflexivity |].
    rewrite insert_desc_perm. constructor. exact IH.
  - induction l as [| i l IH]; simpl; [constructor |].
    apply insert_desc_sorted, IH.
Qed.

Lemma unique_map_length (f : string -> string) (l : list string) :
  length (Np.unique (map f l)) <= length (Np.unique l).
Proof.
  transitivity (length (map f (Np.unique l))); [| rewrite length_map; reflexivity].
  apply List.NoDup_incl_length; [apply unique_NoDup |].
  intros y Hy. apply (proj1 (unique_In _ _)) in Hy.
  apply in_map_iff in Hy as (x & <- & Hx).
  apply in_map, (proj2 (unique_In _ _)), Hx.
Qed.

(** The rows of the summary: the distinct values in some order, with
    counts that add up to the length of the column. *)
Lemma summary_frequency_rows (argsort_desc : list nat -> list nat)
  (self : AnnotationResult.t) (by_ : string) (col : list string) :
  Summary.sort_desc_contract argsort_desc ->
  Pd.getitem (AnnotationResult.predicted_labels self) by_ = inr col ->
  Summary.summary_frequency argsort_desc self by_
  = inr (map (fun i => (i, nth i (Np.unique col) "",
                        nth i (map (count_occ string_dec col) (Np.unique col)) 0))
             (argsort_desc (map (count_occ string_dec col) (Np.unique col)))) /\
  Permutation
    (map (fun i => nth i (Np.unique col) "")
         (argsort_desc (map (count_occ string_dec col) (Np.unique col))))
    (Np.unique col) /\
  list_sum (map (fun i => nth i (map (count_occ string_dec col) (Np.unique col)) 0)
                (argsort_desc (map (count_occ string_dec col) (Np.unique col))))
  = length col.
Proof.
  intros Hsort Hcol. unfold Summary.summary_frequency. rewrite Hcol. simpl.
  split; [reflexivity |].
  destruct (Hsort (map (count_occ string_dec col) (Np.unique col))) as [Hperm _].
  rewrite length_map in Hperm. split.
  - rewrite (Permutation_map (fun i => nth i (Np.unique col) "") Hperm).
    rewrite map_nth_seq. reflexivity.
  - rewrite (Permutation_map
               (fun i => nth i (map (count_occ string_dec col) (Np.unique col)) 0) Hperm).
    rewrite <- (length_map (count_occ string_dec col) (Np.unique col)).
    rewrite map_nth_seq.
    apply count_occ_total; [apply unique_NoDup |].
    intros x Hx. apply (proj2 (unique_In _ _)), Hx.
Qed.

(** X18 ([AnnotationResult.summary_frequency]).  For a column of the
    label frame and a sort that keeps to its contract, the summary has
    one row for every distinct value of the column and no other; the
    count of a row is the number of cells that carry its value, which is
    at least one; the counts do not grow from a row to the next, and
    they add up to the number of cells. *)
Theorem summary_frequency_spec (argsort_desc : list nat -> list nat)
  (self : AnnotationResult.t) (by_ : string) (col : list string) :
  Summary.sort_desc_contract argsort_desc ->
  Pd.getitem (AnnotationResult.predicted_labels self) by_ = inr col ->
  exists rows,
    Summary.summary_frequency argsort_desc self by_ = inr rows /\
    Permutation (map (fun r => snd (fst r)) rows) (Np.unique col) /\
    (forall i l n, In (i, l, n) rows ->
       n = count_occ string_dec col l /\ 0 < n) /\
    StronglySorted (fun r r' => snd r' <= snd r) rows /\
    list_sum (map snd rows) = length col.
Proof.
  intros Hsort Hcol.
  destruct (summary_frequency_rows _ _ _ _ Hsort Hcol) as (Hrun & Hlabels & Hsum).
  eexists. split; [exact Hrun |].
  set (U := Np.unique col) in *.
  set (counts := map (count_occ string_dec col) U) in *.
  destruct (Hsort counts) as [Hperm Hsorted].
  assert (Hlen : length counts = length U) by apply length_map.
  assert (Hcount : forall i, i < length U ->
            nth i counts 0 = count_occ string_dec col (nth i U "")).
  { intros i Hi. unfold counts.
    rewrite (nth_indep _ 0 (count_occ string_dec col "")) by (rewrite length_map; exact Hi).
    apply map_nth. }
  split; [| split; [| split]].
  - rewrite map_map. simpl. exact Hlabels.
  - intros i l n Hin. apply in_map_iff in Hin as (j & Heq & Hj).
    inversion Heq; subst i l n.
    apply (Permutation_in _ Hperm) in Hj. apply in_seq in Hj. rewrite Hlen in Hj.
    destruct Hj as [_ Hj]. simpl in Hj.
    rewrite (Hcount j Hj). split; [reflexivity |].
    apply count_occ_In, (proj1 (unique_In _ _)). apply nth_In. exact Hj.
  - apply StronglySorted_map. simpl. exact Hsorted.
  - rewrite map_map. simpl. exact Hsum.
Qed.

Lemma summary_frequency_spec_witness :
  exists rows,
    Summary.summary_frequency Summary.argsort_desc_insertion
      (example_predictions ["A"; "B"; "A"; "A"]) "predicted_labels" = inr rows /\
    list_sum (map snd rows) = 4.
Proof.
  destruct (summary_frequency_spec Summary.argsort_desc_insertion
              (example_predictions ["A"; "B"; "A"; "A"]) "predicted_labels"
              ["A"; "B"; "A"; "A"] argsort_desc_insertion_contract eq_refl)
    as (rows & Hrun & _ & _ & _ & Hsum).
  exists rows. split; [exact Hrun | exact Hsum].
Defined.

Example summary_frequency_three_to_one :
  Summary.summary_frequency Summary.argsort_desc_insertion
    (example_predictions ["B"; "A"; "A"; "A"]) "predicted_labels"
  = inr [(0, "A", 3); (1, "B", 1)].
Proof. reflexivity. Qed.

(** X19 ([Classifier.celltype] then
    [AnnotationResult.summary_frequency]).  On the result of [celltype]
    the summary by [predicted_labels] is there, and the summary by
    [majority_voting] raises [KeyError]: the column exists only once
    [majority_vote] has run. *)
Theorem summary_frequency_before_vote predict (argsort_desc : list nat -> list nat)
  (self : loc) (h h' : Classifier.Heap) (r : loc) :
  Classifier.celltype predict self h = (h', inr r) ->
  Summary.summary_frequency argsort_desc (Classifier.results h' !!! r) "majority_voting"
  = inl (KeyError "majority_voting") /\
  exists rows,
    Summary.summary_frequency argsort_desc (Classifier.results h' !!! r) "predicted_labels"
    = inr rows.
Proof.
  intros Hrun.
  destruct (celltype_steps _ _ _ _ _ Hrun)
    as (h1 & Z & lp & _ & _ & Hl & Hp & Hrows & Hr & Hh').
  rewrite Hh'. simpl. rewrite lookup_total_insert_eq.
  unfold Summary.summary_frequency. simpl. split; [reflexivity |].
  rewrite getitem_single_column. simpl. eexists. reflexivity.
Qed.

Lemma summary_frequency_before_vote_witness :
  exists h' r,
    Summary.summary_frequency Summary.argsort_desc_insertion
      (Classifier.results h' !!! r) "majority_voting"
    = inl (KeyError "majority_voting").
Proof.
  destruct celltype_partial_overlap_run as (h' & r & Hrun).
  destruct (summary_frequency_before_vote _ Summary.argsort_desc_insertion _ _ _ _ Hrun)
    as (Hkey & _).
  exists h', r. exact Hkey.
Defined.

(** X20 ([Classifier.majority_vote] then
    [AnnotationResult.summary_frequency]).  After a vote the summary by
    [majority_voting] is there, and it has no more rows than there are
    clusters. *)
Theorem summary_frequency_after_vote (argsort_desc : list nat -> list nat)
  (h h' : Classifier.Heap) (p q : loc) (labels over_clustering : list string) :
  Summary.sort_desc_contract argsort_desc ->
  voting_ready (AnnotationResult.predicted_labels (Classifier.results h !!! p))
               labels over_clustering ->
  Classifier.majority_vote p over_clustering h = (h', inr q) ->
  exists rows,
    Summary.summary_frequency argsort_desc (Classifier.results h' !!! q) "majority_voting"
    = inr rows /\
    length rows <= length (Np.unique over_clustering) /\
    list_sum (map snd rows) = length over_clustering.
Proof.
  intros Hsort Hready Hrun.
  rewrite (majority_vote_run _ _ _ _ Hready) in Hrun.
  inversion Hrun; subst q.
  destruct (voted_frame_columns _ _ _ Hready) as (_ & _ & H3).
  assert (Hcol : Pd.getitem
            (AnnotationResult.predicted_labels
               (Classifier.results
                  (Classifier.update_result p
                     (AnnotationResult.set_predicted_labels
                        (voted_frame
                           (AnnotationResult.predicted_labels (Classifier.results h !!! p))
                           labels over_clustering)) h) !!! p)) "majority_voting"
            = inr (map (winner labels over_clustering) over_clustering)).
  { rewrite update_result_lookup. exact H3. }
  destruct (summary_frequency_rows argsort_desc _ _ _ Hsort Hcol)
    as (Hrows & Hperm & Hsum).
  eexists. split; [exact Hrows |]. split.
  - rewrite length_map.
    rewrite <- (length_map (fun i => nth i (Np.unique
                  (map (winner labels over_clustering) over_clustering)) "")).
    rewrite (Permutation_length Hperm). apply unique_map_length.
  - rewrite map_map. simpl. rewrite Hsum. apply length_map.
Qed.

Lemma summary_frequency_after_vote_witness :
  exists h' rows,
    Summary.summary_frequency Summary.argsort_desc_insertion
      (Classifier.results h' !!! the_predictions) "majority_voting" = inr rows /\
    list_sum (map snd rows) = 4.
Proof.
  pose proof (voting_heap_ready "A" "A" "A" "B" ["0"; "0"; "1"; "1"] eq_refl) as Hready.
  pose proof (majority_vote_run _ _ _ _ Hready) as Hrun.
  destruct (summary_frequency_after_vote _ _ _ _ _ _ _
              argsort_desc_insertion_contract Hready Hrun)
    as (rows & Hrows & _ & Hsum).
  eexists _, rows. split; [exact Hrows | exact Hsum].
Defined.

(** ** [train]: the checks, the filter and the two rounds *)

(** X21 ([train] and [Classifier.celltype], the clipping).  The trainer
    clips the scaled matrix with [np.clip(..., a_max = 10)], the
    classifier with [indata[indata > 10] = 10]: on every matrix the two
    give the same result. *)
Theorem clip_max_is_setitem_gt (a : list (list R)) :
  Np.clip_max 10 a = Np.setitem_gt 10 10 a.
Proof.
  unfold Np.clip_max, Np.setitem_gt.
  apply map_ext. intros row. apply map_ext. intros x.
  symmetry. apply clip_is_Rmin.
Qed.

Section TrainMore.

Variable sgd_fit :
  Train.SGDParams -> list (list R) -> list string -> result Model.SGDClassifier.
Variable sgd_partial_fit :
  Train.SGDParams -> Train.estimator -> list (list R) -> list string -> list string ->
  result Model.SGDClassifier.
Variable scaler_fit_transform :
  list (list R) -> result (Model.StandardScaler * list (list R)).
Variable sklearn_shuffle :
  nat -> list (list R) -> list string -> result (list (list R) * list string).
Variable argpartition : list R -> nat -> list nat.

(** In mini-batch mode [_SGDClassifier] returns only when there is no
    epoch to run, and then with the estimator it created. *)
Lemma sgd_mini_batch_inv (X : list (list R)) (y : list string)
  (params : Train.SGDParams) (batch_number batch_size epochs : Z)
  (log log' : list Train.call) (est : Train.estimator) :
  Train._SGDClassifier sgd_fit sgd_partial_fit sklearn_shuffle
    X y params true batch_number batch_size epochs log = (log', inr est) ->
  (epochs <= 0)%Z /\ est = None /\ log' = log.
Proof using Type.
  unfold Train._SGDClassifier. simpl.
  destruct (Z.of_nat (length y) <=? batch_size)%Z; [discriminate |].
  destruct (batch_size =? 0)%Z; [discriminate |].
  destruct (Z.to_nat epochs) as [| n] eqn:He.
  - simpl. intros H. inversion H. split; [lia | auto].
  - intros H. simpl in H. discriminate.
Qed.

(** The run of [train] up to the first round, for a call that
    returns. *)
Lemma train_checks_inv indata labels genes params mini_batch
  batch_number batch_size epochs feature_selection top_genes date details url now
  log log' model :
  Train.train sgd_fit sgd_partial_fit scaler_fit_transform sklearn_shuffle argpartition
    indata labels genes params mini_batch batch_number batch_size epochs
    feature_selection top_genes date details url now log = (log', inr model) ->
  Classifier.not_normalised indata = inr false /\
  length labels = length indata /\
  length genes = length (hd [] indata) /\
  exists scaled log1 est,
    scaler_fit_transform (fst (Train.drop_non_expressed indata genes)) = inr scaled /\
    Train._SGDClassifier sgd_fit sgd_partial_fit sklearn_shuffle
      (Np.clip_max 10 (snd scaled))
      labels params mini_batch batch_number batch_size epochs log = (log1, inr est) /\
    (feature_selection = false ->
     log' = log1 /\
     model = Model.mk
               (Model.set_features (snd (Train.drop_non_expressed indata genes))
                  (match est with
                   | Some c => c
                   | None => Model.mkSGDClassifier [] [] [] 0 []
                   end))
               (fst scaled)
               (Model.mkDescription (if String.eqb date "" then now else date)
                                    details url)) /\
    (feature_selection = true -> exists clf, est = Some clf).
Proof using Type.
  unfold Train.train. intros H.
  step_success H. destruct a; [discriminate |].
  destruct (Nat.eqb (length labels) (length indata)) eqn:El; [| discriminate].
  destruct (Nat.eqb (length genes) (length (hd [] indata))) eqn:Eg; [| discriminate].
  simpl in H. apply Nat.eqb_eq in El, Eg.
  step_success H. rename a into scaled.
  apply bind_success in H as (log1 & est & Hfit & H).
  do 3 (split; [assumption |]). exists scaled, log1, est.
  split; [exact Hstep0 |]. split; [exact Hfit |].
  split.
  - intros ->. rewrite bind_ret in H. unfold ret in H. inversion H. auto.
  - intros ->. apply bind_success in H as (log2 & sel & Hsel & _).
    destruct (Nat.leb _ top_genes); [discriminate |].
    destruct est as [clf |]; [eauto | discriminate].
Qed.

(** Without mini-batches [_SGDClassifier] is one call of [fit], logged
    when it is made. *)
Lemma sgd_plain (X : list (list R)) (y : list string) (params : Train.SGDParams)
  (batch_number batch_size epochs : Z) (log : list Train.call) :
  Train._SGDClassifier sgd_fit sgd_partial_fit sklearn_shuffle
    X y params false batch_number batch_size epochs log
  = ((log ++ [Train.Fit X y])%list,
     match sgd_fit params X y with
     | inl e => inl e
     | inr clf => inr (Some clf)
     end).
Proof using Type.
  unfold Train._SGDClassifier, Train.record. simpl. rewrite bind_modify.
  destruct (sgd_fit params X y); reflexivity.
Qed.

(** X22 ([train], mini-batch mode).  With [mini_batch = True] the
    trainer never delivers a fitted model: whenever it returns, there
    was no epoch to run ([epochs <= 0]) and no feature selection, no
    [fit] or [partial_fit] has been called, and the classifier it packs
    has no weights. *)
Theorem train_mini_batch_returns_unfitted indata labels genes params
  batch_number batch_size epochs feature_selection top_genes date details url now
  log log' model :
  Train.train sgd_fit sgd_partial_fit scaler_fit_transform sklearn_shuffle argpartition
    indata labels genes params true batch_number batch_size epochs
    feature_selection top_genes date details url now log = (log', inr model) ->
  (epochs <= 0)%Z /\ feature_selection = false /\ log' = log /\
  Model.coef_ (Model.classifier model) = [] /\
  Model.features (Model.classifier model) = snd (Train.drop_non_expressed indata genes).
Proof using Type.
  intros Hrun.
  destruct (train_checks_inv _ _ _ _ _ _ _ _ _ _ _ _ _ _ _ _ _ Hrun)
    as (_ & _ & _ & scaled & log1 & est & _ & Hfit & Hplain & Hsel).
  destruct (sgd_mini_batch_inv _ _ _ _ _ _ _ _ _ Hfit) as (Hep & -> & ->).
  destruct feature_selection.
  - destruct (Hsel eq_refl) as [clf Hclf]. discriminate.
  - destruct (Hplain eq_refl) as (-> & ->). simpl. auto.
Qed.

(** X23 ([train], the order of the checks).  When the first row is not
    normalised, or the labels or the genes do not fit the shape of the
    matrix, the trainer raises and no estimator has been fitted. *)
Theorem train_checks_before_fit indata labels genes params mini_batch
  batch_number batch_size epochs feature_selection top_genes date details url now
  log log' (r : result Model.t) :
  Train.train sgd_fit sgd_partial_fit scaler_fit_transform sklearn_shuffle argpartition
    indata labels genes params mini_batch batch_number batch_size epochs
    feature_selection top_genes date details url now log = (log', r) ->
  Classifier.not_normalised indata <> inr false \/
  length labels <> length indata \/
  length genes <> length (hd [] indata) ->
  log' = log /\ exists e, r = inl e.
Proof using Type.
  unfold Train.train. intros H Hbad.
  destruct (Classifier.not_normalised indata) as [e | [|]] eqn:Hn.
  - inversion H. eauto.
  - inversion H. eauto.
  - rewrite (bind_lift_inr _ _ _ _ eq_refl) in H.
    destruct (Nat.eqb (length labels) (length indata)) eqn:El;
      [| inversion H; eauto].
    destruct (Nat.eqb (length genes) (length (hd [] indata))) eqn:Eg;
      [| inversion H; eauto].
    apply Nat.eqb_eq in El, Eg. exfalso.
    destruct Hbad as [Hb | [Hb | Hb]]; [apply Hb; reflexivity | |]; contradiction.
Qed.

(** X24 ([train], too few genes for the selection).  Without
    mini-batches, when the data pass the checks, the scaler and the
    first [fit] return, and feature selection is asked for with
    [top_genes] not below the number of expressed genes, the trainer
    raises its [ValueError] only after the first round: the classifier
    has been fitted on the whole matrix and is thrown away. *)
Theorem train_selection_fails_after_fit indata labels genes params
  batch_number batch_size epochs top_genes date details url now log scaled clf :
  Classifier.not_normalised indata = inr false ->
  length labels = length indata ->
  length genes = length (hd [] indata) ->
  scaler_fit_transform (fst (Train.drop_non_expressed indata genes)) = inr scaled ->
  sgd_fit params (Np.clip_max 10 (snd scaled)) labels = inr clf ->
  length (snd (Train.drop_non_expressed indata genes)) <= top_genes ->
  Train.train sgd_fit sgd_partial_fit scaler_fit_transform sklearn_shuffle argpartition
    indata labels genes params false batch_number batch_size epochs
    true top_genes date details url now log
  = ((log ++ [Train.Fit (Np.clip_max 10 (snd scaled)) labels])%list,
     inl (ValueError "The number of genes is fewer than the `top_genes`. Unable to perform feature selection")).
Proof using Type.
  intros Hok Hl Hg Hscaled Hfit Hfew. unfold Train.train.
  rewrite (bind_lift_inr _ _ _ _ Hok). rewrite Hl, Hg, !Nat.eqb_refl. simpl.
  rewrite (bind_lift_inr _ _ _ _ Hscaled).
  unfold bind at 1. rewrite sgd_plain, Hfit.
  replace (Nat.leb (length (snd (Train.drop_non_expressed indata genes))) top_genes)
    with true by (symmetry; apply Nat.leb_le; exact Hfew).
  reflexivity.
Qed.

(** X25 ([train], without mini-batches and feature selection).  The
    trainer returns exactly when the three checks pass and the scaler's
    [fit_transform] and the classifier's [fit] return.  It has then
    called [fit] once, on the clipped matrix and the labels as given;
    the model holds that classifier with the genes the filter kept as
    its features, the scaler as fitted, and a description whose date is
    the one given or, for an empty one, the time of the call. *)
Theorem train_plain_run indata labels genes params
  batch_number batch_size epochs top_genes date details url now log :
  (forall scaled clf,
     Classifier.not_normalised indata = inr false ->
     length labels = length indata ->
     length genes = length (hd [] indata) ->
     scaler_fit_transform (fst (Train.drop_non_expressed indata genes)) = inr scaled ->
     sgd_fit params (Np.clip_max 10 (snd scaled)) labels = inr clf ->
     Train.train sgd_fit sgd_partial_fit scaler_fit_transform sklearn_shuffle argpartition
       indata labels genes params false batch_number batch_size epochs
       false top_genes date details url now log
     = ((log ++ [Train.Fit (Np.clip_max 10 (snd scaled)) labels])%list,
        inr (Model.mk
               (Model.set_features (snd (Train.drop_non_expressed indata genes)) clf)
               (fst scaled)
               (Model.mkDescription (if String.eqb date "" then now else date)
                                    details url)))) /\
  (forall log' model,
     Train.train sgd_fit sgd_partial_fit scaler_fit_transform sklearn_shuffle
       argpartition indata labels genes params false batch_number batch_size epochs
       false top_genes date details url now log = (log', inr model) ->
     Classifier.not_normalised indata = inr false /\
     length labels = length indata /\
     length genes = length (hd [] indata) /\
     exists scaled clf,
       scaler_fit_transform (fst (Train.drop_non_expressed indata genes)) = inr scaled /\
       sgd_fit params (Np.clip_max 10 (snd scaled)) labels = inr clf).
Proof using Type.
  split.
  - intros scaled clf Hok Hl Hg Hscaled Hfit. unfold Train.train.
    rewrite (bind_lift_inr _ _ _ _ Hok). rewrite Hl, Hg, !Nat.eqb_refl. simpl.
    rewrite (bind_lift_inr _ _ _ _ Hscaled).
    unfold bind at 1. rewrite sgd_plain, Hfit. reflexivity.
  - intros log' model Hrun.
    destruct (train_checks_inv _ _ _ _ _ _ _ _ _ _ _ _ _ _ _ _ _ Hrun)
      as (H1 & H2 & H3 & scaled & log1 & est & Hscaled & Hfit & _).
    do 3 (split; [assumption |]).
    rewrite sgd_plain in Hfit.
    destruct (sgd_fit params (Np.clip_max 10 (snd scaled)) labels) as [e | clf] eqn:E;
      [discriminate |].
    exists scaled, clf. auto.
Qed.

End TrainMore.

Lemma example_mini_batch_run :
  exists log' model,
    Train.train example_fit example_partial_fit example_scaler example_shuffle
      Train.argpartition_sort example_training_data example_labels example_genes
      example_params true 100 1 (-3) false 1 "" "" "" "2021-01-01" []
    = (log', inr model).
Proof.
  unfold Train.train.
  rewrite (bind_lift_inr _ _ _ _ example_training_data_normalised).
  change (negb (Nat.eqb (length example_labels) (length example_training_data)))
    with false.
  change (negb (Nat.eqb (length example_genes) (length (hd [] example_training_data))))
    with false.
  cbv iota. rewrite example_training_data_expressed.
  eexists _, _. reflexivity.
Qed.

Lemma train_mini_batch_returns_unfitted_witness :
  exists model : Model.t,
    Model.coef_ (Model.classifier model) = [] /\
    Model.features (Model.classifier model) = example_genes.
Proof.
  destruct example_mini_batch_run as (log' & model & Hrun).
  destruct (train_mini_batch_returns_unfitted _ _ _ _ _ _ _ _ _ _ _ _ _ _ _ _ _ _ _ _ _
              Hrun) as (_ & _ & _ & Hcoef & Hfeat).
  rewrite example_training_data_expressed in Hfeat.
  exists model. split; [exact Hcoef | exact Hfeat].
Defined.

Lemma train_checks_before_fit_witness :
  fst (Train.train example_fit example_partial_fit example_scaler example_shuffle
         Train.argpartition_sort example_training_data ["B cells"] example_genes
         example_params false 100 1000 10 false 1 "" "" "" "2021-01-01" [])
  = [].
Proof.
  destruct (Train.train _ _ _ _ _ _ _ _ _ _ _ _ _ _ _ _ _ _ _ _) as [log' r] eqn:Hrun.
  assert (Hbad : Classifier.not_normalised example_training_data <> inr false \/
                 length ["B cells"] <> length example_training_data \/
                 length example_genes <> length (hd [] example_training_data)).
  { right. left. simpl. lia. }
  exact (proj1 (train_checks_before_fit _ _ _ _ _ _ _ _ _ _ _ _ _ _ _ _ _ _ _ _ _ _
                  Hrun Hbad)).
Defined.

Lemma train_selection_fails_after_fit_witness :
  Train.train example_fit example_partial_fit example_scaler example_shuffle
    Train.argpartition_sort example_training_data example_labels example_genes
    example_params false 100 1000 10 true 3 "" "" "" "2021-01-01" []
  = ([Train.Fit (Np.clip_max 10 example_training_data) example_labels],
     inl (ValueError "The number of genes is fewer than the `top_genes`. Unable to perform feature selection")).
Proof.
  apply (train_selection_fails_after_fit example_fit example_partial_fit example_scaler
           example_shuffle Train.argpartition_sort example_training_data example_labels
           example_genes example_params 100 1000 10 3 "" "" "" "2021-01-01" []
           (Model.mkStandardScaler [0%R; 0%R; 0%R] [1%R; 1%R; 1%R] [1%R; 1%R; 1%R] 3,
            example_training_data)
           (Model.mkSGDClassifier example_coef [0%R; 0%R; 0%R] example_labels 3 [])).
  - exact example_training_data_normalised.
  - reflexivity.
  - reflexivity.
  - rewrite example_training_data_expressed. reflexivity.
  - reflexivity.
  - rewrite example_training_data_expressed. simpl. lia.
Defined.

Lemma train_plain_run_witness :
  exists log' model,
    Train.train example_fit example_partial_fit example_scaler example_shuffle
      Train.argpartition_sort example_training_data example_labels example_genes
      example_params false 100 1000 10 false 1 "" "" "" "2021-01-01" []
    = (log', inr model) /\
    length log' = 1 /\
    Model.date (Model.description model) = "2021-01-01".
Proof.
  eexists _, _. split.
  - apply (proj1 (train_plain_run example_fit example_partial_fit example_scaler
             example_shuffle Train.argpartition_sort example_training_data example_labels
             example_genes example_params 100 1000 10 1 "" "" "" "2021-01-01" [])
             (Model.mkStandardScaler [0%R; 0%R; 0%R] [1%R; 1%R; 1%R] [1%R; 1%R; 1%R] 3,
              example_training_data)
             (Model.mkSGDClassifier example_coef [0%R; 0%R; 0%R] example_labels 3 [])).
    + exact example_training_data_normalised.
    + reflexivity.
    + reflexivity.
    + rewrite example_training_data_expressed. reflexivity.
    + reflexivity.
  - split; reflexivity.
Defined.

(** The fit's own refusal comes through: on labels of one class the
    trainer raises what [fit] raises, after the call has been made. *)
Example train_one_class_raises :
  Train.train example_fit example_partial_fit example_scaler example_shuffle
    Train.argpartition_sort example_training_data ["T cells"; "T cells"; "T cells"]
    example_genes example_params false 100 1000 10 false 1 "" "" "" "2021-01-01" []
  = ([Train.Fit (Np.clip_max 10 example_training_data)
                ["T cells"; "T cells"; "T cells"]],
     inl (ValueError "The number of classes has to be greater than one")).
Proof.
  unfold Train.train.
  rewrite (bind_lift_inr _ _ _ _ example_training_data_normalised).
  change (negb (Nat.eqb (length ["T cells"; "T cells"; "T cells"])
                        (length example_training_data))) with false.
  change (negb (Nat.eqb (length example_genes) (length (hd [] example_training_data))))
    with false.
  cbv iota. rewrite example_training_data_expressed.
  reflexivity.
Qed.

(** ** [train]: the filter of non-expressed genes *)

Lemma compress_map {A B} (f : A -> B) (mask : list bool) (a : list A) :
  Np.compress mask (map f a) = map f (Np.compress mask a).
Proof.
  revert a. induction mask as [| b mask IH]; intros [| x a]; simpl; try reflexivity.
  destruct b; simpl; rewrite IH; reflexivity.
Qed.

Lemma compress_seq (mask : list bool) (i : nat) :
  Np.compress mask (seq i (length mask)) = Np.where_from i mask.
Proof.
  revert i. induction mask as [| b mask IH]; intros i; simpl; [reflexivity |].
  destruct b; rewrite IH; reflexivity.
Qed.

Lemma compress_map_filter {A} (f : A -> bool) (a : list A) :
  Np.compress (map f a) a = List.filter f a.
Proof.
  induction a as [| x a IH]; simpl; [reflexivity |].
  destruct (f x); rewrite IH; reflexivity.
Qed.

Lemma compress_length {A} (mask : list bool) (a : list A) :
  length mask = length a -> length (Np.compress mask a) = length (Np.where_ mask).
Proof. intros H. exact (take_length _ _ _ (take_where a mask H)). Qed.

Lemma compress_nth {A} (mask : list bool) (a : list A) (d : A) (j : nat) :
  length mask = length a -> j < length (Np.where_ mask) ->
  nth j (Np.compress mask a) d = nth (nth j (Np.where_ mask) 0) a d.
Proof.
  intros Hlen Hj.
  pose proof (take_where a mask Hlen) as Htake.
  pose proof (lookup_nth (Np.where_ mask) j 0 Hj) as Hw.
  pose proof (take_lookup _ _ _ _ _ Htake Hw) as Hl.
  rewrite (nth_lookup (Np.compress mask a) j d), Hl. symmetry. apply nth_lookup.
Qed.

(** The column sums of the compressed matrix are the sums of the
    columns that were kept. *)
Lemma sum_axis0_compress (mask : list bool) (a : list (list R)) :
  Forall (fun row => length row = length mask) a ->
  Np.sum_axis0 (length (Np.where_ mask)) (map (Np.compress mask) a)
  = Np.compress mask (Np.sum_axis0 (length mask) a).
Proof.
  intros Hrows. unfold Np.sum_axis0.
  rewrite compress_map, compress_seq. fold (Np.where_ mask).
  rewrite <- (map_nth_seq (Np.where_ mask) 0) at 2. rewrite map_map.
  apply map_ext_in. intros j Hj. apply in_seq in Hj. f_equal.
  rewrite map_map. apply map_ext_in. intros row Hrow.
  apply compress_nth; [| lia].
  symmetry. exact (proj1 (List.Forall_forall _ _) Hrows row Hrow).
Qed.

Lemma existsb_false_all (flag : list bool) :
  existsb (fun b : bool => b) flag = false -> map negb flag = map (fun _ => true) flag.
Proof.
  induction flag as [| b flag IH]; simpl; [reflexivity |].
  destruct b; simpl; [discriminate |]. intros H. rewrite IH by exact H. reflexivity.
Qed.

Lemma compress_all_true {A B} (l : list B) (a : list A) :
  length l = length a -> Np.compress (map (fun _ => true) l) a = a.
Proof.
  revert a. induction l as [| y l IH]; intros [| x a] H; simpl in *;
    try reflexivity; try discriminate.
  rewrite IH by lia. reflexivity.
Qed.

(** The filter, whether or not it finds a column to drop: it keeps the
    positions whose column sum is not zero. *)
Lemma drop_non_expressed_compress (indata : list (list R)) (genes : list string) :
  Forall (fun row => length row = length genes) indata ->
  Train.drop_non_expressed indata genes
  = (map (Np.compress (map (fun s => if Req_dec_T s 0 then false else true)
                           (Np.sum_axis0 (length genes) indata))) indata,
     Np.compress (map (fun s => if Req_dec_T s 0 then false else true)
                      (Np.sum_axis0 (length genes) indata)) genes).
Proof.
  intros Hrows. unfold Train.drop_non_expressed.
  assert (Hkeep : map negb (map (fun s => if Req_dec_T s 0 then true else false)
                             (Np.sum_axis0 (length genes) indata))
                  = map (fun s => if Req_dec_T s 0 then false else true)
                        (Np.sum_axis0 (length genes) indata)).
  { rewrite map_map. apply map_ext. intros s. destruct (Req_dec_T s 0); reflexivity. }
  destruct (existsb _ _) eqn:E.
  - rewrite Hkeep. reflexivity.
  - apply existsb_false_all in E. rewrite Hkeep in E. rewrite E.
    assert (Hk : length (map (fun s => if Req_dec_T s 0 then true else false)
                           (Np.sum_axis0 (length genes) indata)) = length genes).
    { unfold Np.sum_axis0. rewrite !length_map, length_seq. reflexivity. }
    rewrite compress_all_true by exact Hk. f_equal.
    rewrite <- (map_id indata) at 1. apply map_ext_in. intros row Hrow.
    symmetry. apply compress_all_true. rewrite Hk.
    symmetry. exact (proj1 (List.Forall_forall _ _) Hrows row Hrow).
Qed.

(** X26 ([train], the filter of non-expressed genes).  On a matrix with
    one column per gene the filter keeps the matrix and the gene list
    in step: every row of the result has one entry per gene kept, the
    genes kept are genes of the input, no column of the result sums to
    zero, and filtering the result again changes nothing. *)
Theorem drop_non_expressed_spec (indata : list (list R)) (genes : list string) :
  Forall (fun row => length row = length genes) indata ->
  let indata' := fst (Train.drop_non_expressed indata genes) in
  let genes' := snd (Train.drop_non_expressed indata genes) in
  Forall (fun row => length row = length genes') indata' /\
  (forall g, In g genes' -> In g genes) /\
  Forall (fun s => s <> 0%R) (Np.sum_axis0 (length genes') indata') /\
  Train.drop_non_expressed indata' genes' = (indata', genes').
Proof.
  intros Hrows indata' genes'. unfold indata', genes'. clear indata' genes'.
  rewrite (drop_non_expressed_compress _ _ Hrows). simpl.
  set (sums := Np.sum_axis0 (length genes) indata).
  set (keep := map (fun s => if Req_dec_T s 0 then false else true) sums).
  assert (Hk : length keep = length genes).
  { unfold keep, sums, Np.sum_axis0. rewrite !length_map, length_seq. reflexivity. }
  assert (Hrows' : Forall (fun row => length row = length keep) indata).
  { rewrite Hk. exact Hrows. }
  assert (Hlen : length (Np.compress keep genes) = length (Np.where_ keep)).
  { apply compress_length, Hk. }
  assert (Hsums : Forall (fun s => s <> 0%R)
                    (Np.sum_axis0 (length (Np.compress keep genes))
                                  (map (Np.compress keep) indata))).
  { rewrite Hlen, (sum_axis0_compress _ _ Hrows'), Hk. fold sums. unfold keep.
    rewrite compress_map_filter. apply List.Forall_forall. intros s Hs.
    apply filter_In in Hs as [_ Hs]. destruct (Req_dec_T s 0); [discriminate | assumption]. }
  split; [| split; [| split]].
  - apply List.Forall_forall. intros row Hrow.
    apply in_map_iff in Hrow as (row0 & <- & Hrow0).
    rewrite Hlen. apply compress_length.
    symmetry. exact (proj1 (List.Forall_forall _ _) Hrows' row0 Hrow0).
  - intros g Hg.
    pose proof (take_where genes keep Hk) as Htake.
    destruct (mapM_In _ _ _ _ Htake Hg) as (i & _ & Hi).
    destruct (genes !! i) as [g0 |] eqn:Hgi; [| discriminate].
    inversion Hi; subst g0.
    apply list_elem_of_In. eapply list_elem_of_lookup_2. exact Hgi.
  - exact Hsums.
  - apply drop_non_expressed_none, Hsums.
Qed.

Lemma drop_non_expressed_spec_witness :
  Train.drop_non_expressed
    (fst (Train.drop_non_expressed [[1%R; 0%R]; [2%R; 0%R]] ["CD3E"; "CD19"]))
    (snd (Train.drop_non_expressed [[1%R; 0%R]; [2%R; 0%R]] ["CD3E"; "CD19"]))
  = (fst (Train.drop_non_expressed [[1%R; 0%R]; [2%R; 0%R]] ["CD3E"; "CD19"]),
     snd (Train.drop_non_expressed [[1%R; 0%R]; [2%R; 0%R]] ["CD3E"; "CD19"])).
Proof.
  assert (Hrows : Forall (fun row : list R => length row = length ["CD3E"; "CD19"])
                         [[1%R; 0%R]; [2%R; 0%R]]).
  { repeat constructor. }
  exact (proj2 (proj2 (proj2 (drop_non_expressed_spec _ _ Hrows)))).
Defined.

Example drop_non_expressed_drops_a_column :
  Train.drop_non_expressed [[1%R; 0%R]; [2%R; 0%R]] ["CD3E"; "CD19"]
  = ([[1%R]; [2%R]], ["CD3E"]).
Proof.
  unfold Train.drop_non_expressed, Np.sum_axis0, Np.sum. simpl.
  destruct (Req_dec_T (1 + (2 + 0)) 0) as [H | _]; [lra |].
  destruct (Req_dec_T (0 + (0 + 0)) 0) as [_ | H]; [| lra].
  reflexivity.
Qed.

(** ** [train]: feature selection with [top_genes = 0] *)

Lemma seq_sorted (i n : nat) : StronglySorted lt (seq i n).
Proof.
  revert i. induction n as [| n IH]; intros i; simpl; constructor; [apply IH |].
  apply List.Forall_forall. intros j Hj. apply in_seq in Hj. lia.
Qed.

(** Two ascending lists with the same elements are the same list. *)
Lemma sorted_lt_ext (l1 l2 : list nat) :
  StronglySorted lt l1 -> StronglySorted lt l2 ->
  (forall x, In x l1 <-> In x l2) -> l1 = l2.
Proof.
  intros H1. revert l2. induction H1 as [| x1 l1 Hs1 IH Hall1]; intros l2 H2 Hext.
  - destruct l2 as [| x2 l2]; [reflexivity |].
    exfalso. apply (proj2 (Hext x2)). left. reflexivity.
  - destruct H2 as [| x2 l2 Hs2 Hall2].
    + exfalso. apply (proj1 (Hext x1)). left. reflexivity.
    + pose proof (proj1 (List.Forall_forall _ _) Hall1) as Ha1.
      pose proof (proj1 (List.Forall_forall _ _) Hall2) as Ha2.
      assert (x1 = x2).
      { destruct (proj1 (Hext x1) (or_introl eq_refl)) as [E | Hin1]; [auto |].
        destruct (proj2 (Hext x2) (or_introl eq_refl)) as [E | Hin2]; [auto |].
        specialize (Ha1 _ Hin2). specialize (Ha2 _ Hin1). lia. }
      subst x2. f_equal. apply IH; [exact Hs2 |].
      intros x. split; intros Hx.
      * destruct (proj1 (Hext x) (or_intror Hx)) as [E | Hin]; [| exact Hin].
        specialize (Ha1 _ Hx). lia.
      * destruct (proj2 (Hext x) (or_intror Hx)) as [E | Hin]; [| exact Hin].
        specialize (Ha2 _ Hx). lia.
Qed.

(** X27 ([train], feature selection with [top_genes = 0]).  With
    [top_genes = 0] the selection keeps every feature: numpy reads the
    slice [[:, -0:]] as the whole row, so for a weight matrix with at
    least one class and one feature the index array is [0 .. n-1]. *)
Theorem select_features_top_genes_zero (argpartition : list R -> nat -> list nat)
  (coef : list (list R)) (n : nat) :
  Train.argpartition_contract argpartition ->
  coef <> [] -> 0 < n ->
  Forall (fun row => length row = n) coef ->
  Train.select_features argpartition 0 coef = inr (seq 0 n).
Proof.
  intros Hcontract Hne Hn Hrows. unfold Train.select_features.
  rewrite (mapM_pure _ (fun row => argpartition (map Rabs row) 0)).
  - simpl. f_equal.
    apply sorted_lt_ext; [apply unique_nat_ascending | apply seq_sorted |].
    intros j. rewrite unique_nat_In, in_concat. split.
    + intros (p & Hp & Hj). apply in_map_iff in Hp as (row & <- & Hrow).
      pose proof (proj1 (List.Forall_forall _ _) Hrows row Hrow) as Hlen. simpl in Hlen.
      destruct (Hcontract (map Rabs row) 0) as [Hperm _]; [rewrite length_map; lia |].
      apply (Permutation_in _ Hperm) in Hj. rewrite length_map, Hlen in Hj. exact Hj.
    + intros Hj. destruct coef as [| row coef]; [contradiction |].
      pose proof (proj1 (List.Forall_forall _ _) Hrows row (or_introl eq_refl)) as Hlen.
      simpl in Hlen.
      destruct (Hcontract (map Rabs row) 0) as [Hperm _]; [rewrite length_map; lia |].
      exists (argpartition (map Rabs row) 0). split; [left; reflexivity |].
      apply (Permutation_in _ (Permutation_sym Hperm)).
      rewrite length_map, Hlen. exact Hj.
  - intros row Hrow.
    pose proof (proj1 (List.Forall_forall _ _) Hrows row Hrow) as Hlen. simpl in Hlen.
    unfold Train.top_index. rewrite length_map, Hlen. simpl.
    destruct n; [lia | reflexivity].
Qed.

Lemma select_features_top_genes_zero_witness :
  Train.select_features Train.argpartition_sort 0 example_coef = inr [0; 1; 2].
Proof.
  apply (select_features_top_genes_zero Train.argpartition_sort example_coef 3).
  - exact argpartition_sort_contract.
  - discriminate.
  - lia.
  - repeat constructor.
Defined.

(** ** [_prepare_data], [_to_array] and the entry of [train] *)

Lemma compress_In {A} (mask : list bool) (a : list A) (x : A) :
  In x (Np.compress mask a) -> In x a.
Proof.
  revert a. induction mask as [| b mask IH]; intros [| y a] H; simpl in *;
    try contradiction.
  destruct b; [destruct H as [-> | H]; [left; reflexivity |] |]; right; apply IH, H.
Qed.

Lemma drop_non_expressed_genes_In (indata : list (list R)) (genes : list string)
  (g : string) :
  In g (snd (Train.drop_non_expressed indata genes)) -> In g genes.
Proof.
  unfold Train.drop_non_expressed. destruct (existsb _ _); simpl; [| auto].
  apply compress_In.
Qed.

Lemma take_In {A} (a l : list A) (idx : list nat) (x : A) :
  Np.take a idx = inr l -> In x l -> In x a.
Proof.
  intros Htake Hx. destruct (mapM_In _ _ _ _ Htake Hx) as (i & _ & Hi).
  destruct (a !! i) as [y |] eqn:Hy; [| discriminate]. inversion Hi; subst y.
  apply list_elem_of_In. eapply list_elem_of_lookup_2. exact Hy.
Qed.

Lemma amin_nonneg (a : list (list R)) (lo : R) :
  Forall (Forall (fun x => (0 <= x)%R)) a -> Np.amin a = Some lo -> (0 <= lo)%R.
Proof.
  intros Ha. unfold Np.amin.
  assert (Hc : List.Forall (fun x => (0 <= x)%R) (concat a)).
  { apply List.Forall_forall. intros x Hx. apply in_concat in Hx as (row & Hrow & Hx).
    apply list_elem_of_In in Hrow, Hx.
    rewrite Forall_forall in Ha. specialize (Ha row Hrow).
    rewrite Forall_forall in Ha. exact (Ha x Hx). }
  destruct (concat a) as [| x xs]; [discriminate |].
  intros H. inversion H; subst lo. clear H.
  inversion Hc as [| ? ? Hx Hxs]; subst. clear Hc.
  revert x Hx. induction Hxs as [| y ys Hy _ IH]; intros x Hx; simpl; [exact Hx |].
  apply IH. unfold Rmin. destruct (Rle_dec x y); assumption.
Qed.

Lemma fold_left_Rmin_le (xs : list R) (x : R) : (fold_left Rmin xs x <= x)%R.
Proof.
  revert x. induction xs as [| y ys IH]; intros x; simpl; [lra |].
  eapply Rle_trans; [apply IH | apply Rmin_l].
Qed.

(** The minimum is not above the first entry. *)
Lemma amin_le_first (x : R) (row : list R) (a : list (list R)) (lo : R) :
  Np.amin ((x :: row) :: a) = Some lo -> (lo <= x)%R.
Proof.
  unfold Np.amin. simpl. intros H. inversion H. apply fold_left_Rmin_le.
Qed.

Section TrainEntry.

Variable sc_read : string -> result (AnnData.t * gmap string (list string)).
Variable read_column : string -> result (list string).
Variable var_names_make_unique : list string -> list string.
Variable normalize_total : R -> list (list R) -> list (list R).
Variable log1p : list (list R) -> list (list R).
Variable sgd_fit :
  Train.SGDParams -> list (list R) -> list string -> result Model.SGDClassifier.
Variable sgd_partial_fit :
  Train.SGDParams -> Train.estimator -> list (list R) -> list string -> list string ->
  result Model.SGDClassifier.
Variable scaler_fit_transform :
  list (list R) -> result (Model.StandardScaler * list (list R)).
Variable sklearn_shuffle :
  nat -> list (list R) -> list string -> result (list (list R) * list string).
Variable argpartition : list R -> nat -> list nat.

(** X28 ([_prepare_data], the arguments that are not read).  For an
    [AnnData] object and for an [.h5ad] file neither [genes] nor
    [transpose] plays a part: the genes are those of the object.  For a
    [DataFrame] and for a text file that is not a matrix-market file
    [genes] plays no part: the genes are the columns of the table. *)
Theorem prepare_data_unread_arguments :
  (forall adata obs labels genes transpose,
     TrainInput._prepare_data sc_read read_column var_names_make_unique normalize_total
       log1p (TrainInput.XAnnData adata obs) labels genes transpose
     = TrainInput._prepare_data sc_read read_column var_names_make_unique normalize_total
         log1p (TrainInput.XAnnData adata obs) labels None false) /\
  (forall pre labels genes transpose,
     TrainInput._prepare_data sc_read read_column var_names_make_unique normalize_total
       log1p (TrainInput.XPath (pre ++ ".h5ad")) labels genes transpose
     = TrainInput._prepare_data sc_read read_column var_names_make_unique normalize_total
         log1p (TrainInput.XPath (pre ++ ".h5ad")) labels None false) /\
  (forall df labels genes transpose,
     TrainInput._prepare_data sc_read read_column var_names_make_unique normalize_total
       log1p (TrainInput.XArrayLike (TrainInput.ADataFrame df)) labels genes transpose
     = TrainInput._prepare_data sc_read read_column var_names_make_unique normalize_total
         log1p (TrainInput.XArrayLike (TrainInput.ADataFrame df)) labels None transpose) /\
  (forall pre suf labels genes transpose,
     In suf [".csv"; ".txt"; ".tsv"; ".tab"] ->
     TrainInput._prepare_data sc_read read_column var_names_make_unique normalize_total
       log1p (TrainInput.XPath (pre ++ suf)) labels genes transpose
     = TrainInput._prepare_data sc_read read_column var_names_make_unique normalize_total
         log1p (TrainInput.XPath (pre ++ suf)) labels None transpose).
Proof using Type.
  split; [| split; [| split]].
  - intros adata obs [labels |] genes transpose; reflexivity.
  - intros pre [labels |] genes transpose; [| reflexivity].
    unfold TrainInput._prepare_data.
    assert (E : Classifier.endswith (pre ++ ".h5ad") [".h5ad"] = true).
    { apply endswith_spec. exists pre, ".h5ad". split; [left |]; reflexivity. }
    rewrite E. reflexivity.
  - intros df [labels |] genes [|]; reflexivity.
  - intros pre suf [labels |] genes transpose Hsuf; [| reflexivity].
    unfold TrainInput._prepare_data.
    rewrite (text_is_no_mtx pre suf Hsuf). reflexivity.
Qed.

(** X29 ([train], a nested list as training data).  A plain nested list
    is never accepted: whatever the other arguments, the trainer raises
    before any check of the data, and no estimator is fitted. *)
Theorem train_rejects_plain_list (m : list (list R))
  (labels genes : option TrainInput.vector_input) (transpose_input : bool)
  (params : Train.SGDParams) (mini_batch : bool) (batch_number batch_size epochs : Z)
  (feature_selection : bool) (top_genes : nat) (date details url now : string)
  (log : list Train.call) :
  exists e,
    TrainInput.train sc_read read_column var_names_make_unique normalize_total log1p
      sgd_fit sgd_partial_fit scaler_fit_transform sklearn_shuffle argpartition
      (TrainInput.XArrayLike (TrainInput.AList m)) labels genes transpose_input
      params mini_batch batch_number batch_size epochs feature_selection top_genes
      date details url now log
    = (log, inl e).
Proof using Type.
  unfold TrainInput.train.
  destruct (TrainInput._prepare_data _ _ _ _ _ _ _ _ _) as [e | prepared] eqn:Hprep.
  - exists e. reflexivity.
  - rewrite (bind_lift_inr _ _ _ _ eq_refl).
    assert (Hlist : exists m', fst (fst prepared) = TrainInput.AList m').
    { unfold TrainInput._prepare_data in Hprep.
      destruct labels as [labels |]; [| discriminate].
      destruct transpose_input; [discriminate |]. simpl in Hprep.
      destruct genes as [genes |]; [| discriminate]. simpl in Hprep.
      destruct (TrainInput._to_vector read_column genes); [discriminate |].
      simpl in Hprep.
      destruct (TrainInput._to_vector read_column labels); [discriminate |].
      simpl in Hprep. inversion Hprep. exists m. reflexivity. }
    destruct Hlist as [m' ->]. eexists. reflexivity.
Qed.

(** A model that [Train.train] returns has features among the genes it
    was given. *)
Lemma train_features_In indata labels genes params mini_batch
  batch_number batch_size epochs feature_selection top_genes date details url now
  log log' model g :
  Train.train sgd_fit sgd_partial_fit scaler_fit_transform sklearn_shuffle argpartition
    indata labels genes params mini_batch batch_number batch_size epochs
    feature_selection top_genes date details url now log = (log', inr model) ->
  In g (Model.features (Model.classifier model)) -> In g genes.
Proof using Type.
  intros Hrun Hg. destruct feature_selection.
  - apply train_selection_inv in Hrun
      as (log1 & scaled & clf1 & gene_index & genes2 & X2 & est2 & scaler2 & Hsel & Hf & _).
    destruct Hsel as [_ _ _ _ Hgenes _ _ _].
    rewrite Hf in Hg.
    apply (drop_non_expressed_genes_In indata). eapply take_In; eauto.
  - apply train_checks_inv in Hrun
      as (_ & _ & _ & scaled & log1 & est & _ & _ & Hplain & _).
    destruct (Hplain eq_refl) as (_ & ->). simpl in Hg.
    apply (drop_non_expressed_genes_In indata), Hg.
Qed.

(** X30 ([train] on an [AnnData] object).  The sign of the smallest
    entry of [X] decides where the features of the trained model come
    from: when no entry is negative they are among [var_names], when
    one is they are among [raw.var_names], and [raw] is there.  A
    [genes] argument passed along has no influence on them. *)
Theorem train_anndata_features (adata : AnnData.t) (obs : gmap string (list string))
  (labels genes : option TrainInput.vector_input) (transpose_input : bool)
  (params : Train.SGDParams) (mini_batch : bool) (batch_number batch_size epochs : Z)
  (feature_selection : bool) (top_genes : nat) (date details url now : string)
  (log log' : list Train.call) (model : Model.t) :
  TrainInput.train sc_read read_column var_names_make_unique normalize_total log1p
    sgd_fit sgd_partial_fit scaler_fit_transform sklearn_shuffle argpartition
    (TrainInput.XAnnData adata obs) labels genes transpose_input
    params mini_batch batch_number batch_size epochs feature_selection top_genes
    date details url now log
  = (log', inr model) ->
  exists lo,
    Np.amin (AnnData.X adata) = Some lo /\
    ((~ (lo < 0)%R /\
      forall g, In g (Model.features (Model.classifier model)) ->
                In g (AnnData.var_names adata)) \/
     ((lo < 0)%R /\
      exists X names,
        AnnData.raw adata = Some (X, names) /\
        forall g, In g (Model.features (Model.classifier model)) -> In g names)).
Proof using Type.
  unfold TrainInput.train. intros Hrun.
  step_success Hrun. step_success Hrun.
  assert (Hin : forall g, In g (Model.features (Model.classifier model)) ->
                          In g (snd a)).
  { intros g Hg.
    exact (train_features_In _ _ _ _ _ _ _ _ _ _ _ _ _ _ _ _ _ g Hrun Hg). }
  clear Hrun Hstep0.
  unfold TrainInput._prepare_data in Hstep.
  destruct labels as [labels |]; [| discriminate].
  unfold TrainInput.prepare_adata in Hstep.
  destruct (Np.amin (AnnData.X adata)) as [lo |]; [| discriminate]. simpl in Hstep.
  exists lo. split; [reflexivity |].
  destruct (Rlt_dec lo 0) as [Hneg | Hpos].
  - destruct (AnnData.raw adata) as [[X names] |] eqn:Hraw; [| discriminate].
    simpl in Hstep.
    destruct (match labels with
              | TrainInput.VPath name => _
              | TrainInput.VVector _ => _
              end) as [e | labels']; [discriminate |].
    simpl in Hstep. inversion Hstep; subst a. simpl in Hin.
    right. split; [exact Hneg |]. exists X, names. auto.
  - simpl in Hstep.
    destruct (match labels with
              | TrainInput.VPath name => _
              | TrainInput.VVector _ => _
              end) as [e | labels']; [discriminate |].
    simpl in Hstep. inversion Hstep; subst a. simpl in Hin. left. auto.
Qed.

End TrainEntry.

Lemma prepare_data_unread_arguments_witness :
  TrainInput._prepare_data example_read_obs example_read_column example_make_unique
    example_normalize_total example_log1p
    (TrainInput.XPath ("cells" ++ ".csv")) (Some (TrainInput.VVector example_labels))
    (Some (TrainInput.VPath "genes.tsv")) false
  = TrainInput._prepare_data example_read_obs example_read_column example_make_unique
      example_normalize_total example_log1p
      (TrainInput.XPath ("cells" ++ ".csv")) (Some (TrainInput.VVector example_labels))
      None false.
Proof.
  apply (proj2 (proj2 (proj2 (prepare_data_unread_arguments example_read_obs
           example_read_column example_make_unique example_normalize_total
           example_log1p)))).
  left. reflexivity.
Defined.

Lemma train_anndata_example_run :
  exists log' model,
    TrainInput.train example_read_obs example_read_column example_make_unique
      example_normalize_total example_log1p
      example_fit example_partial_fit example_scaler example_shuffle
      Train.argpartition_sort
      (TrainInput.XAnnData scaled_training_adata training_obs)
      (Some (TrainInput.VPath "cell_type")) (Some (TrainInput.VVector ["unused"])) true
      example_params false 100 1000 10 false 1 "" "" "" "2021-01-01" []
    = (log', inr model).
Proof.
  unfold TrainInput.train.
  assert (Hprep : TrainInput._prepare_data example_read_obs example_read_column
                    example_make_unique example_normalize_total example_log1p
                    (TrainInput.XAnnData scaled_training_adata training_obs)
                    (Some (TrainInput.VPath "cell_type"))
                    (Some (TrainInput.VVector ["unused"])) true
                  = inr (TrainInput.ANdarray example_training_data,
                         example_labels, example_genes)).
  { unfold TrainInput._prepare_data, TrainInput.prepare_adata.
    destruct (Np.amin (AnnData.X scaled_training_adata)) as [lo |] eqn:Hmin;
      [| discriminate].
    apply amin_le_first in Hmin.
    simpl. destruct (Rlt_dec lo 0); [| lra]. reflexivity. }
  rewrite (bind_lift_inr _ _ _ _ Hprep).
  erewrite bind_lift_inr by reflexivity.
  unfold Train.train. simpl fst. simpl snd.
  rewrite (bind_lift_inr _ _ _ _ example_training_data_normalised).
  change (negb (Nat.eqb (length example_labels) (length example_training_data)))
    with false.
  change (negb (Nat.eqb (length example_genes) (length (hd [] example_training_data))))
    with false.
  cbv iota. rewrite example_training_data_expressed.
  eexists _, _. reflexivity.
Qed.

Lemma train_anndata_features_witness :
  exists (lo : R) (model : Model.t),
    Np.amin (AnnData.X scaled_training_adata) = Some lo /\
    (lo < 0)%R /\
    AnnData.var_names scaled_training_adata = ["MS4A1"; "CD3E"] /\
    forall g, In g (Model.features (Model.classifier model)) -> In g example_genes.
Proof.
  destruct train_anndata_example_run as (log' & model & Hrun).
  destruct (train_anndata_features _ _ _ _ _ _ _ _ _ _ _ _ _ _ _ _ _ _ _ _ _ _ _ _ _ _
              _ _ _ Hrun) as (lo & Hmin & Hcases).
  exists lo, model. split; [exact Hmin |].
  assert (Hneg : (lo < 0)%R) by (apply amin_le_first in Hmin; lra).
  split; [exact Hneg |]. split; [reflexivity |].
  destruct Hcases as [(Hpos & _) | (_ & X & names & Hraw & Hin)]; [contradiction |].
  injection Hraw as _ <-. exact Hin.
Defined.
